(** * EPUB package validation ([epub.py]): model and verified properties

    The Python module validates an EPUB archive in three steps:
    [verify_mimetype] checks the identification entry, [parse_container]
    finds the package document, and [parse_package] runs the five parsers
    of the package document.  This file embeds those functions and proves
    (or refutes, with the run that shows it) the properties stated about
    them.

    Modelling conventions:
    - a Python exception is a value of [exn]; every [raise ValueError(..)]
      of the module is one constructor of [failure], and [message] gives
      the text the source puts in it;
    - a Python function is a computation in the monad [M], which carries
      the records handed to [logging] and either the returned value or the
      raised exception;
    - [Optional[str]] is [option string]; truthiness ([if not x]) is
      [truthy];
    - a [set] is a [gset], a [dict] a [gmap], a Python list a [list] that
      grows at its end;
    - the archive library and the XML library are collaborators: the
      archive is a list of entries with the bytes of the file on disk, an
      element tree is the inductive type [Element], and the two functions
      that this module cannot define itself (UTF-8 decoding and
      [ET.fromstring]) are the fields of the class [Collaborators]. *)

From Stdlib Require Import ZArith String List Bool Lia DecimalString.
From stdpp Require Import base option list strings gmap.

Open Scope string_scope.

(** ** Exceptions *)

(** One constructor for each [raise ValueError(...)] of the module, in
    source order. *)
Inductive failure :=
  (* verify_mimetype *)
  | MimetypeNotFirst
  | MimetypeCompressed
  | MimetypeExtraFields
  | MimetypeEncrypted
  | MimetypeNotAscii
  | BadZipMagic
  | MimetypeNameMisplaced
  | MimetypeContentMisplaced
  (* parse_container *)
  | ContainerMissing
  | ContainerNotUtf8
  | NoRootfiles
  | NoPackageRootfile
  | ContainerParseFailure (detail : string)
  (* parse_package_identity *)
  | RootNotPackage
  | MissingVersion
  | MissingUniqueIdentifier
  | OpfParseFailure (detail : string)
  (* parse_metadata *)
  | UniqueIdentifierUnmatched (unique_identifier : string)
  (* parse_manifest *)
  | MissingManifest
  | ItemMissingId
  | ItemMissingHref
  | ItemMissingMediaType
  | DuplicateHref (href : string)
  | ManifestParseFailure (detail : string)
  (* parse_spine *)
  | MissingSpine
  | SpineMissingToc
  | ItemrefMissingIdref
  | DuplicateIdref (idref : string)
  | IdrefUnresolved (idref : string)
  | NotContentDocument (idref : string)
  | SpineParseFailure (detail : string)
  (* parse_guide *)
  | ReferenceIncomplete
  | GuideParseFailure (detail : string)
  (* parse_package *)
  | PackageMissing (path : string)
  | PackageNotUtf8 (path : string).

(** The argument of [ValueError] at each raise site. *)
Definition message (f : failure) : string :=
  match f with
  | MimetypeNotFirst =>
      "The 'mimetype' file is not the first file in the ZIP archive."
  | MimetypeCompressed =>
      "The 'mimetype' file is compressed. It must be stored uncompressed."
  | MimetypeExtraFields =>
      "The 'mimetype' file contains extra fields in the ZIP header, which is not allowed."
  | MimetypeEncrypted =>
      "The 'mimetype' file is encrypted, which is not allowed."
  | MimetypeNotAscii =>
      "The 'mimetype' file is not properly encoded as ASCII."
  | BadZipMagic =>
      "Invalid ZIP magic number. The file may not be a valid ZIP archive."
  | MimetypeNameMisplaced =>
      "The 'mimetype' file is not correctly located or formatted."
  | MimetypeContentMisplaced =>
      "The 'mimetype' file content is not correctly located or formatted."
  | ContainerMissing => "Missing 'META-INF/container.xml' in EPUB file"
  | ContainerNotUtf8 => "Failed to decode 'META-INF/container.xml' as UTF-8"
  | NoRootfiles => "No <rootfiles> element found in container.xml"
  | NoPackageRootfile =>
      "No EPUB rootfile found in container.xml with media-type 'application/oebps-package+xml'"
  | ContainerParseFailure e => "Failed to parse 'container.xml': " +:+ e
  | RootNotPackage => "Root element is not 'package'"
  | MissingVersion => "Missing 'version' attribute in <package> element"
  | MissingUniqueIdentifier =>
      "Missing 'unique-identifier' attribute in <package> element"
  | OpfParseFailure e => "Failed to parse OPF file: " +:+ e
  | UniqueIdentifierUnmatched u =>
      "Error: unique-identifier '" +:+ u +:+ "' does not match any <dc:identifier> id"
  | MissingManifest => "Missing <manifest> section in OPF file"
  | ItemMissingId => "Missing 'id' attribute in <item>"
  | ItemMissingHref => "Missing 'href' attribute in <item>"
  | ItemMissingMediaType => "Missing 'media-type' attribute in <item>"
  | DuplicateHref h => "Duplicate href '" +:+ h +:+ "' found in <manifest>"
  | ManifestParseFailure e => "Failed to parse OPF manifest section: " +:+ e
  | MissingSpine => "Missing <spine> section in OPF file"
  | SpineMissingToc => "The <spine> element is missing the 'toc' attribute"
  | ItemrefMissingIdref => "<itemref> missing 'idref' attribute"
  | DuplicateIdref i => "Duplicate idref '" +:+ i +:+ "' found in <spine>"
  | IdrefUnresolved i =>
      "idref '" +:+ i +:+ "' in <itemref> does not reference any Manifest item"
  | NotContentDocument i =>
      "Itemref idref '" +:+ i
        +:+ "' does not reference a valid OPS Content Document, even with fallback"
  | SpineParseFailure e => "Failed to parse OPF spine section: " +:+ e
  | ReferenceIncomplete =>
      "Each <reference> must have 'type' and 'href' attributes"
  | GuideParseFailure e => "Failed to parse OPF guide section: " +:+ e
  | PackageMissing p => "Missing package content file: " +:+ p
  | PackageNotUtf8 p =>
      "Failed to decode package content file as UTF-8: " +:+ p
  end.

(** The exceptions that occur in the module: the [ValueError]s it raises
    itself, and the three library exceptions it catches. *)
Inductive exn :=
  | ValueError (why : failure)
  | KeyError (name : string)
  | UnicodeDecodeError
  | ParseError (detail : string).

(** The error kinds of the specification (its section 7).  They are not
    classes of the source, which raises [ValueError] throughout. *)
Inductive error_kind :=
  | StructuralError
  | EncodingError
  | MalformedDocumentError
  | ReferenceNotFoundError
  | DuplicateKeyError
  | MissingResourceError.

(** The kind the specification gives to each failure (its sections 4.1 to
    4.8 and 7). *)
Definition kind_of (f : failure) : error_kind :=
  match f with
  | MimetypeNotFirst | MimetypeCompressed | MimetypeExtraFields
  | MimetypeEncrypted | MimetypeNotAscii | BadZipMagic
  | MimetypeNameMisplaced | MimetypeContentMisplaced => StructuralError
  | ContainerMissing | PackageMissing _ => MissingResourceError
  | ContainerNotUtf8 | PackageNotUtf8 _ => EncodingError
  | ContainerParseFailure _ | OpfParseFailure _ | ManifestParseFailure _
  | SpineParseFailure _ | GuideParseFailure _ => MalformedDocumentError
  | NoRootfiles | NoPackageRootfile | UniqueIdentifierUnmatched _
  | IdrefUnresolved _ | NotContentDocument _ => ReferenceNotFoundError
  | DuplicateHref _ | DuplicateIdref _ => DuplicateKeyError
  | RootNotPackage | MissingVersion | MissingUniqueIdentifier
  | MissingManifest | ItemMissingId | ItemMissingHref | ItemMissingMediaType
  | MissingSpine | SpineMissingToc | ItemrefMissingIdref
  | ReferenceIncomplete => StructuralError
  end.

(** ** Logging and the monad of the module *)

Inductive level := INFO | WARNING.

Record log_record := LogRecord { log_level : level; log_text : string }.

Inductive outcome (A : Type) :=
  | Returned (a : A)
  | Raised (e : exn).
Arguments Returned {A} a.
Arguments Raised {A} e.

(** A run of a function: the records logged, in order, and how it ended. *)
Record M (A : Type) := Run { logged : list log_record; result : outcome A }.
Arguments Run {A} logged result.
Arguments logged {A} m.
Arguments result {A} m.

Definition ret {A} (a : A) : M A := Run [] (Returned a).

Definition raise {A} (e : exn) : M A := Run [] (Raised e).

Definition bind {A B} (m : M A) (k : A -> M B) : M B :=
  match result m with
  | Returned a => Run (logged m ++ logged (k a))%list (result (k a))
  | Raised e => Run (logged m) (Raised e)
  end.

(** [try: body except ...: handler]; a handler re-raises what it does not
    catch. *)
Definition try_except {A} (body : M A) (handler : exn -> M A) : M A :=
  match result body with
  | Returned a => body
  | Raised e =>
      Run (logged body ++ logged (handler e))%list (result (handler e))
  end.

Declare Scope py_scope.
Delimit Scope py_scope with py.
Notation "x <- c1 ;; c2" := (bind c1 (fun x => c2))
  (at level 100, c1 at next level, right associativity) : py_scope.
Notation "c1 ;; c2" := (bind c1 (fun _ => c2))
  (at level 100, right associativity) : py_scope.
Open Scope py_scope.

Definition logging_info (text : string) : M unit :=
  Run [LogRecord INFO text] (Returned tt).

Definition logging_warning (text : string) : M unit :=
  Run [LogRecord WARNING text] (Returned tt).

(** [if cond: raise ValueError(..)]. *)
Definition raise_if (cond : bool) (why : failure) : M unit :=
  if cond then raise (ValueError why) else ret tt.

(** [for x in xs: body], the body threading the variables it updates. *)
Fixpoint for_each {S X} (body : S -> X -> M S) (xs : list X) (s : S) : M S :=
  match xs with
  | [] => ret s
  | x :: rest => s' <- body s x ;; for_each body rest s'
  end.

(** Truthiness of an [Optional[str]]: [None] and the empty string are
    false. *)
Definition truthy (o : option string) : bool :=
  match o with
  | Some s => negb (String.eqb s "")
  | None => false
  end.

(** [x = attr; if not x: raise ValueError(..)], giving the string. *)
Definition required (o : option string) (why : failure) : M string :=
  match o with
  | Some s => if String.eqb s "" then raise (ValueError why) else ret s
  | None => raise (ValueError why)
  end.

(** [str.endswith]. *)
Definition endswith (s suffix : string) : bool :=
  let n := String.length s in
  let k := String.length suffix in
  (k <=? n)%nat && String.eqb (String.substring (n - k) k s) suffix.

(** [str(n)] for a length. *)
Definition str_of_nat (n : nat) : string :=
  NilZero.string_of_uint (Nat.to_uint n).

(** ** The element tree of [xml.etree.ElementTree] *)

#[warnings="-register-all"]
Inductive Element := mkElement {
  tag : string;
  attrib : gmap string string;
  text : option string;
  children : list Element
}.

(** [e.get(key)]. *)
Definition get (e : Element) (key : string) : option string :=
  attrib e !! key.

(** [e.findall(t)] for a tag [t]: the children with that tag, in document
    order. *)
Definition findall (e : Element) (t : string) : list Element :=
  List.filter (fun c => String.eqb (tag c) t) (children e).

(** [e.find(t)]: the first such child. *)
Definition find (e : Element) (t : string) : option Element :=
  head (findall e t).

Definition ocf (name : string) : string :=
  "{urn:oasis:names:tc:opendocument:xmlns:container}" +:+ name.

Definition opf (name : string) : string :=
  "{http://www.idpf.org/2007/opf}" +:+ name.

Definition dc (name : string) : string :=
  "{http://purl.org/dc/elements/1.1/}" +:+ name.

(** ** The archive of [zipfile] *)

(** An entry of the archive: the fields of [ZipInfo] the module reads, and
    the bytes [ZipFile.read] gives for it. *)
Record ZipInfo := mkZipInfo {
  zi_filename : string;
  compress_type : Z;
  extra : list Byte.byte;
  flag_bits : Z;
  content : list Byte.byte
}.

(** An open [ZipFile]: its entries in the order of the archive, and the
    bytes of the file [epub.filename] on disk. *)
Record ZipFile := mkZipFile {
  filelist : list ZipInfo;
  on_disk : list Byte.byte
}.

Definition ZIP_STORED : Z := 0.

(** [epub.namelist()]. *)
Definition namelist (epub : ZipFile) : list string :=
  map zi_filename (filelist epub).

(** The name index of the archive; a later entry replaces an earlier one
    of the same name. *)
Definition NameToInfo (epub : ZipFile) : gmap string ZipInfo :=
  foldl (fun m zi => <[zi_filename zi := zi]> m) ∅ (filelist epub).

(** [epub.getinfo(name)]. *)
Definition getinfo (epub : ZipFile) (name : string) : M ZipInfo :=
  match NameToInfo epub !! name with
  | Some zi => ret zi
  | None => raise (KeyError name)
  end.

(** [epub.read(name)]. *)
Definition read (epub : ZipFile) (name : string) : M (list Byte.byte) :=
  zi <- getinfo epub name ;; ret (content zi).

(** [f.seek(pos); f.read(n)] on the file on disk: at most [n] bytes, fewer
    at the end of the file. *)
Definition seek_read (f : list Byte.byte) (pos n : nat) : list Byte.byte :=
  take n (drop pos f).

(** [bytes.decode('ascii')]. *)
Definition decode_ascii (bs : list Byte.byte) : M string :=
  if forallb (fun b => (Byte.to_N b <? 128)%N) bs
  then ret (String.string_of_list_byte bs)
  else raise UnicodeDecodeError.

(** A bytes literal [b'...']. *)
Definition bytes_of (s : string) : list Byte.byte :=
  String.list_byte_of_string s.

#[global] Instance byte_eq_dec : EqDecision Byte.byte := Byte.byte_eq_dec.

Definition bytes_eqb (a b : list Byte.byte) : bool :=
  bool_decide (a = b).

(** What the module takes from its libraries without defining it:
    [bytes.decode('utf-8')] ([None] for [UnicodeDecodeError]) and
    [ET.fromstring] ([inl detail] for [ET.ParseError]). *)
Class Collaborators := {
  utf8 : list Byte.byte -> option string;
  xml : string -> string + Element
}.

(** [bytes.decode('utf-8')]. *)
Definition decode_utf8 `{Collaborators} (bs : list Byte.byte) : M string :=
  match utf8 bs with
  | Some s => ret s
  | None => raise UnicodeDecodeError
  end.

(** [ET.fromstring(data)]. *)
Definition fromstring `{Collaborators} (data : string) : M Element :=
  match xml data with
  | inr root => ret root
  | inl detail => raise (ParseError detail)
  end.

(** ** Constants of the module *)

Definition MIME_TYPES : gset string :=
  {[ "image/gif"; "image/jpeg"; "image/png"; "image/svg+xml";
     "application/xhtml+xml"; "application/x-dtbook+xml"; "text/css";
     "application/xml"; "application/x-dtbncx+xml";
     "application/vnd.ms-opentype" ]}.

Definition SUGGESTED_MIME_TYPES : gmap string (option string) :=
  <["application/x-font-ttf" := Some "application/vnd.ms-opentype"]>
    (<["application/vnd.adobe-page-template+xml" := None]> ∅).

(** The set literal of [parse_spine], written twice there. *)
Definition OPS_CONTENT_TYPES : gset string :=
  {[ "application/xhtml+xml"; "application/x-dtbook+xml";
     "text/x-oeb1-document" ]}.

Definition PACKAGE_MEDIA_TYPE : string := "application/oebps-package+xml".

(** ** [verify_mimetype] *)

Definition verify_mimetype (epub : ZipFile) : M unit :=
  let names := namelist epub in
  raise_if
    (match names with
     | [] => true
     | first :: _ => negb (String.eqb first "mimetype")
     end) MimetypeNotFirst ;;
  file_info <- getinfo epub "mimetype" ;;
  raise_if (negb (compress_type file_info =? ZIP_STORED)%Z)
    MimetypeCompressed ;;
  raise_if (negb (bytes_eqb (extra file_info) [])) MimetypeExtraFields ;;
  raise_if (negb (Z.land (flag_bits file_info) 1 =? 0)%Z)
    MimetypeEncrypted ;;
  mimetype <- try_except
      (data <- read epub "mimetype" ;; decode_ascii data)
      (fun e =>
         match e with
         | UnicodeDecodeError => raise (ValueError MimetypeNotAscii)
         | _ => raise e
         end) ;;
  let f := on_disk epub in
  let magic_number := seek_read f 0 2 in
  raise_if (negb (bytes_eqb magic_number (bytes_of "PK"))) BadZipMagic ;;
  let header_data := seek_read f 30 8 in
  raise_if (negb (bytes_eqb header_data (bytes_of "mimetype")))
    MimetypeNameMisplaced ;;
  let mimetype_data := seek_read f 38 (String.length "application/epub+zip") in
  raise_if (negb (bytes_eqb mimetype_data (bytes_of "application/epub+zip")))
    MimetypeContentMisplaced ;;
  logging_info "Mimetype file verification passed.".

(** ** [parse_container] *)

(** The [for rootfile in ...] loop of [parse_container] with the [raise]
    that follows it: the loop returns from the function at the first child
    that has the package media type and a non-empty [full-path]. *)
Fixpoint rootfile_loop (rootfiles : list Element) : M string :=
  match rootfiles with
  | [] => raise (ValueError NoPackageRootfile)
  | rootfile :: rest =>
      let media_type := get rootfile "media-type" in
      if bool_decide (media_type = Some PACKAGE_MEDIA_TYPE) then
        let full_path := get rootfile "full-path" in
        match full_path with
        | Some p =>
            if truthy full_path
            then logging_info ("EPUB Rootfile Found: " +:+ p) ;; ret p
            else rootfile_loop rest
        | None => rootfile_loop rest
        end
      else rootfile_loop rest
  end.

Section Parsers.
Context `{Collaborators}.

Definition parse_container (epub : ZipFile) : M string :=
  container_data <- try_except
      (data <- read epub "META-INF/container.xml" ;; decode_utf8 data)
      (fun e =>
         match e with
         | KeyError _ => raise (ValueError ContainerMissing)
         | UnicodeDecodeError => raise (ValueError ContainerNotUtf8)
         | _ => raise e
         end) ;;
  try_except
    (root <- fromstring container_data ;;
     match find root (ocf "rootfiles") with
     | None => raise (ValueError NoRootfiles)
     | Some rootfiles => rootfile_loop (findall rootfiles (ocf "rootfile"))
     end)
    (fun e =>
       match e with
       | ParseError detail => raise (ValueError (ContainerParseFailure detail))
       | _ => raise e
       end).

(** ** [parse_package_identity] *)

Definition parse_package_identity (opf_data : string) : M (string * string) :=
  try_except
    (root <- fromstring opf_data ;;
     raise_if (negb (String.eqb (tag root) (opf "package"))) RootNotPackage ;;
     version <- required (get root "version") MissingVersion ;;
     logging_info ("OPF Version: " +:+ version) ;;
     unique_identifier <-
       required (get root "unique-identifier") MissingUniqueIdentifier ;;
     logging_info ("OPF Unique Identifier: " +:+ unique_identifier) ;;
     ret (version, unique_identifier))
    (fun e =>
       match e with
       | ParseError detail => raise (ValueError (OpfParseFailure detail))
       | _ => raise e
       end).

(** ** [parse_metadata] *)

(** The dictionaries built for [dc:identifier], [dc:creator], [dc:date]
    and [meta] elements. *)
Record identifier_entry := mkIdentifier {
  identifier_id : option string;
  identifier_scheme : option string;
  identifier_value : option string
}.

Record creator_entry := mkCreator {
  creator_name : option string;
  creator_role : option string;
  creator_file_as : option string
}.

Record date_entry := mkDate {
  date_date : option string;
  date_event : option string
}.

Record meta_entry := mkMeta {
  meta_name : option string;
  meta_content : option string;
  meta_scheme : option string;
  meta_property : option string;
  meta_value : option string
}.

(** The dictionary [metadata_info]. *)
Record metadata_info := mkMetadata {
  md_title : list (option string);
  md_identifier : list identifier_entry;
  md_language : list (option string);
  md_creator : list creator_entry;
  md_publisher : list (option string);
  md_date : list date_entry;
  md_subject : list (option string);
  md_description : list (option string);
  md_rights : list (option string);
  md_meta : list meta_entry
}.

(** What [parse_metadata] returns: the dictionary, or (on two of its
    paths) a string. *)
Inductive metadata_value :=
  | MetadataInfo (info : metadata_info)
  | MetadataText (s : string).

Definition extract_metadata (metadata : Element) : metadata_info :=
  {| md_title := map text (findall metadata (dc "title"));
     md_identifier :=
       map (fun e => {| identifier_id := get e "id";
                        identifier_scheme := get e (opf "scheme");
                        identifier_value := text e |})
           (findall metadata (dc "identifier"));
     md_language := map text (findall metadata (dc "language"));
     md_creator :=
       map (fun e => {| creator_name := text e;
                        creator_role := get e (opf "role");
                        creator_file_as := get e (opf "file-as") |})
           (findall metadata (dc "creator"));
     md_publisher := map text (findall metadata (dc "publisher"));
     md_date :=
       map (fun e => {| date_date := text e;
                        date_event := get e (opf "event") |})
           (findall metadata (dc "date"));
     md_subject := map text (findall metadata (dc "subject"));
     md_description := map text (findall metadata (dc "description"));
     md_rights := map text (findall metadata (dc "rights"));
     md_meta :=
       map (fun e => {| meta_name := get e "name";
                        meta_content := get e "content";
                        meta_scheme := get e "scheme";
                        meta_property := get e "property";
                        meta_value := text e |})
           (List.filter (fun e => endswith (tag e) "meta")
                        (children metadata)) |}.

(** [{item['id'] for item in metadata_info['identifier'] if item['id']}]. *)
Definition identifier_ids (info : metadata_info) : gset string :=
  list_to_set
    (omap (fun item =>
             if truthy (identifier_id item) then identifier_id item else None)
          (md_identifier info)).

Definition parse_metadata (opf_data unique_identifier : string)
  : M metadata_value :=
  try_except
    (root <- fromstring opf_data ;;
     match find root (opf "metadata") with
     | None =>
         ret (MetadataText "Error: Missing <metadata> section in OPF file")
     | Some metadata =>
         let info := extract_metadata metadata in
         (if bool_decide (unique_identifier ∉ identifier_ids info)
          then raise (ValueError (UniqueIdentifierUnmatched unique_identifier))
          else logging_info ("unique-identifier '" +:+ unique_identifier
                               +:+ "' matches <dc:identifier> id")) ;;
         ret (MetadataInfo info)
     end)
    (fun e =>
       match e with
       | ParseError detail =>
           ret (MetadataText
                  ("Error: Failed to parse OPF metadata section: " +:+ detail))
       | _ => raise e
       end).

(** ** [parse_manifest] *)

(** The dictionary [item_data]. *)
Record manifest_item := mkItem {
  item_id : option string;
  item_href : option string;
  item_media_type : option string;
  item_fallback : option string;
  item_fallback_style : option string;
  item_required_namespace : option string;
  item_required_modules : option string
}.

Definition item_data_of (item : Element) : manifest_item :=
  {| item_id := get item "id";
     item_href := get item "href";
     item_media_type := get item "media-type";
     item_fallback := get item "fallback";
     item_fallback_style := get item "fallback-style";
     item_required_namespace := get item "required-namespace";
     item_required_modules := get item "required-modules" |}.

(** The warning of [parse_manifest] for a media type outside
    [known_mime_types]. *)
Definition media_type_warning
    (suggested_mime_types : gmap string (option string))
    (media_type id : string) : string :=
  let suggested_type := mjoin (suggested_mime_types !! media_type) in
  match suggested_type with
  | Some s =>
      if truthy suggested_type
      then "Deprecated media-type '" +:+ media_type +:+ "' in <item> with id '"
             +:+ id +:+ "'. " +:+ "Consider using '" +:+ s +:+ "' instead."
      else "Unknown media-type '" +:+ media_type +:+ "' in <item> with id '"
             +:+ id +:+ "'."
  | None =>
      "Unknown media-type '" +:+ media_type +:+ "' in <item> with id '"
        +:+ id +:+ "'."
  end.

(** The body of the loop over the [item] elements; the loop updates
    [manifest_info] and [hrefs]. *)
Definition manifest_body (known_mime_types : gset string)
    (suggested_mime_types : gmap string (option string))
    (st : list manifest_item * gset string) (item : Element)
  : M (list manifest_item * gset string) :=
  let '(manifest_info, hrefs) := st in
  let item_data := item_data_of item in
  id <- required (item_id item_data) ItemMissingId ;;
  href <- required (item_href item_data) ItemMissingHref ;;
  media_type <- required (item_media_type item_data) ItemMissingMediaType ;;
  raise_if (bool_decide (href ∈ hrefs)) (DuplicateHref href) ;;
  let hrefs := {[ href ]} ∪ hrefs in
  (if bool_decide (media_type ∉ known_mime_types)
   then logging_warning
          (media_type_warning suggested_mime_types media_type id)
   else ret tt) ;;
  ret ((manifest_info ++ [item_data])%list, hrefs).

Definition parse_manifest (opf_data : string)
    (known_mime_types : gset string)
    (suggested_mime_types : gmap string (option string))
  : M (list manifest_item) :=
  try_except
    (root <- fromstring opf_data ;;
     match find root (opf "manifest") with
     | None => raise (ValueError MissingManifest)
     | Some manifest =>
         st <- for_each (manifest_body known_mime_types suggested_mime_types)
                        (findall manifest (opf "item")) ([], ∅) ;;
         ret (fst st)
     end)
    (fun e =>
       match e with
       | ParseError detail => raise (ValueError (ManifestParseFailure detail))
       | _ => raise e
       end).

(** ** [parse_spine] *)

(** The dictionary [item_data] of the spine loop. *)
Record spine_entry := mkEntry {
  entry_idref : string;
  entry_linear : string
}.

(** The dictionary [parse_spine] returns. *)
Record spine_info := mkSpine {
  spine_toc : string;
  primary_content : list spine_entry;
  auxiliary_content : list spine_entry
}.

(** The variables the spine loop updates. *)
Record spine_state := mkSpineState {
  st_primary : list spine_entry;
  st_auxiliary : list spine_entry;
  seen_idrefs : gset string
}.

(** [media_type in {...}] for an [Optional[str]]. *)
Definition is_content_type (media_type : option string) : bool :=
  match media_type with
  | Some t => bool_decide (t ∈ OPS_CONTENT_TYPES)
  | None => false
  end.

(** The condition of the inner [if] of the loop: no usable fallback. *)
Definition fallback_fails (manifest_items : gmap string manifest_item)
    (fallback : option string) : bool :=
  negb (truthy fallback)
  || match fallback with
     | Some fb =>
         match manifest_items !! fb with
         | None => true
         | Some target => negb (is_content_type (item_media_type target))
         end
     | None => true
     end.

(** The body of the loop over the [itemref] elements. *)
Definition spine_body (manifest_items : gmap string manifest_item)
    (st : spine_state) (itemref : Element) : M spine_state :=
  let linear := default "yes" (get itemref "linear") in
  idref <- required (get itemref "idref") ItemrefMissingIdref ;;
  raise_if (bool_decide (idref ∈ seen_idrefs st)) (DuplicateIdref idref) ;;
  let seen := {[ idref ]} ∪ seen_idrefs st in
  match manifest_items !! idref with
  | None => raise (ValueError (IdrefUnresolved idref))
  | Some manifest_item =>
      let media_type := item_media_type manifest_item in
      (if negb (truthy media_type) || negb (is_content_type media_type)
       then
         let fallback := item_fallback manifest_item in
         raise_if (fallback_fails manifest_items fallback)
                  (NotContentDocument idref)
       else ret tt) ;;
      let item_data := {| entry_idref := idref; entry_linear := linear |} in
      if String.eqb linear "yes"
      then ret {| st_primary := (st_primary st ++ [item_data])%list;
                  st_auxiliary := st_auxiliary st;
                  seen_idrefs := seen |}
      else ret {| st_primary := st_primary st;
                  st_auxiliary := (st_auxiliary st ++ [item_data])%list;
                  seen_idrefs := seen |}
  end.

Definition parse_spine (opf_data : string)
    (manifest_items : gmap string manifest_item) : M spine_info :=
  try_except
    (root <- fromstring opf_data ;;
     match find root (opf "spine") with
     | None => raise (ValueError MissingSpine)
     | Some spine =>
         logging_info "Found <spine> section in OPF file" ;;
         toc <- required (get spine "toc") SpineMissingToc ;;
         logging_info ("Table of Contents ID: " +:+ toc) ;;
         st <- for_each (spine_body manifest_items)
                        (findall spine (opf "itemref"))
                        {| st_primary := []; st_auxiliary := [];
                           seen_idrefs := ∅ |} ;;
         logging_info ("Primary Content: "
                         +:+ str_of_nat (length (st_primary st))
                         +:+ " items") ;;
         ret {| spine_toc := toc;
                primary_content := st_primary st;
                auxiliary_content := st_auxiliary st |}
     end)
    (fun e =>
       match e with
       | ParseError detail => raise (ValueError (SpineParseFailure detail))
       | _ => raise e
       end).

(** ** [parse_guide] *)

Record guide_reference := mkReference {
  ref_type : option string;
  ref_href : option string;
  ref_title : option string
}.

Definition guide_body (references : list guide_reference) (ref : Element)
  : M (list guide_reference) :=
  let type := get ref "type" in
  let href := get ref "href" in
  let title := get ref "title" in
  raise_if (negb (truthy type) || negb (truthy href)) ReferenceIncomplete ;;
  ret (references
         ++ [{| ref_type := type; ref_href := href; ref_title := title |}])%list.

Definition parse_guide (opf_data : string) : M (list guide_reference) :=
  try_except
    (root <- fromstring opf_data ;;
     match find root (opf "guide") with
     | None =>
         logging_info "No <guide> section found in OPF file" ;;
         ret []
     | Some guide =>
         logging_info "Found <guide> section in OPF file" ;;
         references <-
           for_each guide_body (findall guide (opf "reference")) [] ;;
         logging_info ("Guide References: "
                         +:+ str_of_nat (length references)) ;;
         ret references
     end)
    (fun e =>
       match e with
       | ParseError detail => raise (ValueError (GuideParseFailure detail))
       | _ => raise e
       end).

(** ** [parse_package] *)

(** [{item['id']: item for item in manifest}]: a later item replaces an
    earlier one with the same id.  Every item [parse_manifest] returns
    has an id ([required] in [manifest_body]), so the second branch is
    never taken on its output. *)
Definition items_by_id (manifest : list manifest_item)
  : gmap string manifest_item :=
  foldl (fun d item =>
           match item_id item with
           | Some id => <[id := item]> d
           | None => d
           end) ∅ manifest.

(** The function ends without a [return] statement: it returns [None],
    which is [tt] here. *)
Definition parse_package (epub : ZipFile) (package_content_path : string)
  : M unit :=
  opf_data <- try_except
      (data <- read epub package_content_path ;; decode_utf8 data)
      (fun e =>
         match e with
         | KeyError _ =>
             raise (ValueError (PackageMissing package_content_path))
         | UnicodeDecodeError =>
             raise (ValueError (PackageNotUtf8 package_content_path))
         | _ => raise e
         end) ;;
  identity <- parse_package_identity opf_data ;;
  let '(version, unique_identifier) := identity in
  metadata <- parse_metadata opf_data unique_identifier ;;
  manifest <- parse_manifest opf_data MIME_TYPES SUGGESTED_MIME_TYPES ;;
  let manifest_items := items_by_id manifest in
  spine <- parse_spine opf_data manifest_items ;;
  guide <- parse_guide opf_data ;;
  ret tt.
End Parsers.

(** ** The checks of the identification entry, as the specification lists
    them (section 4.1)

    These properties are stated on the archive, independently of
    [verify_mimetype]; the theorems below relate the two.  The
    specification states checks 2 to 5 on the first entry of the archive
    ("that entry"); the module makes them on the entry that the archive
    gives for the name [mimetype].  Both readings are defined. *)


(** The entry the archive gives for the name [mimetype]. *)
Definition mimetype_entry (epub : ZipFile) : option ZipInfo :=
  NameToInfo epub !! "mimetype".


(** 1. The first entry, in stored order, is named exactly [mimetype]. *)
Definition first_entry_is_mimetype (epub : ZipFile) : Prop :=
  head (namelist epub) = Some "mimetype".












(** ** Notions used to state the properties of the manifest and the spine *)

(** An [item] element that has its three mandatory attributes, each
    non-empty. *)
Definition item_complete (item : Element) : bool :=
  truthy (get item "id") && truthy (get item "href")
  && truthy (get item "media-type").

Definition attr_or_empty (e : Element) (key : string) : string :=
  default "" (get e key).

(** The records [parse_manifest] logs for an item that passes its checks:
    one warning when its media type is outside the recognized set. *)
Definition item_warnings (known_mime_types : gset string)
    (suggested_mime_types : gmap string (option string)) (item : Element)
  : list log_record :=
  if bool_decide (attr_or_empty item "media-type" ∈ known_mime_types)
  then []
  else [LogRecord WARNING
          (media_type_warning suggested_mime_types
             (attr_or_empty item "media-type") (attr_or_empty item "id"))].

(** An item is a content document directly, or through the item its
    [fallback] attribute names (one step). *)
Definition content_in_one_hop (manifest_items : gmap string manifest_item)
    (item : manifest_item) : bool :=
  is_content_type (item_media_type item)
  || match item_fallback item with
     | Some fb =>
         negb (String.eqb fb "")
         && match manifest_items !! fb with
            | Some target => is_content_type (item_media_type target)
            | None => false
            end
     | None => false
     end.

(** An [itemref] passes the idref and content-type checks: it has a
    non-empty idref that is a key of the manifest lookup, and the item
    found is a content document in one hop.  (That no idref occurs twice
    is stated apart.) *)
Definition itemref_passes (manifest_items : gmap string manifest_item)
    (itemref : Element) : bool :=
  match get itemref "idref" with
  | Some idref =>
      negb (String.eqb idref "")
      && match manifest_items !! idref with
         | Some item => content_in_one_hop manifest_items item
         | None => false
         end
  | None => false
  end.

(** The entry of the returned spine that an [itemref] gives. *)
Definition entry_of (itemref : Element) : spine_entry :=
  {| entry_idref := attr_or_empty itemref "idref";
     entry_linear := default "yes" (get itemref "linear") |}.

(** ** Notions used to state the properties of the metadata and the
    container *)

(** The ids of the declared [dc:identifier] elements: the values of their
    [id] attributes, in document order. *)
Definition declared_identifier_ids (metadata : Element) : list string :=
  omap (fun e => get e "id") (findall metadata (dc "identifier")).

(** A [rootfile] whose media type is the package media type. *)
Definition has_package_media_type (rootfile : Element) : bool :=
  bool_decide (get rootfile "media-type" = Some PACKAGE_MEDIA_TYPE).

(** A [rootfile] that has the package media type and a non-empty
    [full-path]. *)
Definition has_package_path (rootfile : Element) : bool :=
  has_package_media_type rootfile && truthy (get rootfile "full-path").

(** The statement that [parse_container] returns the [full-path] of the
    first [rootfile] with the package media type, and fails when there is
    none, for the container document of an archive. *)
Definition returns_first_package_rootfile `{Collaborators} (epub : ZipFile)
  : Prop :=
  forall zi data root rootfiles,
    NameToInfo epub !! "META-INF/container.xml" = Some zi ->
    utf8 (content zi) = Some data ->
    xml data = inr root ->
    find root (ocf "rootfiles") = Some rootfiles ->
    match List.find has_package_media_type
                    (findall rootfiles (ocf "rootfile")) with
    | Some rootfile =>
        exists full_path,
          get rootfile "full-path" = Some full_path
          /\ result (parse_container epub) = Returned full_path
    | None =>
        result (parse_container epub) = Raised (ValueError NoPackageRootfile)
    end.

(** ** Concrete documents

    The runs shown below need a concrete archive, concrete documents and
    concrete collaborators.  [table_collaborators docs] decodes ASCII text
    and parses exactly the documents of the table [docs], each given with
    its tree; every other text is a parse error. *)

Definition el (t : string) (attrs : list (string * string))
    (txt : option string) (kids : list Element) : Element :=
  mkElement t (list_to_map attrs) txt kids.

Definition table_collaborators (docs : list (string * Element))
  : Collaborators :=
  {| utf8 := fun bs =>
       if forallb (fun b => (Byte.to_N b <? 128)%N) bs
       then Some (String.string_of_list_byte bs) else None;
     xml := fun data =>
       match List.find (fun d => String.eqb (fst d) data) docs with
       | Some d => inr (snd d)
       | None => inl "syntax error: line 1, column 0"
       end |}.

Definition stored_entry (name data : string) : ZipInfo :=
  {| zi_filename := name; compress_type := 0; extra := [];
     flag_bits := 0; content := bytes_of data |}.

(** The local file header of a stored [mimetype] entry (30 bytes), its
    name and its content: the first 58 bytes of a well-made EPUB file. *)
Definition epub_file_start : list Byte.byte :=
  ([ Byte.x50; Byte.x4b; Byte.x03; Byte.x04; Byte.x0a; Byte.x00;
     Byte.x00; Byte.x00; Byte.x00; Byte.x00; Byte.x00; Byte.x00;
     Byte.x21; Byte.x00; Byte.x6f; Byte.x61; Byte.xab; Byte.x2c;
     Byte.x14; Byte.x00; Byte.x00; Byte.x00; Byte.x14; Byte.x00;
     Byte.x00; Byte.x00; Byte.x08; Byte.x00; Byte.x00; Byte.x00 ]
   ++ bytes_of "mimetype" ++ bytes_of "application/epub+zip")%list.

(** The end-to-end scenario of the specification (section 8). *)
Definition scenario_container_text : string :=
  "<container version='1.0' xmlns='urn:oasis:names:tc:opendocument:xmlns:container'>"
  +:+ "<rootfiles><rootfile full-path='OEBPS/content.opf' "
  +:+ "media-type='application/oebps-package+xml'/></rootfiles></container>".

Definition scenario_container : Element :=
  el (ocf "container") [("version", "1.0")] None
    [ el (ocf "rootfiles") [] None
        [ el (ocf "rootfile")
            [("full-path", "OEBPS/content.opf");
             ("media-type", "application/oebps-package+xml")] None [] ] ].

Definition scenario_opf_text : string :=
  "<package xmlns='http://www.idpf.org/2007/opf' version='3.0' "
  +:+ "unique-identifier='BookId'>"
  +:+ "<metadata xmlns:dc='http://purl.org/dc/elements/1.1/'>"
  +:+ "<dc:identifier id='BookId'>urn:isbn:9780000000001</dc:identifier>"
  +:+ "</metadata><manifest><item id='chap1' href='chap1.xhtml' "
  +:+ "media-type='application/xhtml+xml'/></manifest>"
  +:+ "<spine toc='ncx'><itemref idref='chap1'/></spine></package>".

Definition scenario_metadata : Element :=
  el (opf "metadata") [] None
    [ el (dc "identifier") [("id", "BookId")]
        (Some "urn:isbn:9780000000001") [] ].

Definition scenario_manifest : Element :=
  el (opf "manifest") [] None
    [ el (opf "item")
        [("id", "chap1"); ("href", "chap1.xhtml");
         ("media-type", "application/xhtml+xml")] None [] ].

Definition scenario_spine : Element :=
  el (opf "spine") [("toc", "ncx")] None
    [ el (opf "itemref") [("idref", "chap1")] None [] ].

Definition scenario_opf : Element :=
  el (opf "package") [("version", "3.0"); ("unique-identifier", "BookId")]
    None [scenario_metadata; scenario_manifest; scenario_spine].

Definition scenario_docs : list (string * Element) :=
  [ (scenario_container_text, scenario_container);
    (scenario_opf_text, scenario_opf) ].

Definition scenario_epub : ZipFile :=
  {| filelist :=
       [ stored_entry "mimetype" "application/epub+zip";
         stored_entry "META-INF/container.xml" scenario_container_text;
         stored_entry "OEBPS/content.opf" scenario_opf_text ];
     on_disk := epub_file_start |}.

(** A manifest with two items of the same href, one with two items of the
    same id and different hrefs, and one with media types outside the
    recognized set. *)
Definition item_el (id href media_type : string) : Element :=
  el (opf "item") [("id", id); ("href", href); ("media-type", media_type)]
    None [].

Definition same_href_text : string :=
  "<package xmlns='http://www.idpf.org/2007/opf'><manifest>"
  +:+ "<item id='a' href='text.xhtml' media-type='application/xhtml+xml'/>"
  +:+ "<item id='b' href='text.xhtml' media-type='application/xhtml+xml'/>"
  +:+ "</manifest></package>".

Definition same_href_manifest : Element :=
  el (opf "manifest") [] None
    [ item_el "a" "text.xhtml" "application/xhtml+xml";
      item_el "b" "text.xhtml" "application/xhtml+xml" ].

Definition same_href_opf : Element :=
  el (opf "package") [] None [same_href_manifest].

Definition same_id_text : string :=
  "<package xmlns='http://www.idpf.org/2007/opf'><manifest>"
  +:+ "<item id='a' href='one.xhtml' media-type='application/xhtml+xml'/>"
  +:+ "<item id='a' href='two.xhtml' media-type='application/xhtml+xml'/>"
  +:+ "</manifest></package>".

Definition same_id_manifest : Element :=
  el (opf "manifest") [] None
    [ item_el "a" "one.xhtml" "application/xhtml+xml";
      item_el "a" "two.xhtml" "application/xhtml+xml" ].

Definition same_id_opf : Element :=
  el (opf "package") [] None [same_id_manifest].

Definition advisory_text : string :=
  "<package xmlns='http://www.idpf.org/2007/opf'><manifest>"
  +:+ "<item id='chap1' href='chap1.xhtml' media-type='application/xhtml+xml'/>"
  +:+ "<item id='font' href='serif.ttf' media-type='application/x-font-ttf'/>"
  +:+ "<item id='clip' href='clip.mp4' media-type='video/mp4'/>"
  +:+ "</manifest></package>".

Definition advisory_manifest : Element :=
  el (opf "manifest") [] None
    [ item_el "chap1" "chap1.xhtml" "application/xhtml+xml";
      item_el "font" "serif.ttf" "application/x-font-ttf";
      item_el "clip" "clip.mp4" "video/mp4" ].

Definition advisory_opf : Element :=
  el (opf "package") [] None [advisory_manifest].

(** A manifest lookup with a fallback chain: [cover] falls back on the
    content document [chap1]; [figure] falls back on the style sheet
    [style], which itself falls back on [chap1]. *)
Definition item_with_fallback (id href media_type fallback : string)
  : Element :=
  el (opf "item")
    [("id", id); ("href", href); ("media-type", media_type);
     ("fallback", fallback)] None [].

Definition fallback_items : gmap string manifest_item :=
  items_by_id
    (map item_data_of
       [ item_el "chap1" "chap1.xhtml" "application/xhtml+xml";
         item_with_fallback "cover" "cover.svg" "image/svg+xml" "chap1";
         item_with_fallback "style" "style.css" "text/css" "chap1";
         item_with_fallback "figure" "figure.png" "image/png" "style" ]).

Definition itemref_el (idref : string) : Element :=
  el (opf "itemref") [("idref", idref)] None [].

Definition itemref_linear (idref linear : string) : Element :=
  el (opf "itemref") [("idref", idref); ("linear", linear)] None [].

Definition one_hop_text : string :=
  "<package xmlns='http://www.idpf.org/2007/opf'><spine toc='ncx'>"
  +:+ "<itemref idref='chap1'/><itemref idref='cover'/></spine></package>".

Definition one_hop_spine : Element :=
  el (opf "spine") [("toc", "ncx")] None
    [itemref_el "chap1"; itemref_el "cover"].

Definition one_hop_opf : Element :=
  el (opf "package") [] None [one_hop_spine].

Definition two_hops_text : string :=
  "<package xmlns='http://www.idpf.org/2007/opf'><spine toc='ncx'>"
  +:+ "<itemref idref='chap1'/><itemref idref='figure'/></spine></package>".

Definition two_hops_spine : Element :=
  el (opf "spine") [("toc", "ncx")] None
    [itemref_el "chap1"; itemref_el "figure"].

Definition two_hops_opf : Element :=
  el (opf "package") [] None [two_hops_spine].

(** A spine with the four kinds of [linear]: absent, [no], [yes] and
    another value. *)
Definition linear_items : gmap string manifest_item :=
  items_by_id
    (map item_data_of
       [ item_el "chap1" "chap1.xhtml" "application/xhtml+xml";
         item_el "notes" "notes.xhtml" "application/xhtml+xml";
         item_el "chap2" "chap2.xhtml" "application/xhtml+xml";
         item_el "index" "index.xhtml" "application/xhtml+xml" ]).

Definition linear_text : string :=
  "<package xmlns='http://www.idpf.org/2007/opf'><spine toc='ncx'>"
  +:+ "<itemref idref='chap1'/><itemref idref='notes' linear='no'/>"
  +:+ "<itemref idref='chap2' linear='yes'/>"
  +:+ "<itemref idref='index' linear='maybe'/></spine></package>".

Definition linear_spine : Element :=
  el (opf "spine") [("toc", "ncx")] None
    [ itemref_el "chap1"; itemref_linear "notes" "no";
      itemref_linear "chap2" "yes"; itemref_linear "index" "maybe" ].

Definition linear_opf : Element :=
  el (opf "package") [] None [linear_spine].

(** A container whose first package [rootfile] has an empty [full-path]
    and whose second one has a path. *)
Definition two_rootfiles_text : string :=
  "<container version='1.0' xmlns='urn:oasis:names:tc:opendocument:xmlns:container'>"
  +:+ "<rootfiles><rootfile full-path='' "
  +:+ "media-type='application/oebps-package+xml'/>"
  +:+ "<rootfile full-path='OEBPS/content.opf' "
  +:+ "media-type='application/oebps-package+xml'/></rootfiles></container>".

Definition two_rootfiles_container : Element :=
  el (ocf "container") [("version", "1.0")] None
    [ el (ocf "rootfiles") [] None
        [ el (ocf "rootfile")
            [("full-path", ""); ("media-type", "application/oebps-package+xml")]
            None [];
          el (ocf "rootfile")
            [("full-path", "OEBPS/content.opf");
             ("media-type", "application/oebps-package+xml")] None [] ] ].

Definition two_rootfiles_epub : ZipFile :=
  {| filelist :=
       [ stored_entry "mimetype" "application/epub+zip";
         stored_entry "META-INF/container.xml" two_rootfiles_text ];
     on_disk := epub_file_start |}.

(** The negative scenario of the specification (section 8): the package
    of the end-to-end scenario with [unique-identifier] set to [BookId2]. *)
Definition unmatched_opf_text : string :=
  "<package xmlns='http://www.idpf.org/2007/opf' version='3.0' "
  +:+ "unique-identifier='BookId2'>"
  +:+ "<metadata xmlns:dc='http://purl.org/dc/elements/1.1/'>"
  +:+ "<dc:identifier id='BookId'>urn:isbn:9780000000001</dc:identifier>"
  +:+ "</metadata><manifest><item id='chap1' href='chap1.xhtml' "
  +:+ "media-type='application/xhtml+xml'/></manifest>"
  +:+ "<spine toc='ncx'><itemref idref='chap1'/></spine></package>".

Definition unmatched_opf : Element :=
  el (opf "package") [("version", "3.0"); ("unique-identifier", "BookId2")]
    None [scenario_metadata; scenario_manifest; scenario_spine].

Definition unmatched_epub : ZipFile :=
  {| filelist :=
       [ stored_entry "mimetype" "application/epub+zip";
         stored_entry "META-INF/container.xml" scenario_container_text;
         stored_entry "OEBPS/content.opf" unmatched_opf_text ];
     on_disk := epub_file_start |}.

(** A text that is not well-formed XML: the element is not closed. *)
Definition truncated_text : string :=
  "<package xmlns='http://www.idpf.org/2007/opf' version='3.0'>".

(** ** The entry point

    The block under [if __name__ == '__main__'], for an archive already
    opened: the three steps in sequence, the path found by
    [parse_container] being the one [parse_package] reads. *)
Definition main `{Collaborators} (epub : ZipFile) : M unit :=
  verify_mimetype epub ;;
  package_content_path <- parse_container epub ;;
  parse_package epub package_content_path.

(** ** Notions used to state further properties *)

(** A run that ends by returning, or by raising an exception in [P]. *)
Definition raises_within {A} (P : exn -> Prop) (m : M A) : Prop :=
  match result m with
  | Returned _ => True
  | Raised e => P e
  end.

Definition is_ValueError (e : exn) : Prop :=
  match e with
  | ValueError _ => True
  | _ => False
  end.


(** A [reference] element of the guide with a non-empty [type] and
    [href]. *)
Definition reference_complete (ref : Element) : bool :=
  truthy (get ref "type") && truthy (get ref "href").

Definition reference_of (ref : Element) : guide_reference :=
  {| ref_type := get ref "type";
     ref_href := get ref "href";
     ref_title := get ref "title" |}.

(** A manifest whose second item has no id and repeats the href of the
    first. *)
Definition missing_id_text : string :=
  "<package xmlns='http://www.idpf.org/2007/opf'><manifest>"
  +:+ "<item id='a' href='text.xhtml' media-type='application/xhtml+xml'/>"
  +:+ "<item href='text.xhtml' media-type='application/xhtml+xml'/>"
  +:+ "</manifest></package>".

Definition missing_id_manifest : Element :=
  el (opf "manifest") [] None
    [ item_el "a" "text.xhtml" "application/xhtml+xml";
      el (opf "item")
        [("href", "text.xhtml"); ("media-type", "application/xhtml+xml")]
        None [] ].

Definition missing_id_opf : Element :=
  el (opf "package") [] None [missing_id_manifest].

(** A spine that names [chap1] twice, and one that names an id the
    manifest does not have. *)
Definition repeated_idref_text : string :=
  "<package xmlns='http://www.idpf.org/2007/opf'><spine toc='ncx'>"
  +:+ "<itemref idref='chap1'/><itemref idref='chap1'/></spine></package>".

Definition repeated_idref_spine : Element :=
  el (opf "spine") [("toc", "ncx")] None
    [itemref_el "chap1"; itemref_el "chap1"].

Definition repeated_idref_opf : Element :=
  el (opf "package") [] None [repeated_idref_spine].

Definition no_toc_text : string :=
  "<package xmlns='http://www.idpf.org/2007/opf'><spine>"
  +:+ "<itemref idref='ghost'/></spine></package>".

Definition no_toc_spine : Element :=
  el (opf "spine") [] None [itemref_el "ghost"].

Definition no_toc_opf : Element :=
  el (opf "package") [] None [no_toc_spine].

(** A package with a guide of two references, the second without
    title. *)
Definition guide_text : string :=
  "<package xmlns='http://www.idpf.org/2007/opf'><guide>"
  +:+ "<reference type='cover' href='cover.xhtml' title='Cover'/>"
  +:+ "<reference type='toc' href='toc.xhtml'/></guide></package>".

Definition guide_el : Element :=
  el (opf "guide") [] None
    [ el (opf "reference")
        [("type", "cover"); ("href", "cover.xhtml"); ("title", "Cover")]
        None [];
      el (opf "reference") [("type", "toc"); ("href", "toc.xhtml")] None [] ].

Definition guide_opf : Element :=
  el (opf "package") [] None [guide_el].

(** A package whose root has a version and no unique-identifier, and one
    without metadata section. *)
Definition no_key_text : string :=
  "<package xmlns='http://www.idpf.org/2007/opf' version='2.0'/>".

Definition no_key_opf : Element :=
  el (opf "package") [("version", "2.0")] None [].

Definition no_metadata_text : string :=
  "<package xmlns='http://www.idpf.org/2007/opf' version='3.0' "
  +:+ "unique-identifier='BookId'>"
  +:+ "<manifest><item id='chap1' href='chap1.xhtml' "
  +:+ "media-type='application/xhtml+xml'/></manifest>"
  +:+ "<spine toc='ncx'><itemref idref='chap1'/></spine></package>".

Definition no_metadata_opf : Element :=
  el (opf "package") [("version", "3.0"); ("unique-identifier", "BookId")]
    None [scenario_manifest; scenario_spine].

Definition no_metadata_epub : ZipFile :=
  {| filelist :=
       [ stored_entry "mimetype" "application/epub+zip";
         stored_entry "META-INF/container.xml" scenario_container_text;
         stored_entry "OEBPS/content.opf" no_metadata_text ];
     on_disk := epub_file_start |}.

(** An archive with nothing but its [mimetype] entry, and one whose
    [mimetype] entry holds another text than the bytes on disk. *)
Definition bare_epub : ZipFile :=
  {| filelist := [ stored_entry "mimetype" "application/epub+zip" ];
     on_disk := epub_file_start |}.

Definition odd_content_epub : ZipFile :=
  {| filelist := [ stored_entry "mimetype" "text/plain" ];
     on_disk := epub_file_start |}.

(** An archive whose container names a package document that the archive
    does not have. *)
Definition dangling_epub : ZipFile :=
  {| filelist :=
       [ stored_entry "mimetype" "application/epub+zip";
         stored_entry "META-INF/container.xml" scenario_container_text ];
     on_disk := epub_file_start |}.

(** ** Two statements that the module does not meet as they are worded *)


(** An archive with two entries named [mimetype]: the first is deflated,
    the second stored. *)
Definition shadowed_epub : ZipFile :=
  {| filelist :=
       [ {| zi_filename := "mimetype"; compress_type := 8; extra := [];
            flag_bits := 0; content := bytes_of "application/epub+zip" |};
         stored_entry "mimetype" "application/epub+zip" ];
     on_disk := epub_file_start |}.

(** [parse_manifest] raises the duplicate-href error whenever two [item]
    elements of the manifest have the same href. *)
Definition reports_every_repeated_href `{Collaborators} (data : string)
    (known : gset string) (suggested : gmap string (option string)) : Prop :=
  forall root manifest i j h,
    xml data = inr root ->
    find root (opf "manifest") = Some manifest ->
    i <> j ->
    map (fun item => get item "href") (findall manifest (opf "item")) !! i
    = Some (Some h) ->
    map (fun item => get item "href") (findall manifest (opf "item")) !! j
    = Some (Some h) ->
    exists lg h',
      parse_manifest data known suggested
      = Run lg (Raised (ValueError (DuplicateHref h'))).



(** * Properties *)

(** ** The monad *)

Lemma bind_returned {A B} (m : M A) (k : A -> M B) lg a :
  m = Run lg (Returned a) ->
  bind m k = Run (lg ++ logged (k a))%list (result (k a)).
Proof. intros ->. reflexivity. Qed.

Lemma bind_raised {A B} (m : M A) (k : A -> M B) lg e :
  m = Run lg (Raised e) -> bind m k = Run lg (Raised e).
Proof. intros ->. reflexivity. Qed.

Lemma run_eta {A} (m : M A) : Run (logged m) (result m) = m.
Proof. destruct m; reflexivity. Qed.

Lemma bind_ret_l {A B} (a : A) (k : A -> M B) : bind (ret a) k = k a.
Proof. unfold bind, ret; cbn. apply run_eta. Qed.

Lemma bind_raise_l {A B} e (k : A -> M B) : bind (raise e) k = raise e.
Proof. reflexivity. Qed.

Lemma for_each_app {S X} (body : S -> X -> M S) xs ys s lg s' :
  for_each body xs s = Run lg (Returned s') ->
  for_each body (xs ++ ys)%list s
  = Run (lg ++ logged (for_each body ys s'))%list
        (result (for_each body ys s')).
Proof.
  revert s lg. induction xs as [|x xs IH]; intros s lg Hrun; cbn in *.
  - injection Hrun as <- <-. cbn. apply eq_sym, run_eta.
  - destruct (body s x) as [l1 [s1|e]] eqn:Hb; unfold bind in *; cbn in *.
    + destruct (for_each body xs s1) as [l2 r2] eqn:Hrest; cbn in *.
      injection Hrun as <- ->.
      rewrite (IH s1 l2 Hrest). cbn. by rewrite app_assoc.
    + discriminate.
Qed.

(** ** The archive *)

Lemma foldl_index_is_Some (name : string) (l : list ZipInfo)
    (m : gmap string ZipInfo) :
  is_Some (m !! name) \/ name ∈ map zi_filename l ->
  is_Some (foldl (fun m zi => <[zi_filename zi := zi]> m) m l !! name).
Proof.
  revert m. induction l as [|zi l IH]; intros m Hin; cbn.
  - destruct Hin as [Hm|Hin]; [done|]. by apply elem_of_nil in Hin.
  - apply IH. destruct Hin as [Hm|Hin].
    + left. destruct (decide (zi_filename zi = name)) as [->|Hne].
      * rewrite lookup_insert_eq. eauto.
      * by rewrite lookup_insert_ne.
    + cbn in Hin. apply elem_of_cons in Hin as [->|Hin]; [|by right].
      left. rewrite lookup_insert_eq. eauto.
Qed.

(** Every name of [namelist] has an entry in the index, so [getinfo] on it
    does not raise [KeyError]. *)
Lemma NameToInfo_is_Some epub name :
  name ∈ namelist epub -> is_Some (NameToInfo epub !! name).
Proof. intros Hin. apply foldl_index_is_Some. by right. Qed.

Lemma foldl_index_fresh (name : string) (l : list ZipInfo)
    (m : gmap string ZipInfo) :
  name ∉ map zi_filename l ->
  foldl (fun m zi => <[zi_filename zi := zi]> m) m l !! name = m !! name.
Proof.
  revert m. induction l as [|zi l IH]; intros m Hnot; cbn; [done|].
  cbn in Hnot. apply not_elem_of_cons in Hnot as [Hne Hnot].
  rewrite IH by done. by rewrite lookup_insert_ne.
Qed.


Lemma land_1_testbit (a : Z) : Z.land a 1 = 0%Z <-> Z.testbit a 0 = false.
Proof.
  change 1%Z with (Z.ones 1). rewrite Z.land_ones by lia.
  change (2 ^ 1)%Z with 2%Z. rewrite <- Z.bit0_mod.
  destruct (Z.testbit a 0); cbn; split; congruence.
Qed.

Lemma forallb_ascii (bs : list Byte.byte) :
  forallb (fun b => (Byte.to_N b <? 128)%N) bs = true
  <-> Forall (fun b => (Byte.to_N b < 128)%N) bs.
Proof.
  rewrite forallb_forall, Forall_forall. split; intros Hall b Hb.
  - apply N.ltb_lt, Hall. by apply list_elem_of_In.
  - apply N.ltb_lt, Hall. by apply list_elem_of_In.
Qed.

(** The run of [verify_mimetype] once the first check has passed, in terms
    of the entry found. *)
Lemma verify_mimetype_first_ok epub :
  first_entry_is_mimetype epub ->
  exists zi, mimetype_entry epub = Some zi /\
  verify_mimetype epub =
    (raise_if (negb (compress_type zi =? ZIP_STORED)%Z) MimetypeCompressed ;;
     raise_if (negb (bytes_eqb (extra zi) [])) MimetypeExtraFields ;;
     raise_if (negb (Z.land (flag_bits zi) 1 =? 0)%Z) MimetypeEncrypted ;;
     mimetype <- try_except (decode_ascii (content zi))
       (fun e => match e with
                 | UnicodeDecodeError => raise (ValueError MimetypeNotAscii)
                 | _ => raise e
                 end) ;;
     raise_if (negb (bytes_eqb (seek_read (on_disk epub) 0 2) (bytes_of "PK")))
       BadZipMagic ;;
     raise_if (negb (bytes_eqb (seek_read (on_disk epub) 30 8)
                               (bytes_of "mimetype")))
       MimetypeNameMisplaced ;;
     raise_if (negb (bytes_eqb (seek_read (on_disk epub) 38 20)
                               (bytes_of "application/epub+zip")))
       MimetypeContentMisplaced ;;
     logging_info "Mimetype file verification passed.").
Proof.
  intros Hfirst. unfold first_entry_is_mimetype in Hfirst.
  destruct (NameToInfo_is_Some epub "mimetype") as [zi Hzi].
  { destruct (namelist epub) as [|n ns]; [done|].
    injection Hfirst as ->. apply elem_of_cons; by left. }
  exists zi. split; [done|].
  unfold verify_mimetype, read, getinfo.
  destruct (namelist epub) as [|n ns]; [done|]. injection Hfirst as ->.
  rewrite Hzi. cbn [String.eqb Ascii.eqb Bool.eqb negb raise_if].
  rewrite !bind_ret_l. reflexivity.
Qed.

Lemma verify_mimetype_not_first epub :
  ~ first_entry_is_mimetype epub ->
  verify_mimetype epub = raise (ValueError MimetypeNotFirst).
Proof.
  unfold first_entry_is_mimetype, verify_mimetype. intros Hnot.
  destruct (namelist epub) as [|n ns]; [reflexivity|].
  destruct (String.eqb_spec n "mimetype") as [->|Hne]; [by destruct Hnot|].
  reflexivity.
Qed.


Lemma bytes_eqb_true a b : bytes_eqb a b = true <-> a = b.
Proof. unfold bytes_eqb. apply bool_decide_eq_true. Qed.






Example verify_mimetype_shadowed :
  verify_mimetype shadowed_epub
  = Run [LogRecord INFO "Mimetype file verification passed."] (Returned tt).
Proof. vm_compute. reflexivity. Qed.

(** ** Mandatory attributes *)

Lemma required_truthy o why :
  truthy o = true -> required o why = ret (default "" o).
Proof.
  destruct o as [s|]; cbn; [|done]. by destruct (String.eqb s "").
Qed.

Lemma required_falsy o why :
  truthy o = false -> required o why = raise (ValueError why).
Proof.
  destruct o as [s|]; cbn; [|done]. by destruct (String.eqb s "").
Qed.

(** ** The manifest loop *)

#[local] Set Warnings "-clear-no-such-hyp".

Section Manifest.
Context `{Collaborators}.
Variable known : gset string.
Variable suggested : gmap string (option string).

Lemma manifest_body_accepts info hrefs item :
  item_complete item = true ->
  attr_or_empty item "href" ∉ hrefs ->
  manifest_body known suggested (info, hrefs) item
  = Run (item_warnings known suggested item)
        (Returned ((info ++ [item_data_of item])%list,
                   {[ attr_or_empty item "href" ]} ∪ hrefs)).
Proof.
  unfold item_complete, manifest_body, item_warnings, attr_or_empty.
  intros Hc Hfresh. apply andb_prop in Hc as [Hc Hmt].
  apply andb_prop in Hc as [Hid Hhref]. cbn [item_data_of item_id item_href item_media_type].
  rewrite !required_truthy, !bind_ret_l by done.
  rewrite bool_decide_eq_false_2 by done. cbn [raise_if]. rewrite bind_ret_l.
  destruct (decide (default "" (get item "media-type") ∈ known)) as [Hin|Hout].
  - rewrite (bool_decide_eq_false_2 (_ ∉ _)) by (by intros ?).
    rewrite (bool_decide_eq_true_2 _ Hin). reflexivity.
  - rewrite (bool_decide_eq_true_2 (_ ∉ _)) by done.
    rewrite (bool_decide_eq_false_2 _ Hout). reflexivity.
Qed.

Lemma manifest_body_duplicate info hrefs item :
  item_complete item = true ->
  attr_or_empty item "href" ∈ hrefs ->
  manifest_body known suggested (info, hrefs) item
  = raise (ValueError (DuplicateHref (attr_or_empty item "href"))).
Proof.
  unfold item_complete, manifest_body, attr_or_empty.
  intros Hc Hseen. apply andb_prop in Hc as [Hc Hmt].
  apply andb_prop in Hc as [Hid Hhref]. cbn [item_data_of item_id item_href item_media_type].
  rewrite !required_truthy, !bind_ret_l by done.
  by rewrite bool_decide_eq_true_2.
Qed.

(** The loop over items that all pass: every item is appended, in order,
    and the warnings are those of the items, in order. *)
Lemma manifest_loop_accepts items info hrefs :
  Forall (fun item => item_complete item = true) items ->
  NoDup (map (fun item => attr_or_empty item "href") items) ->
  (forall h, h ∈ map (fun item => attr_or_empty item "href") items -> h ∉ hrefs) ->
  for_each (manifest_body known suggested) items (info, hrefs)
  = Run (flat_map (item_warnings known suggested) items)
        (Returned ((info ++ map item_data_of items)%list,
                   list_to_set (map (fun item => attr_or_empty item "href") items)
                   ∪ hrefs)).
Proof.
  revert info hrefs.
  induction items as [|item items IH]; intros info hrefs Hall Hnd Hfresh.
  - cbn. unfold ret. rewrite app_nil_r. do 3 f_equal. set_solver.
  - apply Forall_cons in Hall as [Hc Hall]. cbn in Hnd.
    apply NoDup_cons in Hnd as [Hhead Hnd].
    cbn [for_each].
    erewrite bind_returned; [|apply manifest_body_accepts; [done|]].
    2:{ apply Hfresh. cbn. apply elem_of_cons. by left. }
    rewrite IH; [| done | done |].
    2:{ intros h Hh. apply not_elem_of_union. split.
        - apply not_elem_of_singleton. intros ->. done.
        - apply Hfresh. cbn. apply elem_of_cons. by right. }
    cbn. rewrite <- app_assoc. cbn. do 3 f_equal. set_solver.
Qed.

(** The loop stops at the first item whose href was seen. *)
Lemma manifest_loop_duplicate pre item post info hrefs :
  Forall (fun item => item_complete item = true) (pre ++ [item]) ->
  NoDup (map (fun item => attr_or_empty item "href") pre) ->
  (forall h, h ∈ map (fun item => attr_or_empty item "href") pre -> h ∉ hrefs) ->
  attr_or_empty item "href"
    ∈ map (fun item => attr_or_empty item "href") pre
  \/ attr_or_empty item "href" ∈ hrefs ->
  for_each (manifest_body known suggested) (pre ++ item :: post) (info, hrefs)
  = Run (flat_map (item_warnings known suggested) pre)
        (Raised (ValueError (DuplicateHref (attr_or_empty item "href")))).
Proof.
  intros Hall Hnd Hfresh Hdup. apply Forall_app in Hall as [Hpre Hitem].
  apply Forall_cons in Hitem as [Hitem _].
  rewrite (for_each_app _ _ _ _ _ _ (manifest_loop_accepts pre info hrefs Hpre Hnd Hfresh)).
  cbn [for_each]. rewrite manifest_body_duplicate; [|done|].
  - cbn. by rewrite app_nil_r.
  - apply elem_of_union. destruct Hdup as [Hdup|Hdup]; [left|by right].
    by apply elem_of_list_to_set.
Qed.

End Manifest.

(** A list with a repetition splits at the first element that occurred
    before. *)
Lemma first_repetition `{EqDecision A} (l : list A) :
  ~ NoDup l ->
  exists pre x post, l = (pre ++ x :: post)%list /\ NoDup pre /\ x ∈ pre.
Proof.
  induction l as [|x l IH] using rev_ind; intros Hdup.
  - destruct Hdup. constructor.
  - destruct (decide (NoDup l)) as [Hnd|Hnd].
    + exists l, x, []. split; [done|]. split; [done|].
      destruct (decide (x ∈ l)) as [Hin|Hout]; [done|].
      destruct Hdup. apply NoDup_app. split; [done|]. split.
      * intros y Hy Hy'. apply list_elem_of_singleton in Hy' as ->. done.
      * apply NoDup_singleton.
    + destruct (IH Hnd) as (pre & y & post & -> & Hpre & Hy).
      exists pre, y, (post ++ [x])%list. by rewrite <- app_assoc.
Qed.

(** ** [parse_manifest] *)

Section ManifestParser.
Context `{Collaborators}.
Variable known : gset string.
Variable suggested : gmap string (option string).

Lemma parse_manifest_returned data root manifest lg st :
  xml data = inr root ->
  find root (opf "manifest") = Some manifest ->
  for_each (manifest_body known suggested) (findall manifest (opf "item"))
           ([], ∅) = Run lg (Returned st) ->
  parse_manifest data known suggested = Run lg (Returned (fst st)).
Proof.
  intros Hxml Hfind Hloop. unfold parse_manifest, fromstring.
  rewrite Hxml, bind_ret_l, Hfind, Hloop. cbn. by rewrite app_nil_r.
Qed.

Lemma parse_manifest_raised data root manifest lg why :
  xml data = inr root ->
  find root (opf "manifest") = Some manifest ->
  for_each (manifest_body known suggested) (findall manifest (opf "item"))
           ([], ∅) = Run lg (Raised (ValueError why)) ->
  parse_manifest data known suggested = Run lg (Raised (ValueError why)).
Proof.
  intros Hxml Hfind Hloop. unfold parse_manifest, fromstring.
  rewrite Hxml, bind_ret_l, Hfind, Hloop. cbn. by rewrite app_nil_r.
Qed.

(** A manifest whose items are complete and have distinct hrefs is
    returned whole, in document order. *)
Lemma parse_manifest_accepts data root manifest :
  xml data = inr root ->
  find root (opf "manifest") = Some manifest ->
  Forall (fun item => item_complete item = true)
         (findall manifest (opf "item")) ->
  NoDup (map (fun item => attr_or_empty item "href")
             (findall manifest (opf "item"))) ->
  parse_manifest data known suggested
  = Run (flat_map (item_warnings known suggested)
                  (findall manifest (opf "item")))
        (Returned (map item_data_of (findall manifest (opf "item")))).
Proof.
  intros Hxml Hfind Hall Hnd.
  rewrite (parse_manifest_returned data root manifest _ _ Hxml Hfind
             (manifest_loop_accepts known suggested _ [] ∅ Hall Hnd
                (fun h _ => not_elem_of_empty h))).
  reflexivity.
Qed.

(** Two items of the same href, the items up to the later one being
    complete: the loop stops at the first item that repeats an href. *)
Lemma parse_manifest_repeated_href data root manifest i j h :
  xml data = inr root ->
  find root (opf "manifest") = Some manifest ->
  (i < j)%nat ->
  map (fun item => attr_or_empty item "href")
      (findall manifest (opf "item")) !! i = Some h ->
  map (fun item => attr_or_empty item "href")
      (findall manifest (opf "item")) !! j = Some h ->
  Forall (fun item => item_complete item = true)
         (take (S j) (findall manifest (opf "item"))) ->
  exists lg h',
    parse_manifest data known suggested
    = Run lg (Raised (ValueError (DuplicateHref h'))).
Proof.
  intros Hxml Hfind Hij Hi Hj Hall.
  destruct (first_repetition
              (map (fun item => attr_or_empty item "href")
                   (take (S j) (findall manifest (opf "item")))))
    as (hpre & h' & hpost & Hsplit & Hnd & Hin).
  { intros Hnd. assert (i = j); [|lia].
    eapply (NoDup_lookup _ i j h Hnd).
    - rewrite <- firstn_map. rewrite lookup_take_lt by lia. exact Hi.
    - rewrite <- firstn_map. rewrite lookup_take_lt by lia. exact Hj. }
  apply map_eq_app in Hsplit as (pre & rest & Hitems & Hpre & Hrest).
  apply map_eq_cons in Hrest as (item & post & -> & Hitem & Hpost).
  subst hpre h' hpost.
  assert (Hwhole : findall manifest (opf "item")
                   = (pre ++ item
                        :: (post ++ drop (S j) (findall manifest (opf "item"))))%list).
  { rewrite <- (take_drop (S j) (findall manifest (opf "item"))) at 1.
    rewrite Hitems. by rewrite <- app_assoc. }
  eexists _, (attr_or_empty item "href").
  eapply parse_manifest_raised; [done|done|]. rewrite Hwhole.
  apply manifest_loop_duplicate.
  - rewrite Hitems in Hall. apply Forall_app in Hall as [Hp Hi'].
    apply Forall_cons in Hi' as [Hi' _].
    apply Forall_app. split; [done|]. by apply Forall_singleton.
  - done.
  - intros ? _. apply not_elem_of_empty.
  - by left.
Qed.

(** C5, as amended.  When two [item] elements have the same href and no
    item up to the later of the two lacks a mandatory attribute,
    [parse_manifest] raises the duplicate-href error (a
    [DuplicateKeyError] in the terms of the specification), whatever the
    items after them are.  In a manifest whose items all have their
    mandatory attributes and distinct hrefs it returns every item, and
    nothing is asked of the ids, which may repeat. *)
Theorem parse_manifest_duplicates data root manifest :
  xml data = inr root ->
  find root (opf "manifest") = Some manifest ->
  (forall i j h,
      i <> j ->
      map (fun item => attr_or_empty item "href")
          (findall manifest (opf "item")) !! i = Some h ->
      map (fun item => attr_or_empty item "href")
          (findall manifest (opf "item")) !! j = Some h ->
      Forall (fun item => item_complete item = true)
             (take (S (i `max` j)) (findall manifest (opf "item"))) ->
      exists lg h',
        parse_manifest data known suggested
        = Run lg (Raised (ValueError (DuplicateHref h')))
        /\ kind_of (DuplicateHref h') = DuplicateKeyError)
  /\ (Forall (fun item => item_complete item = true)
              (findall manifest (opf "item")) ->
      NoDup (map (fun item => attr_or_empty item "href")
                 (findall manifest (opf "item"))) ->
      result (parse_manifest data known suggested)
      = Returned (map item_data_of (findall manifest (opf "item")))).
Proof.
  intros Hxml Hfind. split.
  - intros i j h Hij Hi Hj Hall.
    destruct (decide (i < j)%nat) as [Hlt|Hge].
    + rewrite Nat.max_r in Hall by lia.
      destruct (parse_manifest_repeated_href data root manifest i j h)
        as (lg & h' & Hrun); try done.
      by exists lg, h'.
    + rewrite Nat.max_l in Hall by lia.
      destruct (parse_manifest_repeated_href data root manifest j i h)
        as (lg & h' & Hrun); try done; [lia|].
      by exists lg, h'.
  - intros Hall Hnd. by rewrite (parse_manifest_accepts data root manifest).
Qed.

(** C9.  An [item] whose media type is outside the recognized set does
    not make [parse_manifest] fail.  The loop body logs one warning for
    it, which names the suggested replacement when the table has one and
    says the type is unknown otherwise, and goes on with the item
    appended; the manifest is returned with the item at its place, and
    the warning at its place among the records logged. *)
Theorem unrecognized_media_type_is_advisory
    data root manifest pre item post id media_type :
  xml data = inr root ->
  find root (opf "manifest") = Some manifest ->
  findall manifest (opf "item") = (pre ++ item :: post)%list ->
  Forall (fun item => item_complete item = true)
         (findall manifest (opf "item")) ->
  NoDup (map (fun item => attr_or_empty item "href")
             (findall manifest (opf "item"))) ->
  get item "id" = Some id ->
  get item "media-type" = Some media_type ->
  media_type ∉ known ->
  let warning :=
    LogRecord WARNING (media_type_warning suggested media_type id) in
  (forall replacement,
      suggested !! media_type = Some (Some replacement) ->
      replacement <> "" ->
      log_text warning
      = "Deprecated media-type '" +:+ media_type +:+ "' in <item> with id '"
          +:+ id +:+ "'. Consider using '" +:+ replacement +:+ "' instead.")
  /\ (suggested !! media_type = None \/ suggested !! media_type = Some None ->
      log_text warning
      = "Unknown media-type '" +:+ media_type +:+ "' in <item> with id '"
          +:+ id +:+ "'.")
  /\ (forall info hrefs,
        attr_or_empty item "href" ∉ hrefs ->
        manifest_body known suggested (info, hrefs) item
        = Run [warning]
              (Returned ((info ++ [item_data_of item])%list,
                         {[ attr_or_empty item "href" ]} ∪ hrefs)))
  /\ parse_manifest data known suggested
     = Run (flat_map (item_warnings known suggested) pre
              ++ warning :: flat_map (item_warnings known suggested) post)%list
           (Returned (map item_data_of pre
                        ++ item_data_of item :: map item_data_of post)%list).
Proof.
  intros Hxml Hfind Hitems Hall Hnd Hid Hmt Hout warning.
  assert (Hwarn : item_warnings known suggested item = [warning]).
  { unfold item_warnings, attr_or_empty. rewrite Hid, Hmt. cbn.
    by rewrite bool_decide_eq_false_2. }
  split; [|split; [|split]].
  - intros replacement Hs Hne. cbn. unfold media_type_warning.
    rewrite Hs. cbn. destruct (String.eqb_spec replacement ""); [done|].
    reflexivity.
  - intros [Hs|Hs]; cbn; unfold media_type_warning; by rewrite Hs.
  - intros info hrefs Hfresh. rewrite <- Hwarn.
    apply manifest_body_accepts; [|done].
    rewrite Hitems in Hall. apply Forall_app in Hall as [_ Hall].
    by apply Forall_cons in Hall as [? _].
  - rewrite (parse_manifest_accepts data root manifest) by done.
    rewrite Hitems, flat_map_app, map_app. cbn. by rewrite Hwarn.
Qed.

End ManifestParser.

(** C5, amended, on two manifests: with a repeated href the run ends in
    the duplicate-href error; with a repeated id and distinct hrefs both
    items are returned. *)
Lemma parse_manifest_duplicates_witness :
  (exists lg h,
      @parse_manifest (table_collaborators [(same_href_text, same_href_opf)])
        same_href_text MIME_TYPES SUGGESTED_MIME_TYPES
      = Run lg (Raised (ValueError (DuplicateHref h)))
      /\ kind_of (DuplicateHref h) = DuplicateKeyError)
  /\ result
       (@parse_manifest (table_collaborators [(same_id_text, same_id_opf)])
          same_id_text MIME_TYPES SUGGESTED_MIME_TYPES)
     = Returned [ item_data_of (item_el "a" "one.xhtml" "application/xhtml+xml");
                  item_data_of (item_el "a" "two.xhtml" "application/xhtml+xml") ].
Proof.
  split.
  - refine (proj1 (@parse_manifest_duplicates
                     (table_collaborators [(same_href_text, same_href_opf)])
                     MIME_TYPES SUGGESTED_MIME_TYPES
                     same_href_text same_href_opf same_href_manifest
                     eq_refl eq_refl)
              0%nat 1%nat "text.xhtml" _ eq_refl eq_refl _).
    + discriminate.
    + vm_compute. repeat constructor.
  - refine (proj2 (@parse_manifest_duplicates
                     (table_collaborators [(same_id_text, same_id_opf)])
                     MIME_TYPES SUGGESTED_MIME_TYPES
                     same_id_text same_id_opf same_id_manifest
                     eq_refl eq_refl) _ _).
    + vm_compute. repeat constructor.
    + compute_done.
Defined.

(** C5 as stated fails on a manifest whose second item repeats the href
    of the first and has no id: the missing id is reported. *)
Lemma parse_manifest_reports_missing_id_first :
  ~ @reports_every_repeated_href
      (table_collaborators [(missing_id_text, missing_id_opf)])
      missing_id_text MIME_TYPES SUGGESTED_MIME_TYPES.
Proof.
  intros Hclaim.
  destruct (Hclaim missing_id_opf missing_id_manifest 0%nat 1%nat "text.xhtml"
              eq_refl eq_refl ltac:(discriminate) eq_refl eq_refl)
    as (lg & h' & Hrun).
  vm_compute in Hrun. discriminate.
Qed.

(** C9 on a manifest with a deprecated font type and an unknown video
    type: both items are returned and each gets its warning. *)
Lemma unrecognized_media_type_is_advisory_witness :
  @parse_manifest (table_collaborators [(advisory_text, advisory_opf)])
    advisory_text MIME_TYPES SUGGESTED_MIME_TYPES
  = Run [ LogRecord WARNING
            (media_type_warning SUGGESTED_MIME_TYPES
               "application/x-font-ttf" "font");
          LogRecord WARNING
            (media_type_warning SUGGESTED_MIME_TYPES "video/mp4" "clip") ]
        (Returned
           [ item_data_of (item_el "chap1" "chap1.xhtml" "application/xhtml+xml");
             item_data_of (item_el "font" "serif.ttf" "application/x-font-ttf");
             item_data_of (item_el "clip" "clip.mp4" "video/mp4") ]).
Proof.
  refine (proj2 (proj2 (proj2
    (@unrecognized_media_type_is_advisory
       (table_collaborators [(advisory_text, advisory_opf)])
       MIME_TYPES SUGGESTED_MIME_TYPES
       advisory_text advisory_opf advisory_manifest
       [item_el "chap1" "chap1.xhtml" "application/xhtml+xml"]
       (item_el "font" "serif.ttf" "application/x-font-ttf")
       [item_el "clip" "clip.mp4" "video/mp4"]
       "font" "application/x-font-ttf"
       eq_refl eq_refl eq_refl _ _ eq_refl eq_refl _)))).
  - vm_compute. repeat constructor.
  - compute_done.
  - compute_done.
Defined.

Example deprecated_font_warning :
  media_type_warning SUGGESTED_MIME_TYPES "application/x-font-ttf" "font"
  = "Deprecated media-type 'application/x-font-ttf' in <item> with id 'font'. Consider using 'application/vnd.ms-opentype' instead.".
Proof. reflexivity. Qed.

Example unknown_video_warning :
  media_type_warning SUGGESTED_MIME_TYPES "video/mp4" "clip"
  = "Unknown media-type 'video/mp4' in <item> with id 'clip'.".
Proof. reflexivity. Qed.

Example page_template_warning :
  media_type_warning SUGGESTED_MIME_TYPES
    "application/vnd.adobe-page-template+xml" "tpl"
  = "Unknown media-type 'application/vnd.adobe-page-template+xml' in <item> with id 'tpl'.".
Proof. reflexivity. Qed.

(** ** The spine loop *)

Section Spine.
Context `{Collaborators}.
Variable manifest_items : gmap string manifest_item.

(** The state after an accepted [itemref]. *)
Lemma spine_body_accepts st itemref :
  itemref_passes manifest_items itemref = true ->
  attr_or_empty itemref "idref" ∉ seen_idrefs st ->
  spine_body manifest_items st itemref
  = ret {| st_primary :=
             (st_primary st
                ++ filter (fun e => entry_linear e = "yes") [entry_of itemref])%list;
           st_auxiliary :=
             (st_auxiliary st
                ++ filter (fun e => entry_linear e <> "yes") [entry_of itemref])%list;
           seen_idrefs := {[ attr_or_empty itemref "idref" ]} ∪ seen_idrefs st |}.
Proof.
  unfold itemref_passes, spine_body, entry_of, attr_or_empty.
  intros Hpass Hfresh.
  destruct (get itemref "idref") as [idref|] eqn:Hidref; [|done].
  apply andb_prop in Hpass as [Hne Hitem]. cbn in Hfresh |- *.
  destruct (String.eqb idref ""); [done|]. rewrite bind_ret_l.
  rewrite bool_decide_eq_false_2 by done. cbn [raise_if]. rewrite bind_ret_l.
  destruct (manifest_items !! idref) as [item|]; [|done].
  assert (Hgate :
    (if negb (truthy (item_media_type item))
        || negb (is_content_type (item_media_type item))
     then raise_if (fallback_fails manifest_items (item_fallback item))
                   (NotContentDocument idref)
     else ret tt) = ret tt).
  { unfold content_in_one_hop in Hitem.
    destruct (is_content_type (item_media_type item)) eqn:Hdirect.
    - destruct (item_media_type item) as [t|]; [|done]. cbn.
      destruct (String.eqb_spec t "") as [->|_]; [|done].
      cbn in Hdirect. apply bool_decide_eq_true in Hdirect.
      by vm_compute in Hdirect.
    - rewrite orb_true_r. cbn in Hitem. unfold fallback_fails.
      destruct (item_fallback item) as [fb|]; [|done]. cbn.
      apply andb_prop in Hitem as [Hfb Htarget]. rewrite Hfb. cbn.
      destruct (manifest_items !! fb) as [target|]; [|done].
      by rewrite Htarget. }
  rewrite Hgate, bind_ret_l.
  destruct (String.eqb_spec (default "yes" (get itemref "linear")) "yes")
    as [Hyes|Hno].
  - rewrite decide_True by done. rewrite decide_False by (by intros ?).
    by rewrite app_nil_r.
  - rewrite decide_False by done. rewrite decide_True by done.
    by rewrite app_nil_r.
Qed.

(** The loop stops at an [itemref] whose item is not a content document
    and whose fallback item is not one either. *)
Lemma spine_body_rejects st itemref idref item :
  get itemref "idref" = Some idref -> idref <> "" ->
  idref ∉ seen_idrefs st ->
  manifest_items !! idref = Some item ->
  content_in_one_hop manifest_items item = false ->
  spine_body manifest_items st itemref
  = raise (ValueError (NotContentDocument idref)).
Proof.
  unfold spine_body, content_in_one_hop.
  intros Hidref Hne Hfresh Hitem Hhop. rewrite Hidref. cbn.
  destruct (String.eqb_spec idref ""); [done|]. rewrite bind_ret_l.
  rewrite bool_decide_eq_false_2 by done. cbn [raise_if]. rewrite bind_ret_l.
  rewrite Hitem. apply orb_false_elim in Hhop as [Hdirect Hfb].
  rewrite Hdirect, orb_true_r.
  assert (Hfails : fallback_fails manifest_items (item_fallback item) = true).
  { unfold fallback_fails. destruct (item_fallback item) as [fb|]; [|done].
    cbn. apply andb_false_iff in Hfb as [Hfb|Hfb].
    - by rewrite Hfb.
    - destruct (manifest_items !! fb) as [target|]; [|by rewrite orb_true_r].
      by rewrite Hfb, orb_true_r. }
  by rewrite Hfails.
Qed.

(** The loop over [itemref]s that all pass: the entries with
    [linear = "yes"] go to the primary sequence and the others to the
    auxiliary one, each in document order. *)
Lemma spine_loop_accepts itemrefs st :
  Forall (fun r => itemref_passes manifest_items r = true) itemrefs ->
  NoDup (map (fun r => attr_or_empty r "idref") itemrefs) ->
  (forall i, i ∈ map (fun r => attr_or_empty r "idref") itemrefs ->
             i ∉ seen_idrefs st) ->
  for_each (spine_body manifest_items) itemrefs st
  = ret {| st_primary :=
             (st_primary st
                ++ filter (fun e => entry_linear e = "yes")
                          (map entry_of itemrefs))%list;
           st_auxiliary :=
             (st_auxiliary st
                ++ filter (fun e => entry_linear e <> "yes")
                          (map entry_of itemrefs))%list;
           seen_idrefs :=
             list_to_set (map (fun r => attr_or_empty r "idref") itemrefs)
             ∪ seen_idrefs st |}.
Proof.
  revert st.
  induction itemrefs as [|r itemrefs IH]; intros st Hall Hnd Hfresh.
  - cbn. rewrite !app_nil_r. destruct st as [p a s]. cbn.
    unfold ret. do 3 f_equal. set_solver.
  - apply Forall_cons in Hall as [Hr Hall]. cbn in Hnd.
    apply NoDup_cons in Hnd as [Hhead Hnd]. cbn [for_each].
    rewrite spine_body_accepts; [|done|].
    2:{ apply Hfresh. cbn. apply elem_of_cons. by left. }
    rewrite bind_ret_l, IH; [|done|done|].
    2:{ cbn. intros i Hi. apply not_elem_of_union. split.
        - apply not_elem_of_singleton. by intros ->.
        - apply Hfresh. cbn. apply elem_of_cons. by right. }
    cbn [st_primary st_auxiliary seen_idrefs map].
    rewrite <- !app_assoc, <- !filter_app. cbn [app].
    unfold ret. do 3 f_equal. set_solver.
Qed.

End Spine.

(** ** [parse_spine] *)

Section SpineParser.
Context `{Collaborators}.
Variable manifest_items : gmap string manifest_item.

(** The run of [parse_spine] up to its loop. *)
Lemma parse_spine_loop data root spine toc :
  xml data = inr root ->
  find root (opf "spine") = Some spine ->
  get spine "toc" = Some toc -> toc <> "" ->
  parse_spine data manifest_items
  = try_except
      (logging_info "Found <spine> section in OPF file" ;;
       logging_info ("Table of Contents ID: " +:+ toc) ;;
       st <- for_each (spine_body manifest_items)
                      (findall spine (opf "itemref"))
                      {| st_primary := []; st_auxiliary := [];
                         seen_idrefs := ∅ |} ;;
       logging_info ("Primary Content: "
                       +:+ str_of_nat (length (st_primary st))
                       +:+ " items") ;;
       ret {| spine_toc := toc;
              primary_content := st_primary st;
              auxiliary_content := st_auxiliary st |})
      (fun e =>
         match e with
         | ParseError detail => raise (ValueError (SpineParseFailure detail))
         | _ => raise e
         end).
Proof.
  intros Hxml Hfind Htoc Hne. unfold parse_spine, fromstring.
  rewrite Hxml, bind_ret_l, Hfind, Htoc. cbn [required].
  destruct (String.eqb_spec toc ""); [done|]. by rewrite bind_ret_l.
Qed.

(** A spine with a [toc] whose [itemref]s all pass and have distinct
    idrefs is returned, classified. *)
Lemma parse_spine_accepts data root spine toc :
  xml data = inr root ->
  find root (opf "spine") = Some spine ->
  get spine "toc" = Some toc -> toc <> "" ->
  Forall (fun r => itemref_passes manifest_items r = true)
         (findall spine (opf "itemref")) ->
  NoDup (map (fun r => attr_or_empty r "idref")
             (findall spine (opf "itemref"))) ->
  let primary :=
    filter (fun e => entry_linear e = "yes")
           (map entry_of (findall spine (opf "itemref"))) in
  let auxiliary :=
    filter (fun e => entry_linear e <> "yes")
           (map entry_of (findall spine (opf "itemref"))) in
  parse_spine data manifest_items
  = Run [ LogRecord INFO "Found <spine> section in OPF file";
          LogRecord INFO ("Table of Contents ID: " +:+ toc);
          LogRecord INFO ("Primary Content: " +:+ str_of_nat (length primary)
                            +:+ " items") ]
        (Returned {| spine_toc := toc;
                     primary_content := primary;
                     auxiliary_content := auxiliary |}).
Proof.
  intros Hxml Hfind Htoc Hne Hall Hnd primary auxiliary.
  rewrite (parse_spine_loop data root spine toc) by done.
  rewrite spine_loop_accepts; [reflexivity|done|done|].
  intros i _. apply not_elem_of_empty.
Qed.

(** It fails at the first [itemref] that reaches the content-type check
    and is not a content document in one hop. *)
Lemma parse_spine_rejects data root spine toc pre itemref post idref item :
  xml data = inr root ->
  find root (opf "spine") = Some spine ->
  get spine "toc" = Some toc -> toc <> "" ->
  findall spine (opf "itemref") = (pre ++ itemref :: post)%list ->
  Forall (fun r => itemref_passes manifest_items r = true) pre ->
  NoDup (map (fun r => attr_or_empty r "idref") (pre ++ [itemref])) ->
  get itemref "idref" = Some idref -> idref <> "" ->
  manifest_items !! idref = Some item ->
  content_in_one_hop manifest_items item = false ->
  parse_spine data manifest_items
  = Run [ LogRecord INFO "Found <spine> section in OPF file";
          LogRecord INFO ("Table of Contents ID: " +:+ toc) ]
        (Raised (ValueError (NotContentDocument idref))).
Proof.
  intros Hxml Hfind Htoc Hne Hitems Hpre Hnd Hidref Hidne Hitem Hhop.
  rewrite (parse_spine_loop data root spine toc) by done.
  rewrite map_app in Hnd. apply NoDup_app in Hnd as (Hndpre & Hdisj & _).
  rewrite Hitems.
  erewrite for_each_app;
    [|apply spine_loop_accepts; [done|done|intros i _; apply not_elem_of_empty]].
  cbn [for_each].
  rewrite (spine_body_rejects manifest_items _ itemref idref item); try done.
  cbn [seen_idrefs]. intros Hin. apply elem_of_union in Hin as [Hin|Hin].
  - apply elem_of_list_to_set in Hin. apply (Hdisj idref Hin).
    cbn. unfold attr_or_empty. rewrite Hidref. apply elem_of_cons. by left.
  - by apply not_elem_of_empty in Hin.
Qed.

End SpineParser.

Section SpineClaims.
Context `{Collaborators}.
Variable manifest_items : gmap string manifest_item.

(** C3.  Take an [itemref] that the loop reaches, whose idref is new and
    resolves to a manifest item that is not a content document, and
    whose item names, by its [fallback] attribute, a manifest item
    [target].
    - When [target] is a content document, the loop body accepts the
      [itemref] (its entry is appended and the loop goes on), and
      [parse_spine] returns the spine if the remaining [itemref]s pass
      too.
    - When [target] is not a content document, the loop body raises the
      not-a-content-document error (a [ReferenceNotFoundError] in the
      terms of the specification) and so does [parse_spine].  Nothing is
      assumed about the [fallback] of [target]: the error is raised also
      when it names a content document, so resolution stops after one
      hop. *)
Theorem spine_fallback_single_hop
    data root spine toc pre itemref post idref item fb target :
  xml data = inr root ->
  find root (opf "spine") = Some spine ->
  get spine "toc" = Some toc -> toc <> "" ->
  findall spine (opf "itemref") = (pre ++ itemref :: post)%list ->
  Forall (fun r => itemref_passes manifest_items r = true) pre ->
  NoDup (map (fun r => attr_or_empty r "idref") (pre ++ [itemref])) ->
  get itemref "idref" = Some idref -> idref <> "" ->
  manifest_items !! idref = Some item ->
  is_content_type (item_media_type item) = false ->
  item_fallback item = Some fb ->
  manifest_items !! fb = Some target ->
  (fb <> "" -> is_content_type (item_media_type target) = true ->
     (forall st, idref ∉ seen_idrefs st ->
        spine_body manifest_items st itemref
        = ret {| st_primary :=
                   (st_primary st
                      ++ filter (fun e => entry_linear e = "yes")
                                [entry_of itemref])%list;
                 st_auxiliary :=
                   (st_auxiliary st
                      ++ filter (fun e => entry_linear e <> "yes")
                                [entry_of itemref])%list;
                 seen_idrefs := {[ idref ]} ∪ seen_idrefs st |})
     /\ (Forall (fun r => itemref_passes manifest_items r = true) post ->
         NoDup (map (fun r => attr_or_empty r "idref")
                    (findall spine (opf "itemref"))) ->
         result (parse_spine data manifest_items)
         = Returned
             {| spine_toc := toc;
                primary_content :=
                  filter (fun e => entry_linear e = "yes")
                         (map entry_of (findall spine (opf "itemref")));
                auxiliary_content :=
                  filter (fun e => entry_linear e <> "yes")
                         (map entry_of (findall spine (opf "itemref"))) |}))
  /\ (is_content_type (item_media_type target) = false ->
      (forall st, idref ∉ seen_idrefs st ->
         spine_body manifest_items st itemref
         = raise (ValueError (NotContentDocument idref)))
      /\ parse_spine data manifest_items
         = Run [ LogRecord INFO "Found <spine> section in OPF file";
                 LogRecord INFO ("Table of Contents ID: " +:+ toc) ]
               (Raised (ValueError (NotContentDocument idref)))
      /\ kind_of (NotContentDocument idref) = ReferenceNotFoundError).
Proof.
  intros Hxml Hfind Htoc Hne Hitems Hpre Hnd Hidref Hidne Hitem Hdirect
         Hfb Htarget.
  assert (Hid : attr_or_empty itemref "idref" = idref).
  { unfold attr_or_empty. by rewrite Hidref. }
  split.
  - intros Hfbne Heligible.
    assert (Hpass : itemref_passes manifest_items itemref = true).
    { unfold itemref_passes, content_in_one_hop.
      rewrite Hidref, Hitem, Hdirect, Hfb, Htarget, Heligible. cbn.
      destruct (String.eqb_spec idref ""); [done|].
      by destruct (String.eqb_spec fb ""). }
    split.
    + intros st Hfresh. rewrite <- Hid in Hfresh |- *.
      by apply spine_body_accepts.
    + intros Hpost Hall.
      rewrite (parse_spine_accepts manifest_items data root spine toc);
        try done.
      rewrite Hitems. apply Forall_app. split; [done|].
      by apply Forall_cons.
  - intros Hineligible.
    assert (Hhop : content_in_one_hop manifest_items item = false).
    { unfold content_in_one_hop.
      rewrite Hdirect, Hfb, Htarget, Hineligible. cbn. apply andb_false_r. }
    split; [|split; [|reflexivity]].
    + intros st Hfresh. by apply (spine_body_rejects _ _ _ idref item).
    + by apply (parse_spine_rejects manifest_items data root spine toc
                  pre itemref post idref item).
Qed.

(** C8.  In a spine that [parse_spine] accepts, the primary sequence is
    the entries with [linear] equal to ["yes"] and the auxiliary sequence
    is all the others, both in the order of the [itemref]s in the
    document.  An [itemref] without a [linear] attribute gets
    [linear = "yes"] and is primary; one whose [linear] is ["no"], or any
    value other than ["yes"], is auxiliary and not primary. *)
Theorem spine_linear_classification data root spine toc :
  xml data = inr root ->
  find root (opf "spine") = Some spine ->
  get spine "toc" = Some toc -> toc <> "" ->
  Forall (fun r => itemref_passes manifest_items r = true)
         (findall spine (opf "itemref")) ->
  NoDup (map (fun r => attr_or_empty r "idref")
             (findall spine (opf "itemref"))) ->
  exists info,
    result (parse_spine data manifest_items) = Returned info
    /\ primary_content info
       = filter (fun e => entry_linear e = "yes")
                (map entry_of (findall spine (opf "itemref")))
    /\ auxiliary_content info
       = filter (fun e => entry_linear e <> "yes")
                (map entry_of (findall spine (opf "itemref")))
    /\ (forall r, r ∈ findall spine (opf "itemref") ->
          get r "linear" = None ->
          entry_linear (entry_of r) = "yes"
          /\ entry_of r ∈ primary_content info)
    /\ (forall r v, r ∈ findall spine (opf "itemref") ->
          get r "linear" = Some v -> v <> "yes" ->
          entry_linear (entry_of r) = v
          /\ entry_of r ∈ auxiliary_content info
          /\ entry_of r ∉ primary_content info).
Proof.
  intros Hxml Hfind Htoc Hne Hall Hnd.
  rewrite (parse_spine_accepts manifest_items data root spine toc) by done.
  eexists. split; [reflexivity|]. cbn.
  split; [reflexivity|]. split; [reflexivity|]. split.
  - intros r Hr Hlinear.
    assert (Hyes : entry_linear (entry_of r) = "yes").
    { unfold entry_of. cbn. by rewrite Hlinear. }
    split; [done|]. apply list_elem_of_filter. split; [done|].
    by apply list_elem_of_fmap_2.
  - intros r v Hr Hlinear Hv.
    assert (Hother : entry_linear (entry_of r) = v).
    { unfold entry_of. cbn. by rewrite Hlinear. }
    split; [done|]. split.
    + apply list_elem_of_filter. split; [by rewrite Hother|].
      by apply list_elem_of_fmap_2.
    + intros Hin. apply list_elem_of_filter in Hin as [Hyes _]. congruence.
Qed.

(** C10.  A spine with a non-empty [toc] whose [itemref]s all pass is
    returned with that [toc].  The statement asks nothing of the [toc]
    with respect to the manifest lookup, so it holds when the [toc] is
    not a key of the lookup: the only check on [toc] is that it is
    present and non-empty. *)
Theorem spine_toc_not_resolved data root spine toc :
  xml data = inr root ->
  find root (opf "spine") = Some spine ->
  get spine "toc" = Some toc -> toc <> "" ->
  Forall (fun r => itemref_passes manifest_items r = true)
         (findall spine (opf "itemref")) ->
  NoDup (map (fun r => attr_or_empty r "idref")
             (findall spine (opf "itemref"))) ->
  exists info,
    result (parse_spine data manifest_items) = Returned info
    /\ spine_toc info = toc
    /\ In (LogRecord INFO ("Table of Contents ID: " +:+ toc))
          (logged (parse_spine data manifest_items)).
Proof.
  intros Hxml Hfind Htoc Hne Hall Hnd.
  rewrite (parse_spine_accepts manifest_items data root spine toc) by done.
  eexists. split; [reflexivity|]. split; [reflexivity|]. cbn. tauto.
Qed.

End SpineClaims.

(** C3 on the lookup with the fallback chain: [cover] (an image whose
    fallback is the content document [chap1]) is accepted; [figure] (an
    image whose fallback is a style sheet) is refused although the style
    sheet falls back on [chap1]. *)
Lemma spine_fallback_single_hop_witness :
  (item_fallback <$> fallback_items !! "style" = Some (Some "chap1")
   /\ (is_content_type ∘ item_media_type) <$> fallback_items !! "chap1"
      = Some true)
  /\ result (@parse_spine (table_collaborators [(one_hop_text, one_hop_opf)])
               one_hop_text fallback_items)
     = Returned {| spine_toc := "ncx";
                   primary_content :=
                     [ {| entry_idref := "chap1"; entry_linear := "yes" |};
                       {| entry_idref := "cover"; entry_linear := "yes" |} ];
                   auxiliary_content := [] |}
  /\ @parse_spine (table_collaborators [(two_hops_text, two_hops_opf)])
       two_hops_text fallback_items
     = Run [ LogRecord INFO "Found <spine> section in OPF file";
             LogRecord INFO "Table of Contents ID: ncx" ]
           (Raised (ValueError (NotContentDocument "figure"))).
Proof.
  split; [split; vm_compute; reflexivity|]. split.
  - refine (proj2 (proj1
      (@spine_fallback_single_hop
         (table_collaborators [(one_hop_text, one_hop_opf)]) fallback_items
         one_hop_text one_hop_opf one_hop_spine "ncx"
         [itemref_el "chap1"] (itemref_el "cover") [] "cover"
         (item_data_of
            (item_with_fallback "cover" "cover.svg" "image/svg+xml" "chap1"))
         "chap1"
         (item_data_of (item_el "chap1" "chap1.xhtml" "application/xhtml+xml"))
         eq_refl eq_refl eq_refl _ eq_refl _ _ eq_refl _ _ _ eq_refl _)
      _ _) _ _).
    all: try discriminate; try (vm_compute; reflexivity).
    all: try (vm_compute; repeat constructor).
    all: compute_done.
  - refine (proj1 (proj2 (proj2
      (@spine_fallback_single_hop
         (table_collaborators [(two_hops_text, two_hops_opf)]) fallback_items
         two_hops_text two_hops_opf two_hops_spine "ncx"
         [itemref_el "chap1"] (itemref_el "figure") [] "figure"
         (item_data_of
            (item_with_fallback "figure" "figure.png" "image/png" "style"))
         "style"
         (item_data_of
            (item_with_fallback "style" "style.css" "text/css" "chap1"))
         eq_refl eq_refl eq_refl _ eq_refl _ _ eq_refl _ _ _ eq_refl _)
      _))).
    all: try discriminate; try (vm_compute; reflexivity).
    all: try (vm_compute; repeat constructor).
    all: compute_done.
Defined.

(** C8 on a spine with the four kinds of [linear]. *)
Lemma spine_linear_classification_witness :
  exists info,
    result (@parse_spine (table_collaborators [(linear_text, linear_opf)])
              linear_text linear_items) = Returned info
    /\ primary_content info
       = [ {| entry_idref := "chap1"; entry_linear := "yes" |};
           {| entry_idref := "chap2"; entry_linear := "yes" |} ]
    /\ auxiliary_content info
       = [ {| entry_idref := "notes"; entry_linear := "no" |};
           {| entry_idref := "index"; entry_linear := "maybe" |} ].
Proof.
  destruct (@spine_linear_classification
              (table_collaborators [(linear_text, linear_opf)]) linear_items
              linear_text linear_opf linear_spine "ncx"
              eq_refl eq_refl eq_refl)
    as (info & Hrun & Hprimary & Hauxiliary & _).
  - discriminate.
  - vm_compute. repeat constructor.
  - compute_done.
  - exists info. split; [exact Hrun|]. split; [exact Hprimary|exact Hauxiliary].
Defined.

(** C10 on the spine of the end-to-end scenario: its [toc] is [ncx] and
    the manifest has no item of that id. *)
Lemma spine_toc_not_resolved_witness :
  items_by_id [item_data_of (item_el "chap1" "chap1.xhtml" "application/xhtml+xml")]
    !! "ncx" = None
  /\ exists info,
       result (@parse_spine (table_collaborators scenario_docs)
                 scenario_opf_text
                 (items_by_id
                    [item_data_of
                       (item_el "chap1" "chap1.xhtml" "application/xhtml+xml")]))
       = Returned info
       /\ spine_toc info = "ncx".
Proof.
  split; [vm_compute; reflexivity|].
  destruct (@spine_toc_not_resolved
              (table_collaborators scenario_docs)
              (items_by_id
                 [item_data_of
                    (item_el "chap1" "chap1.xhtml" "application/xhtml+xml")])
              scenario_opf_text scenario_opf scenario_spine "ncx"
              eq_refl eq_refl eq_refl)
    as (info & Hrun & Htoc & _).
  - discriminate.
  - vm_compute. repeat constructor.
  - compute_done.
  - exists info. split; [exact Hrun|exact Htoc].
Defined.

(** ** [parse_metadata] *)

Section Metadata.
Context `{Collaborators}.

(** For a non-empty key, the set the function tests is the set of the
    declared ids: the ids it leaves out are the empty ones. *)
Lemma identifier_ids_declared metadata (key : string) :
  key <> "" ->
  key ∈ identifier_ids (extract_metadata metadata)
  <-> key ∈ declared_identifier_ids metadata.
Proof.
  intros Hne. unfold identifier_ids, declared_identifier_ids, extract_metadata.
  cbn [md_identifier]. rewrite elem_of_list_to_set, !list_elem_of_omap.
  split.
  - intros (entry & Hentry & Hid).
    apply list_elem_of_fmap in Hentry as (e & -> & He). cbn in Hid.
    exists e. split; [done|].
    by destruct (truthy (get e "id")).
  - intros (e & He & Hid). eexists. split.
    + apply list_elem_of_fmap_2. exact He.
    + cbn. rewrite Hid. cbn. by destruct (String.eqb_spec key "").
Qed.

Lemma parse_metadata_found data root metadata key :
  xml data = inr root ->
  find root (opf "metadata") = Some metadata ->
  parse_metadata data key
  = if bool_decide (key ∉ identifier_ids (extract_metadata metadata))
    then raise (ValueError (UniqueIdentifierUnmatched key))
    else Run [LogRecord INFO ("unique-identifier '" +:+ key
                                +:+ "' matches <dc:identifier> id")]
             (Returned (MetadataInfo (extract_metadata metadata))).
Proof.
  intros Hxml Hfind. unfold parse_metadata, fromstring.
  rewrite Hxml, bind_ret_l, Hfind.
  by destruct (bool_decide (key ∉ identifier_ids (extract_metadata metadata))).
Qed.

(** ** [parse_package_identity] *)

Lemma parse_package_identity_returns data root version key :
  xml data = inr root ->
  tag root = opf "package" ->
  get root "version" = Some version -> version <> "" ->
  get root "unique-identifier" = Some key -> key <> "" ->
  parse_package_identity data
  = Run [ LogRecord INFO ("OPF Version: " +:+ version);
          LogRecord INFO ("OPF Unique Identifier: " +:+ key) ]
        (Returned (version, key)).
Proof.
  intros Hxml Htag Hversion Hvne Hkey Hkne.
  unfold parse_package_identity, fromstring.
  rewrite Hxml, bind_ret_l, Htag, String.eqb_refl, Hversion, Hkey.
  cbn [negb raise_if required]. rewrite bind_ret_l.
  destruct (String.eqb_spec version ""); [done|].
  destruct (String.eqb_spec key ""); [done|]. reflexivity.
Qed.

(** The package document as [parse_package] reads it. *)
Lemma parse_package_reads epub path zi data :
  NameToInfo epub !! path = Some zi ->
  utf8 (content zi) = Some data ->
  parse_package epub path
  = (identity <- parse_package_identity data ;;
     let '(version, unique_identifier) := identity in
     metadata <- parse_metadata data unique_identifier ;;
     manifest <- parse_manifest data MIME_TYPES SUGGESTED_MIME_TYPES ;;
     spine <- parse_spine data (items_by_id manifest) ;;
     guide <- parse_guide data ;;
     ret tt).
Proof.
  intros Hzi Hdata. unfold parse_package, read, getinfo, decode_utf8.
  rewrite Hzi, !bind_ret_l, Hdata. cbn [try_except ret result].
  by rewrite bind_ret_l.
Qed.

(** C4.  For a package document with a [metadata] element and a
    (non-empty) unique-identifier key, [parse_metadata] raises the
    unmatched-identifier error (a [ReferenceNotFoundError] in the terms
    of the specification) exactly when the key is not among the ids of
    the declared [dc:identifier] elements, and returns the metadata
    otherwise.  In [parse_package], when the package root gives that key
    and the key is not declared, the run ends with this error after the
    two records of the identity stage alone, whatever the manifest and
    the spine of the document are: neither is parsed. *)
Theorem unique_identifier_must_be_declared data root metadata key :
  xml data = inr root ->
  find root (opf "metadata") = Some metadata ->
  key <> "" ->
  (result (parse_metadata data key)
   = Raised (ValueError (UniqueIdentifierUnmatched key))
   <-> key ∉ declared_identifier_ids metadata)
  /\ (key ∈ declared_identifier_ids metadata ->
      result (parse_metadata data key)
      = Returned (MetadataInfo (extract_metadata metadata)))
  /\ kind_of (UniqueIdentifierUnmatched key) = ReferenceNotFoundError
  /\ (forall epub path zi version,
        NameToInfo epub !! path = Some zi ->
        utf8 (content zi) = Some data ->
        tag root = opf "package" ->
        get root "version" = Some version -> version <> "" ->
        get root "unique-identifier" = Some key ->
        key ∉ declared_identifier_ids metadata ->
        parse_package epub path
        = Run [ LogRecord INFO ("OPF Version: " +:+ version);
                LogRecord INFO ("OPF Unique Identifier: " +:+ key) ]
              (Raised (ValueError (UniqueIdentifierUnmatched key)))).
Proof.
  intros Hxml Hfind Hne.
  pose proof (parse_metadata_found data root metadata key Hxml Hfind) as Hrun.
  pose proof (identifier_ids_declared metadata key Hne) as Hids.
  destruct (decide (key ∈ declared_identifier_ids metadata)) as [Hin|Hout].
  - rewrite bool_decide_eq_false_2 in Hrun by (intros Hnot; by apply Hnot, Hids).
    rewrite Hrun. cbn. split; [split; [discriminate|done]|].
    split; [done|]. split; [done|]. intros; by exfalso.
  - rewrite bool_decide_eq_true_2 in Hrun by (intros Hin; by apply Hout, Hids).
    split; [by rewrite Hrun|]. split; [done|]. split; [done|].
    intros epub path zi version Hzi Hdata Htag Hversion Hvne Hkey _.
    rewrite (parse_package_reads epub path zi data Hzi Hdata).
    rewrite (parse_package_identity_returns data root version key) by done.
    unfold bind at 1. cbn [result logged]. rewrite Hrun. reflexivity.
Qed.

(** C7.  On a text that [ET.fromstring] rejects, [parse_metadata] does
    not raise: it returns a string that starts with ["Error: "], as an
    ordinary value.  The other three parsers of package sections raise a
    [ValueError] on the same text. *)
Theorem parse_metadata_returns_text_on_parse_error data detail key :
  xml data = inl detail ->
  parse_metadata data key
  = ret (MetadataText
           ("Error: Failed to parse OPF metadata section: " +:+ detail))
  /\ (forall known suggested,
        parse_manifest data known suggested
        = raise (ValueError (ManifestParseFailure detail)))
  /\ (forall manifest_items,
        parse_spine data manifest_items
        = raise (ValueError (SpineParseFailure detail)))
  /\ parse_guide data = raise (ValueError (GuideParseFailure detail)).
Proof.
  intros Hxml.
  unfold parse_metadata, parse_manifest, parse_spine, parse_guide, fromstring.
  rewrite Hxml. repeat split.
Qed.

End Metadata.

(** C4 on the negative scenario: the key [BookId2] is not declared. *)
Lemma unique_identifier_must_be_declared_witness :
  @parse_package (table_collaborators
                    [(scenario_container_text, scenario_container);
                     (unmatched_opf_text, unmatched_opf)])
    unmatched_epub "OEBPS/content.opf"
  = Run [ LogRecord INFO "OPF Version: 3.0";
          LogRecord INFO "OPF Unique Identifier: BookId2" ]
        (Raised (ValueError (UniqueIdentifierUnmatched "BookId2"))).
Proof.
  refine (proj2 (proj2 (proj2
    (@unique_identifier_must_be_declared
       (table_collaborators
          [(scenario_container_text, scenario_container);
           (unmatched_opf_text, unmatched_opf)])
       unmatched_opf_text unmatched_opf scenario_metadata "BookId2"
       eq_refl eq_refl _)))
    unmatched_epub "OEBPS/content.opf"
    (stored_entry "OEBPS/content.opf" unmatched_opf_text) "3.0"
    _ eq_refl eq_refl eq_refl _ eq_refl _).
  - discriminate.
  - vm_compute. reflexivity.
  - discriminate.
  - compute_done.
Defined.

(** C7 on a text with an element left open. *)
Lemma parse_metadata_returns_text_on_parse_error_witness :
  @parse_metadata (table_collaborators scenario_docs) truncated_text "BookId"
  = ret (MetadataText
           "Error: Failed to parse OPF metadata section: syntax error: line 1, column 0").
Proof.
  exact (proj1 (@parse_metadata_returns_text_on_parse_error
                  (table_collaborators scenario_docs)
                  truncated_text "syntax error: line 1, column 0" "BookId"
                  eq_refl)).
Defined.

(** ** [parse_container] *)

(** The loop returns at the first [rootfile] that has the package media
    type and a non-empty path. *)
Lemma rootfile_loop_first_usable (rootfiles : list Element) :
  rootfile_loop rootfiles
  = match List.find has_package_path rootfiles with
    | Some rootfile =>
        Run [LogRecord INFO ("EPUB Rootfile Found: "
                               +:+ attr_or_empty rootfile "full-path")]
            (Returned (attr_or_empty rootfile "full-path"))
    | None => raise (ValueError NoPackageRootfile)
    end.
Proof.
  induction rootfiles as [|rootfile rest IH]; [reflexivity|].
  cbn [rootfile_loop List.find]. rewrite IH. clear IH.
  assert (Husable :
    has_package_path rootfile
    = bool_decide (get rootfile "media-type" = Some PACKAGE_MEDIA_TYPE)
      && truthy (get rootfile "full-path")) by reflexivity.
  rewrite Husable. clear Husable. unfold attr_or_empty.
  destruct (bool_decide (get rootfile "media-type" = Some PACKAGE_MEDIA_TYPE));
    [|reflexivity].
  destruct (get rootfile "full-path") as [p|] eqn:Hp; [|reflexivity].
  cbn. destruct (String.eqb p ""); [reflexivity|].
  cbn. by rewrite Hp.
Qed.

Section Container.
Context `{Collaborators}.

Lemma parse_container_reads epub zi data root rootfiles :
  NameToInfo epub !! "META-INF/container.xml" = Some zi ->
  utf8 (content zi) = Some data ->
  xml data = inr root ->
  find root (ocf "rootfiles") = Some rootfiles ->
  parse_container epub = rootfile_loop (findall rootfiles (ocf "rootfile")).
Proof.
  intros Hzi Hdata Hxml Hfind.
  unfold parse_container, read, getinfo, decode_utf8, fromstring.
  rewrite Hzi, !bind_ret_l, Hdata. cbn [try_except ret result].
  rewrite bind_ret_l, Hxml, bind_ret_l, Hfind.
  rewrite rootfile_loop_first_usable.
  by destruct (List.find has_package_path _).
Qed.

(** C6, as amended.  For a container document whose root has a
    [rootfiles] child, [parse_container] returns the [full-path] of the
    first [rootfile] child that has the package media type and a
    non-empty [full-path], and raises the no-rootfile error (a
    [ReferenceNotFoundError] in the terms of the specification) when no
    child is such. *)
Theorem parse_container_first_usable_rootfile epub zi data root rootfiles :
  NameToInfo epub !! "META-INF/container.xml" = Some zi ->
  utf8 (content zi) = Some data ->
  xml data = inr root ->
  find root (ocf "rootfiles") = Some rootfiles ->
  match List.find has_package_path (findall rootfiles (ocf "rootfile")) with
  | Some rootfile =>
      exists full_path,
        get rootfile "full-path" = Some full_path /\ full_path <> ""
        /\ get rootfile "media-type" = Some PACKAGE_MEDIA_TYPE
        /\ parse_container epub
           = Run [LogRecord INFO ("EPUB Rootfile Found: " +:+ full_path)]
                 (Returned full_path)
  | None =>
      parse_container epub = raise (ValueError NoPackageRootfile)
      /\ kind_of NoPackageRootfile = ReferenceNotFoundError
  end.
Proof.
  intros Hzi Hdata Hxml Hfind.
  rewrite (parse_container_reads epub zi data root rootfiles) by done.
  rewrite rootfile_loop_first_usable.
  destruct (List.find has_package_path (findall rootfiles (ocf "rootfile")))
    as [rootfile|] eqn:Hfirst; [|done].
  apply find_some in Hfirst as [_ Husable].
  unfold has_package_path, has_package_media_type in Husable.
  apply andb_prop in Husable as [Htype Hpath].
  apply bool_decide_eq_true in Htype. unfold attr_or_empty.
  destruct (get rootfile "full-path") as [p|]; [|done].
  exists p. cbn. repeat split; try done.
  intros ->. done.
Qed.

End Container.

(** C6 as stated fails on a container whose first package [rootfile] has
    an empty [full-path]: the function goes on to the second one and
    returns its path. *)
Lemma parse_container_skips_empty_path :
  ~ @returns_first_package_rootfile
      (table_collaborators [(two_rootfiles_text, two_rootfiles_container)])
      two_rootfiles_epub.
Proof.
  intros Hclaim.
  specialize (Hclaim (stored_entry "META-INF/container.xml" two_rootfiles_text)
                     two_rootfiles_text two_rootfiles_container
                     (el (ocf "rootfiles") [] None
                        [ el (ocf "rootfile")
                            [("full-path", "");
                             ("media-type", "application/oebps-package+xml")]
                            None [];
                          el (ocf "rootfile")
                            [("full-path", "OEBPS/content.opf");
                             ("media-type", "application/oebps-package+xml")]
                            None [] ])).
  vm_compute in Hclaim.
  destruct (Hclaim eq_refl eq_refl eq_refl eq_refl) as (p & Hp & Hrun).
  congruence.
Qed.

Example parse_container_two_rootfiles :
  @parse_container
    (table_collaborators [(two_rootfiles_text, two_rootfiles_container)])
    two_rootfiles_epub
  = Run [LogRecord INFO "EPUB Rootfile Found: OEBPS/content.opf"]
        (Returned "OEBPS/content.opf").
Proof. vm_compute. reflexivity. Qed.

(** C6, amended, on the same container and on the container of the
    scenario. *)
Lemma parse_container_first_usable_rootfile_witness :
  exists full_path,
    full_path <> ""
    /\ @parse_container
         (table_collaborators [(two_rootfiles_text, two_rootfiles_container)])
         two_rootfiles_epub
       = Run [LogRecord INFO ("EPUB Rootfile Found: " +:+ full_path)]
             (Returned full_path).
Proof.
  pose proof (@parse_container_first_usable_rootfile
    (table_collaborators [(two_rootfiles_text, two_rootfiles_container)])
    two_rootfiles_epub
    (stored_entry "META-INF/container.xml" two_rootfiles_text)
    two_rootfiles_text two_rootfiles_container
    (el (ocf "rootfiles") [] None
       [ el (ocf "rootfile")
           [("full-path", "");
            ("media-type", "application/oebps-package+xml")] None [];
         el (ocf "rootfile")
           [("full-path", "OEBPS/content.opf");
            ("media-type", "application/oebps-package+xml")] None [] ])
    ltac:(vm_compute; reflexivity) eq_refl eq_refl eq_refl) as Hrun.
  cbn [List.find] in Hrun.
  change (List.find has_package_path _)
    with (Some (el (ocf "rootfile")
                  [("full-path", "OEBPS/content.opf");
                   ("media-type", "application/oebps-package+xml")] None []))
    in Hrun.
  destruct Hrun as (p & _ & Hne & _ & Hrun). by exists p.
Defined.

(** ** [parse_package] *)

Section Package.
Context `{Collaborators}.

(** A stage that raises ends [parse_package] with its exception, after
    the records logged so far; the later stages do not run. *)
Lemma parse_package_stops_at_first_failure epub path zi data :
  NameToInfo epub !! path = Some zi ->
  utf8 (content zi) = Some data ->
  (forall l1 e,
      parse_package_identity data = Run l1 (Raised e) ->
      parse_package epub path = Run l1 (Raised e))
  /\ (forall l1 version key l2 e,
        parse_package_identity data = Run l1 (Returned (version, key)) ->
        parse_metadata data key = Run l2 (Raised e) ->
        parse_package epub path = Run (l1 ++ l2)%list (Raised e))
  /\ (forall l1 version key l2 metadata l3 e,
        parse_package_identity data = Run l1 (Returned (version, key)) ->
        parse_metadata data key = Run l2 (Returned metadata) ->
        parse_manifest data MIME_TYPES SUGGESTED_MIME_TYPES
        = Run l3 (Raised e) ->
        parse_package epub path = Run (l1 ++ l2 ++ l3)%list (Raised e))
  /\ (forall l1 version key l2 metadata l3 manifest l4 e,
        parse_package_identity data = Run l1 (Returned (version, key)) ->
        parse_metadata data key = Run l2 (Returned metadata) ->
        parse_manifest data MIME_TYPES SUGGESTED_MIME_TYPES
        = Run l3 (Returned manifest) ->
        parse_spine data (items_by_id manifest) = Run l4 (Raised e) ->
        parse_package epub path = Run (l1 ++ l2 ++ l3 ++ l4)%list (Raised e))
  /\ (forall l1 version key l2 metadata l3 manifest l4 spine l5 e,
        parse_package_identity data = Run l1 (Returned (version, key)) ->
        parse_metadata data key = Run l2 (Returned metadata) ->
        parse_manifest data MIME_TYPES SUGGESTED_MIME_TYPES
        = Run l3 (Returned manifest) ->
        parse_spine data (items_by_id manifest) = Run l4 (Returned spine) ->
        parse_guide data = Run l5 (Raised e) ->
        parse_package epub path
        = Run (l1 ++ l2 ++ l3 ++ l4 ++ l5)%list (Raised e)).
Proof.
  intros Hzi Hdata. rewrite (parse_package_reads epub path zi data Hzi Hdata).
  unfold bind.
  repeat split; intros.
  all: repeat
    match goal with
    | Hrun : ?m = Run _ _ |- context [?m] => rewrite Hrun; cbn [result logged]
    end.
  all: by rewrite ?app_assoc.
Qed.

(** C2 (what the code does).  When the package document is read and the
    five stages return, [parse_package] returns [None]: the version, the
    key, the metadata, the manifest, the spine and the guide that the
    stages returned are in no value it gives back.  Only the records the
    stages logged remain. *)
Theorem parse_package_returns_none
    epub path zi data l1 version key l2 metadata l3 manifest l4 spine l5 guide :
  NameToInfo epub !! path = Some zi ->
  utf8 (content zi) = Some data ->
  parse_package_identity data = Run l1 (Returned (version, key)) ->
  parse_metadata data key = Run l2 (Returned metadata) ->
  parse_manifest data MIME_TYPES SUGGESTED_MIME_TYPES
  = Run l3 (Returned manifest) ->
  parse_spine data (items_by_id manifest) = Run l4 (Returned spine) ->
  parse_guide data = Run l5 (Returned guide) ->
  parse_package epub path
  = Run (l1 ++ l2 ++ l3 ++ l4 ++ l5)%list (Returned tt).
Proof.
  intros Hzi Hdata Hidentity Hmetadata Hmanifest Hspine Hguide.
  rewrite (parse_package_reads epub path zi data Hzi Hdata).
  unfold bind.
  rewrite Hidentity. cbn [result logged].
  rewrite Hmetadata. cbn [result logged].
  rewrite Hmanifest. cbn [result logged].
  rewrite Hspine. cbn [result logged].
  rewrite Hguide. cbn [result logged ret].
  by rewrite !app_nil_r, ?app_assoc.
Qed.

End Package.

(** C2 on the end-to-end scenario: every stage returns its part of the
    package, and [parse_package] returns [None]. *)
Lemma parse_package_returns_none_witness :
  @parse_package (table_collaborators scenario_docs)
    scenario_epub "OEBPS/content.opf"
  = Run [ LogRecord INFO "OPF Version: 3.0";
          LogRecord INFO "OPF Unique Identifier: BookId";
          LogRecord INFO "unique-identifier 'BookId' matches <dc:identifier> id";
          LogRecord INFO "Found <spine> section in OPF file";
          LogRecord INFO "Table of Contents ID: ncx";
          LogRecord INFO "Primary Content: 1 items";
          LogRecord INFO "No <guide> section found in OPF file" ]
        (Returned tt).
Proof.
  exact (@parse_package_returns_none
           (table_collaborators scenario_docs)
           scenario_epub "OEBPS/content.opf"
           (stored_entry "OEBPS/content.opf" scenario_opf_text)
           scenario_opf_text
           [ LogRecord INFO "OPF Version: 3.0";
             LogRecord INFO "OPF Unique Identifier: BookId" ]
           "3.0" "BookId"
           [ LogRecord INFO
               "unique-identifier 'BookId' matches <dc:identifier> id" ]
           (MetadataInfo (extract_metadata scenario_metadata))
           []
           [ item_data_of
               (item_el "chap1" "chap1.xhtml" "application/xhtml+xml") ]
           [ LogRecord INFO "Found <spine> section in OPF file";
             LogRecord INFO "Table of Contents ID: ncx";
             LogRecord INFO "Primary Content: 1 items" ]
           {| spine_toc := "ncx";
              primary_content :=
                [ {| entry_idref := "chap1"; entry_linear := "yes" |} ];
              auxiliary_content := [] |}
           [ LogRecord INFO "No <guide> section found in OPF file" ]
           []
           ltac:(vm_compute; reflexivity) ltac:(vm_compute; reflexivity)
           ltac:(vm_compute; reflexivity) ltac:(vm_compute; reflexivity)
           ltac:(vm_compute; reflexivity) ltac:(vm_compute; reflexivity)
           ltac:(vm_compute; reflexivity)).
Defined.


(** An archive whose [mimetype] entry is deflated is refused with the
    error of the second check, although its bytes on disk are in order. *)
Example verify_mimetype_compressed :
  verify_mimetype
    {| filelist :=
         [ {| zi_filename := "mimetype"; compress_type := 8; extra := [];
              flag_bits := 0; content := bytes_of "application/epub+zip" |} ];
       on_disk := epub_file_start |}
  = raise (ValueError MimetypeCompressed).
Proof. vm_compute. reflexivity. Qed.

Example endswith_meta :
  endswith (opf "meta") "meta" = true
  /\ endswith "meta" "metadata" = false
  /\ endswith (dc "title") "meta" = false.
Proof. repeat split. Qed.

(** * Further properties *)

(** ** Which exceptions leave the module *)

Lemma raises_within_ret {A} P (a : A) : raises_within P (ret a).
Proof. exact I. Qed.

Lemma raises_within_raise {A} (P : exn -> Prop) e :
  P e -> raises_within P (@raise A e).
Proof. intros He. exact He. Qed.

Lemma raises_within_bind {A B} P (m : M A) (k : A -> M B) :
  raises_within P m -> (forall a, raises_within P (k a)) ->
  raises_within P (bind m k).
Proof.
  unfold raises_within, bind. intros Hm Hk.
  destruct (result m) as [a|e]; cbn; [apply Hk|exact Hm].
Qed.



Lemma raises_within_for_each {S X} P (body : S -> X -> M S) xs s :
  (forall s x, raises_within P (body s x)) ->
  raises_within P (for_each body xs s).
Proof.
  intros Hbody. revert s. induction xs as [|x xs IH]; intros s; cbn.
  - exact I.
  - apply raises_within_bind; [apply Hbody|apply IH].
Qed.

Lemma raises_within_raise_if P cond why :
  P (ValueError why) -> raises_within P (raise_if cond why).
Proof. intros HP. by destruct cond. Qed.

Lemma raises_within_required P o why :
  P (ValueError why) -> raises_within P (required o why).
Proof.
  intros HP. destruct o as [s|]; cbn; [|done]. by destruct (String.eqb s "").
Qed.

Lemma raises_within_logging_info P text :
  raises_within P (logging_info text).
Proof. exact I. Qed.


(** Closes a goal [raises_within P m] by following the shape of [m]. *)
Ltac within :=
  repeat first
    [ exact I
    | apply raises_within_ret
    | apply raises_within_logging_info
    | apply raises_within_raise_if; exact I
    | apply raises_within_required; exact I
    | apply raises_within_raise; exact I
    | apply raises_within_bind; [|intros ?]
    | apply raises_within_for_each; intros ? ?
    | match goal with
      | |- raises_within _ (match ?x with _ => _ end) => destruct x
      | |- raises_within _ (if ?b then _ else _) => destruct b
      | |- raises_within _ (let '(_, _) := ?p in _) => destruct p
      end ].

Section OnlyValueError.
Context `{Collaborators}.














End OnlyValueError.

(** ** Runs of [bind] and [try_except], read backwards *)

Lemma result_bind {A B} (m : M A) (k : A -> M B) :
  result (bind m k)
  = match result m with
    | Returned a => result (k a)
    | Raised e => Raised e
    end.
Proof. unfold bind. by destruct (result m). Qed.

Lemma result_try_except {A} (body : M A) handler :
  result (try_except body handler)
  = match result body with
    | Returned a => Returned a
    | Raised e => result (handler e)
    end.
Proof. unfold try_except. by destruct (result body) eqn:Hres. Qed.

Lemma bind_returned_inv {A B} (m : M A) (k : A -> M B) lg b :
  bind m k = Run lg (Returned b) ->
  exists l1 a l2,
    m = Run l1 (Returned a) /\ k a = Run l2 (Returned b)
    /\ lg = (l1 ++ l2)%list.
Proof.
  destruct m as [l1 [a|e]]; unfold bind; cbn; [|discriminate].
  intros Hrun. exists l1, a, (logged (k a)).
  injection Hrun as Hlg Hres. rewrite <- Hres, run_eta. by rewrite Hlg.
Qed.

(** ** The manifest, read backwards *)

Section ManifestInversion.
Context `{Collaborators}.
Variable known : gset string.
Variable suggested : gmap string (option string).

(** The loop body as a decision list, in the order of the source. *)
Lemma manifest_body_cases info hrefs item :
  manifest_body known suggested (info, hrefs) item
  = if negb (truthy (get item "id")) then raise (ValueError ItemMissingId)
    else if negb (truthy (get item "href"))
    then raise (ValueError ItemMissingHref)
    else if negb (truthy (get item "media-type"))
    then raise (ValueError ItemMissingMediaType)
    else if bool_decide (attr_or_empty item "href" ∈ hrefs)
    then raise (ValueError (DuplicateHref (attr_or_empty item "href")))
    else Run (item_warnings known suggested item)
             (Returned ((info ++ [item_data_of item])%list,
                        {[ attr_or_empty item "href" ]} ∪ hrefs)).
Proof.
  destruct (truthy (get item "id")) eqn:Hid; cbn [negb].
  2:{ unfold manifest_body. cbn [item_data_of item_id].
      by rewrite (required_falsy _ _ Hid). }
  destruct (truthy (get item "href")) eqn:Hhref; cbn [negb].
  2:{ unfold manifest_body. cbn [item_data_of item_id item_href].
      by rewrite (required_truthy _ _ Hid), bind_ret_l,
                 (required_falsy _ _ Hhref). }
  destruct (truthy (get item "media-type")) eqn:Hmt; cbn [negb].
  2:{ unfold manifest_body.
      cbn [item_data_of item_id item_href item_media_type].
      by rewrite (required_truthy _ _ Hid), bind_ret_l,
                 (required_truthy _ _ Hhref), bind_ret_l,
                 (required_falsy _ _ Hmt). }
  assert (Hc : item_complete item = true).
  { unfold item_complete. by rewrite Hid, Hhref, Hmt. }
  destruct (decide (attr_or_empty item "href" ∈ hrefs)) as [Hin|Hout].
  - rewrite bool_decide_eq_true_2 by done. by apply manifest_body_duplicate.
  - rewrite bool_decide_eq_false_2 by done. by apply manifest_body_accepts.
Qed.

(** A loop that returns has met only complete items, with hrefs that are
    distinct and were not seen before. *)
Lemma manifest_loop_returned_inv items info hrefs lg st :
  for_each (manifest_body known suggested) items (info, hrefs)
  = Run lg (Returned st) ->
  Forall (fun item => item_complete item = true) items
  /\ NoDup (map (fun item => attr_or_empty item "href") items)
  /\ (forall h, h ∈ map (fun item => attr_or_empty item "href") items ->
                h ∉ hrefs).
Proof.
  revert info hrefs lg.
  induction items as [|item items IH]; intros info hrefs lg Hrun.
  - split; [constructor|]. split; [constructor|].
    intros h Hh. by apply elem_of_nil in Hh.
  - cbn [for_each] in Hrun.
    apply bind_returned_inv in Hrun as (l1 & st1 & l2 & Hbody & Hrest & _).
    rewrite manifest_body_cases in Hbody.
    destruct (truthy (get item "id")) eqn:Hid; [|discriminate].
    destruct (truthy (get item "href")) eqn:Hhref; [|discriminate].
    destruct (truthy (get item "media-type")) eqn:Hmt; [|discriminate].
    cbn [negb] in Hbody.
    destruct (decide (attr_or_empty item "href" ∈ hrefs)) as [Hin|Hout].
    { rewrite bool_decide_eq_true_2 in Hbody by done. discriminate. }
    rewrite bool_decide_eq_false_2 in Hbody by done.
    injection Hbody as _ <-.
    destruct (IH _ _ _ Hrest) as (Hall & Hnd & Hfresh).
    split.
    { constructor; [|done]. unfold item_complete. by rewrite Hid, Hhref, Hmt. }
    split.
    + cbn. constructor; [|done]. intros Hin.
      apply (Hfresh _ Hin). apply elem_of_union. left.
      by apply elem_of_singleton.
    + cbn. intros h Hh. apply elem_of_cons in Hh as [->|Hh]; [done|].
      intros Hseen. apply (Hfresh _ Hh). apply elem_of_union. by right.
Qed.

(** The recognized and suggested tables decide warnings only. *)
Lemma manifest_loop_result_independent known' suggested' items st :
  result (for_each (manifest_body known suggested) items st)
  = result (for_each (manifest_body known' suggested') items st).
Proof.
  revert st. induction items as [|item items IH]; intros [info hrefs];
    [reflexivity|].
  cbn [for_each]. rewrite !result_bind.
  assert (Hbody :
    result (manifest_body known suggested (info, hrefs) item)
    = result (manifest_body known' suggested' (info, hrefs) item)).
  { unfold manifest_body.
    destruct (required (item_id (item_data_of item)) ItemMissingId)
      as [l1 [id|e1]]; [|reflexivity].
    destruct (required (item_href (item_data_of item)) ItemMissingHref)
      as [l2 [href|e2]]; [|reflexivity].
    destruct (required (item_media_type (item_data_of item))
                ItemMissingMediaType) as [l3 [mt|e3]]; [|reflexivity].
    unfold bind; cbn.
    destruct (bool_decide (href ∈ hrefs)); [reflexivity|]. cbn.
    by destruct (bool_decide (mt ∉ known)), (bool_decide (mt ∉ known')). }
  rewrite Hbody.
  destruct (result (manifest_body known' suggested' (info, hrefs) item));
    [apply IH|reflexivity].
Qed.

End ManifestInversion.

Section ManifestFurther.
Context `{Collaborators}.
Variable known : gset string.
Variable suggested : gmap string (option string).

(** X2.  [parse_manifest] returns exactly when every [item] has a
    non-empty id, href and media type and no two items have the same
    href.  What it returns is then the items in document order, all with
    their three mandatory fields and with distinct hrefs, and what it
    logs is the warnings of the items of unrecognized media type, in
    order. *)
Theorem parse_manifest_returns_iff data root manifest :
  xml data = inr root ->
  find root (opf "manifest") = Some manifest ->
  ((exists items,
       result (parse_manifest data known suggested) = Returned items)
   <-> Forall (fun item => item_complete item = true)
              (findall manifest (opf "item"))
       /\ NoDup (map (fun item => attr_or_empty item "href")
                     (findall manifest (opf "item"))))
  /\ (forall items,
        result (parse_manifest data known suggested) = Returned items ->
        items = map item_data_of (findall manifest (opf "item"))
        /\ logged (parse_manifest data known suggested)
           = flat_map (item_warnings known suggested)
                      (findall manifest (opf "item"))
        /\ Forall (fun it => truthy (item_id it) = true
                             /\ truthy (item_href it) = true
                             /\ truthy (item_media_type it) = true) items
        /\ NoDup (map item_href items)).
Proof.
  intros Hxml Hfind.
  assert (Hinv : forall items,
    result (parse_manifest data known suggested) = Returned items ->
    Forall (fun item => item_complete item = true)
           (findall manifest (opf "item"))
    /\ NoDup (map (fun item => attr_or_empty item "href")
                  (findall manifest (opf "item")))).
  { intros items Hres.
    destruct (for_each (manifest_body known suggested)
                (findall manifest (opf "item")) ([], ∅))
      as [lg [st|e]] eqn:Hloop.
    - destruct (manifest_loop_returned_inv _ _ _ _ _ _ _ Hloop)
        as (Hall & Hnd & _). done.
    - assert (Hve : raises_within is_ValueError
                      (for_each (manifest_body known suggested)
                         (findall manifest (opf "item")) ([], ∅))).
      { apply raises_within_for_each. intros [info hrefs] item.
        unfold manifest_body. within. }
      unfold raises_within in Hve. rewrite Hloop in Hve. cbn in Hve.
      destruct e as [why| | |]; try done.
      rewrite (parse_manifest_raised known suggested data root manifest
                 lg why Hxml Hfind Hloop) in Hres. discriminate. }
  split.
  - split.
    + intros [items Hres]. by apply (Hinv items).
    + intros [Hall Hnd]. eexists.
      by rewrite (parse_manifest_accepts known suggested data root manifest).
  - intros items Hres. destruct (Hinv items Hres) as [Hall Hnd].
    rewrite (parse_manifest_accepts known suggested data root manifest)
      in Hres |- * by done.
    cbn in Hres |- *. injection Hres as <-.
    split; [done|]. split; [done|]. split.
    + apply Forall_fmap. eapply Forall_impl; [exact Hall|].
      intros item Hc. unfold item_complete in Hc. cbn.
      apply andb_prop in Hc as [Hc Hmt]. by apply andb_prop in Hc as [Hid Hhref].
    + apply (NoDup_fmap_1 (default "")).
      rewrite <- !list_fmap_compose. exact Hnd.
Qed.

(** X3.  [parse_manifest] fails for a document without a [manifest]
    element, and at the first [item] that lacks a mandatory attribute:
    the error names the first attribute missing in the order id, href,
    media type, and it is given also when the href of that item repeats
    an earlier one.  The warnings of the items before it have been
    logged. *)
Theorem parse_manifest_first_incomplete_item data root :
  xml data = inr root ->
  (find root (opf "manifest") = None ->
   parse_manifest data known suggested = raise (ValueError MissingManifest))
  /\ (forall manifest pre item post,
        find root (opf "manifest") = Some manifest ->
        findall manifest (opf "item") = (pre ++ item :: post)%list ->
        Forall (fun item => item_complete item = true) pre ->
        NoDup (map (fun item => attr_or_empty item "href") pre) ->
        item_complete item = false ->
        parse_manifest data known suggested
        = Run (flat_map (item_warnings known suggested) pre)
              (Raised (ValueError
                 (if negb (truthy (get item "id")) then ItemMissingId
                  else if negb (truthy (get item "href")) then ItemMissingHref
                  else ItemMissingMediaType)))).
Proof.
  intros Hxml. split.
  - intros Hfind. unfold parse_manifest, fromstring.
    by rewrite Hxml, bind_ret_l, Hfind.
  - intros manifest pre item post Hfind Hitems Hpre Hnd Hitem.
    apply (parse_manifest_raised known suggested data root manifest);
      [done|done|].
    rewrite Hitems.
    rewrite (for_each_app _ _ _ _ _ _
               (manifest_loop_accepts known suggested pre [] ∅ Hpre Hnd
                  (fun h _ => not_elem_of_empty h))).
    cbn [for_each]. rewrite manifest_body_cases.
    unfold item_complete in Hitem.
    destruct (truthy (get item "id")); cbn; [|by rewrite app_nil_r].
    destruct (truthy (get item "href")); cbn; [|by rewrite app_nil_r].
    destruct (truthy (get item "media-type")); cbn; [done|by rewrite app_nil_r].
Qed.

(** X4.  The set of recognized media types and the table of suggested
    ones never change what [parse_manifest] returns or raises: they
    decide the warnings alone. *)
Theorem parse_manifest_tables_are_advisory data known' suggested' :
  result (parse_manifest data known suggested)
  = result (parse_manifest data known' suggested').
Proof.
  unfold parse_manifest, fromstring. rewrite !result_try_except, !result_bind.
  destruct (xml data) as [detail|root]; [reflexivity|]. cbn [ret result].
  destruct (find root (opf "manifest")) as [manifest|]; [|reflexivity].
  rewrite !result_bind.
  rewrite (manifest_loop_result_independent known suggested known' suggested').
  destruct (result (for_each (manifest_body known' suggested') _ _))
    as [st|e]; [reflexivity|].
  by destruct e.
Qed.

End ManifestFurther.

(** ** The lookup from id to item *)

Lemma items_by_id_snoc (manifest : list manifest_item) item :
  items_by_id (manifest ++ [item])
  = match item_id item with
    | Some id => <[id := item]> (items_by_id manifest)
    | None => items_by_id manifest
    end.
Proof. unfold items_by_id. by rewrite foldl_app. Qed.

(** X5.  In the lookup that [parse_package] builds from the manifest, an
    id is bound to the last item of the manifest with that id: a later
    item replaces an earlier one of the same id, and no id is bound
    unless an item has it. *)
Theorem items_by_id_last_wins (manifest : list manifest_item) (id : string) :
  items_by_id manifest !! id
  = last (filter (fun item => item_id item = Some id) manifest).
Proof.
  induction manifest as [|item manifest IH] using rev_ind; [done|].
  rewrite items_by_id_snoc, filter_app, filter_cons, filter_nil.
  destruct (item_id item) as [id'|] eqn:Hid.
  - destruct (decide (id' = id)) as [->|Hne].
    + rewrite lookup_insert_eq, decide_True by done. by rewrite last_snoc.
    + rewrite lookup_insert_ne by done.
      rewrite decide_False by congruence. by rewrite app_nil_r.
  - rewrite decide_False by done. by rewrite app_nil_r.
Qed.

(** X2 on the manifest with a repeated id and distinct hrefs. *)
Lemma parse_manifest_returns_iff_witness :
  exists items,
    result (@parse_manifest (table_collaborators [(same_id_text, same_id_opf)])
              same_id_text MIME_TYPES SUGGESTED_MIME_TYPES)
    = Returned items.
Proof.
  apply (proj2 (proj1 (@parse_manifest_returns_iff
                         (table_collaborators [(same_id_text, same_id_opf)])
                         MIME_TYPES SUGGESTED_MIME_TYPES
                         same_id_text same_id_opf same_id_manifest
                         eq_refl eq_refl))).
  split; [vm_compute; repeat constructor|compute_done].
Defined.

(** X3 on the manifest whose second item has no id and the href of the
    first: the missing id is reported, not the repeated href. *)
Lemma parse_manifest_first_incomplete_item_witness :
  @parse_manifest (table_collaborators [(missing_id_text, missing_id_opf)])
    missing_id_text MIME_TYPES SUGGESTED_MIME_TYPES
  = raise (ValueError ItemMissingId).
Proof.
  refine (proj2 (@parse_manifest_first_incomplete_item
                   (table_collaborators [(missing_id_text, missing_id_opf)])
                   MIME_TYPES SUGGESTED_MIME_TYPES
                   missing_id_text missing_id_opf eq_refl)
            missing_id_manifest
            [item_el "a" "text.xhtml" "application/xhtml+xml"]
            (el (opf "item")
               [("href", "text.xhtml");
                ("media-type", "application/xhtml+xml")] None [])
            [] eq_refl eq_refl _ _ eq_refl).
  - vm_compute. repeat constructor.
  - compute_done.
Defined.

(** ** The spine, read backwards *)

Section SpineInversion.
Context `{Collaborators}.
Variable manifest_items : gmap string manifest_item.

(** The loop body as a decision list, in the order of the source. *)
Lemma spine_body_cases st itemref :
  spine_body manifest_items st itemref
  = if negb (truthy (get itemref "idref"))
    then raise (ValueError ItemrefMissingIdref)
    else if bool_decide (attr_or_empty itemref "idref" ∈ seen_idrefs st)
    then raise (ValueError (DuplicateIdref (attr_or_empty itemref "idref")))
    else match manifest_items !! attr_or_empty itemref "idref" with
         | None =>
             raise (ValueError (IdrefUnresolved (attr_or_empty itemref "idref")))
         | Some item =>
             if content_in_one_hop manifest_items item
             then ret {| st_primary :=
                           (st_primary st
                              ++ filter (fun e => entry_linear e = "yes")
                                        [entry_of itemref])%list;
                         st_auxiliary :=
                           (st_auxiliary st
                              ++ filter (fun e => entry_linear e <> "yes")
                                        [entry_of itemref])%list;
                         seen_idrefs :=
                           {[ attr_or_empty itemref "idref" ]} ∪ seen_idrefs st |}
             else raise (ValueError
                           (NotContentDocument (attr_or_empty itemref "idref")))
         end.
Proof.
  destruct (truthy (get itemref "idref")) eqn:Hidref; cbn [negb].
  2:{ unfold spine_body. by rewrite (required_falsy _ _ Hidref). }
  destruct (get itemref "idref") as [idref|] eqn:Hget; [|done].
  assert (Hid : attr_or_empty itemref "idref" = idref).
  { unfold attr_or_empty. by rewrite Hget. }
  assert (Hne : idref <> "").
  { intros ->. done. }
  rewrite Hid.
  destruct (decide (idref ∈ seen_idrefs st)) as [Hseen|Hfresh].
  { rewrite bool_decide_eq_true_2 by done. unfold spine_body.
    rewrite Hget, (required_truthy _ _ Hidref), bind_ret_l. cbn [default from_option id].
    by rewrite bool_decide_eq_true_2. }
  rewrite bool_decide_eq_false_2 by done.
  destruct (manifest_items !! idref) as [item|] eqn:Hitem.
  2:{ unfold spine_body.
      rewrite Hget, (required_truthy _ _ Hidref), bind_ret_l. cbn [default from_option id].
      rewrite bool_decide_eq_false_2 by done. cbn [raise_if].
      by rewrite bind_ret_l, Hitem. }
  destruct (content_in_one_hop manifest_items item) eqn:Hhop.
  - rewrite <- Hid. apply spine_body_accepts; [|by rewrite Hid].
    unfold itemref_passes. rewrite Hget, Hitem, Hhop.
    cbn in Hidref. by rewrite Hidref.
  - by apply (spine_body_rejects _ _ _ idref item).
Qed.

(** A loop that returns has met only [itemref]s that pass, with idrefs
    that are distinct and were not seen before. *)
Lemma spine_loop_returned_inv itemrefs st lg st' :
  for_each (spine_body manifest_items) itemrefs st = Run lg (Returned st') ->
  Forall (fun r => itemref_passes manifest_items r = true) itemrefs
  /\ NoDup (map (fun r => attr_or_empty r "idref") itemrefs)
  /\ (forall i, i ∈ map (fun r => attr_or_empty r "idref") itemrefs ->
                i ∉ seen_idrefs st).
Proof.
  revert st lg. induction itemrefs as [|r itemrefs IH]; intros st lg Hrun.
  - split; [constructor|]. split; [constructor|].
    intros i Hi. by apply elem_of_nil in Hi.
  - cbn [for_each] in Hrun.
    apply bind_returned_inv in Hrun as (l1 & st1 & l2 & Hbody & Hrest & _).
    rewrite spine_body_cases in Hbody.
    destruct (truthy (get r "idref")) eqn:Hidref; [|discriminate].
    cbn [negb] in Hbody.
    destruct (decide (attr_or_empty r "idref" ∈ seen_idrefs st))
      as [Hseen|Hfresh].
    { rewrite bool_decide_eq_true_2 in Hbody by done. discriminate. }
    rewrite bool_decide_eq_false_2 in Hbody by done.
    destruct (manifest_items !! attr_or_empty r "idref") as [item|] eqn:Hitem;
      [|discriminate].
    destruct (content_in_one_hop manifest_items item) eqn:Hhop;
      [|discriminate].
    injection Hbody as _ <-.
    destruct (IH _ _ Hrest) as (Hall & Hnd & Hrestfresh).
    cbn [seen_idrefs] in Hrestfresh. split.
    { constructor; [|done]. unfold itemref_passes.
      unfold attr_or_empty in Hitem.
      destruct (get r "idref") as [idref|]; [|done]. cbn in Hitem, Hidref.
      by rewrite Hitem, Hhop, Hidref. }
    split.
    + cbn. constructor; [|done]. intros Hin.
      apply (Hrestfresh _ Hin). apply elem_of_union. left.
      by apply elem_of_singleton.
    + cbn. intros i Hi. apply elem_of_cons in Hi as [->|Hi]; [done|].
      intros Hseen. apply (Hrestfresh _ Hi). apply elem_of_union. by right.
Qed.

Lemma spine_loop_raises itemrefs st :
  raises_within is_ValueError
    (for_each (spine_body manifest_items) itemrefs st).
Proof.
  apply raises_within_for_each. intros s r. unfold spine_body. within.
Qed.

(** [parse_spine] on a document that has a spine with a non-empty
    [toc], from the run of its loop. *)
Lemma parse_spine_from_loop data root spine toc :
  xml data = inr root ->
  find root (opf "spine") = Some spine ->
  get spine "toc" = Some toc -> toc <> "" ->
  (forall lg st,
      for_each (spine_body manifest_items) (findall spine (opf "itemref"))
               {| st_primary := []; st_auxiliary := []; seen_idrefs := ∅ |}
      = Run lg (Returned st) ->
      parse_spine data manifest_items
      = Run ([ LogRecord INFO "Found <spine> section in OPF file";
               LogRecord INFO ("Table of Contents ID: " +:+ toc) ]
               ++ lg
               ++ [ LogRecord INFO
                      ("Primary Content: "
                         +:+ str_of_nat (length (st_primary st))
                         +:+ " items") ])%list
            (Returned {| spine_toc := toc;
                         primary_content := st_primary st;
                         auxiliary_content := st_auxiliary st |}))
  /\ (forall lg why,
        for_each (spine_body manifest_items) (findall spine (opf "itemref"))
                 {| st_primary := []; st_auxiliary := []; seen_idrefs := ∅ |}
        = Run lg (Raised (ValueError why)) ->
        parse_spine data manifest_items
        = Run ([ LogRecord INFO "Found <spine> section in OPF file";
                 LogRecord INFO ("Table of Contents ID: " +:+ toc) ]
                 ++ lg)%list
              (Raised (ValueError why))).
Proof.
  intros Hxml Hfind Htoc Hne.
  rewrite (parse_spine_loop manifest_items data root spine toc) by done.
  split; intros lg ? Hloop; rewrite Hloop; cbn; by rewrite ?app_nil_r.
Qed.

End SpineInversion.

Section SpineFurther.
Context `{Collaborators}.
Variable manifest_items : gmap string manifest_item.

Lemma parse_spine_missing_toc data root spine :
  xml data = inr root ->
  find root (opf "spine") = Some spine ->
  truthy (get spine "toc") = false ->
  parse_spine data manifest_items
  = Run [LogRecord INFO "Found <spine> section in OPF file"]
        (Raised (ValueError SpineMissingToc)).
Proof.
  intros Hxml Hfind Htoc. unfold parse_spine, fromstring.
  by rewrite Hxml, bind_ret_l, Hfind, (required_falsy _ _ Htoc).
Qed.

(** What a returned spine says of the document it came from. *)
Lemma parse_spine_returned_inv data root spine info :
  xml data = inr root ->
  find root (opf "spine") = Some spine ->
  result (parse_spine data manifest_items) = Returned info ->
  exists toc,
    get spine "toc" = Some toc /\ toc <> ""
    /\ Forall (fun r => itemref_passes manifest_items r = true)
              (findall spine (opf "itemref"))
    /\ NoDup (map (fun r => attr_or_empty r "idref")
                  (findall spine (opf "itemref")))
    /\ info = {| spine_toc := toc;
                 primary_content :=
                   filter (fun e => entry_linear e = "yes")
                          (map entry_of (findall spine (opf "itemref")));
                 auxiliary_content :=
                   filter (fun e => entry_linear e <> "yes")
                          (map entry_of (findall spine (opf "itemref"))) |}.
Proof.
  intros Hxml Hfind Hres.
  destruct (truthy (get spine "toc")) eqn:Htruthy.
  2:{ rewrite (parse_spine_missing_toc data root spine) in Hres by done.
      discriminate. }
  destruct (get spine "toc") as [toc|] eqn:Htoc; [|done].
  assert (Hne : toc <> "") by (intros ->; done).
  exists toc. split; [done|]. split; [done|].
  destruct (parse_spine_from_loop manifest_items data root spine toc
              Hxml Hfind Htoc Hne) as [Hret Hraise].
  destruct (for_each (spine_body manifest_items)
              (findall spine (opf "itemref"))
              {| st_primary := []; st_auxiliary := []; seen_idrefs := ∅ |})
    as [lg [st|e]] eqn:Hloop.
  - destruct (spine_loop_returned_inv manifest_items _ _ _ _ Hloop)
      as (Hall & Hnd & _).
    split; [done|]. split; [done|].
    rewrite (parse_spine_accepts manifest_items data root spine toc)
      in Hres by done.
    cbn in Hres. by injection Hres as <-.
  - pose proof (spine_loop_raises manifest_items
                  (findall spine (opf "itemref"))
                  {| st_primary := []; st_auxiliary := [];
                     seen_idrefs := ∅ |}) as Hve.
    unfold raises_within in Hve. rewrite Hloop in Hve. cbn in Hve.
    destruct e as [why| | |]; try done.
    rewrite (Hraise lg why eq_refl) in Hres. discriminate.
Qed.

(** X6.  For a document with a [spine] element, [parse_spine] returns
    exactly when the [toc] attribute is non-empty, every [itemref]
    passes the idref and content-type checks and no idref occurs twice.
    The returned spine then has that [toc], and its two sequences
    together hold each [itemref] of the document once. *)
Theorem parse_spine_returns_iff data root spine :
  xml data = inr root ->
  find root (opf "spine") = Some spine ->
  ((exists info, result (parse_spine data manifest_items) = Returned info)
   <-> truthy (get spine "toc") = true
       /\ Forall (fun r => itemref_passes manifest_items r = true)
                 (findall spine (opf "itemref"))
       /\ NoDup (map (fun r => attr_or_empty r "idref")
                     (findall spine (opf "itemref"))))
  /\ (forall info,
        result (parse_spine data manifest_items) = Returned info ->
        get spine "toc" = Some (spine_toc info)
        /\ (primary_content info ++ auxiliary_content info)%list
           ≡ₚ map entry_of (findall spine (opf "itemref"))
        /\ (length (primary_content info) + length (auxiliary_content info)
            = length (findall spine (opf "itemref")))%nat).
Proof.
  intros Hxml Hfind. split.
  - split.
    + intros [info Hres].
      destruct (parse_spine_returned_inv data root spine info Hxml Hfind Hres)
        as (toc & Htoc & Hne & Hall & Hnd & _).
      rewrite Htoc. cbn. by destruct (String.eqb_spec toc "").
    + intros (Htruthy & Hall & Hnd).
      destruct (get spine "toc") as [toc|] eqn:Htoc; [|done].
      assert (Hne : toc <> "") by (intros ->; done).
      eexists.
      by rewrite (parse_spine_accepts manifest_items data root spine toc).
  - intros info Hres.
    destruct (parse_spine_returned_inv data root spine info Hxml Hfind Hres)
      as (toc & Htoc & Hne & Hall & Hnd & ->).
    cbn. split; [done|].
    assert (Hperm :
      (filter (fun e => entry_linear e = "yes")
              (map entry_of (findall spine (opf "itemref")))
       ++ filter (fun e => entry_linear e <> "yes")
                 (map entry_of (findall spine (opf "itemref"))))%list
      ≡ₚ map entry_of (findall spine (opf "itemref")))
      by apply filter_app_complement.
    split; [done|].
    rewrite <- length_app, Hperm. apply length_map.
Qed.

(** X7.  Whatever the document and the manifest lookup, a spine that
    [parse_spine] returns has a non-empty [toc]; its primary entries all
    have [linear] equal to ["yes"] and its auxiliary entries do not; no
    idref occurs twice in the two sequences together; and every idref is
    non-empty and is a key of the lookup whose item is a content
    document directly or through its fallback. *)
Theorem parse_spine_output_invariants data info :
  result (parse_spine data manifest_items) = Returned info ->
  spine_toc info <> ""
  /\ Forall (fun e => entry_linear e = "yes") (primary_content info)
  /\ Forall (fun e => entry_linear e <> "yes") (auxiliary_content info)
  /\ NoDup (map entry_idref
                (primary_content info ++ auxiliary_content info))
  /\ Forall (fun e =>
               entry_idref e <> ""
               /\ exists item,
                    manifest_items !! entry_idref e = Some item
                    /\ content_in_one_hop manifest_items item = true)
            (primary_content info ++ auxiliary_content info).
Proof.
  intros Hres.
  destruct (xml data) as [detail|root] eqn:Hxml.
  { unfold parse_spine, fromstring in Hres. rewrite Hxml in Hres.
    discriminate. }
  destruct (find root (opf "spine")) as [spine|] eqn:Hfind.
  2:{ unfold parse_spine, fromstring in Hres.
      rewrite Hxml, bind_ret_l, Hfind in Hres. discriminate. }
  destruct (parse_spine_returned_inv data root spine info Hxml Hfind Hres)
    as (toc & Htoc & Hne & Hall & Hnd & ->).
  cbn [spine_toc primary_content auxiliary_content].
  split; [done|].
  split; [apply Forall_forall; intros e He;
          by apply list_elem_of_filter in He as [? _]|].
  split; [apply Forall_forall; intros e He;
          by apply list_elem_of_filter in He as [? _]|].
  rewrite (filter_app_complement (fun e => entry_linear e = "yes")).
  split.
  - rewrite <- list_fmap_compose. exact Hnd.
  - apply Forall_fmap. eapply Forall_impl; [exact Hall|].
    intros r Hr. unfold itemref_passes in Hr. cbn. unfold attr_or_empty.
    destruct (get r "idref") as [idref|]; [|done]. cbn.
    apply andb_prop in Hr as [Hidne Hitem].
    split; [intros ->; done|].
    destruct (manifest_items !! idref) as [item|]; [|done]. eauto.
Qed.

(** X8.  [parse_spine] fails for a document without a [spine] element;
    for a spine without a non-empty [toc], before any [itemref] is
    looked at; and, after [itemref]s that pass, at the first one that has
    no idref, or whose idref was met before in the spine, or whose idref
    is not a key of the lookup.  A repeated idref is reported as a
    duplicate whatever the lookup holds for it. *)
Theorem parse_spine_failures data root :
  xml data = inr root ->
  (find root (opf "spine") = None ->
   parse_spine data manifest_items = raise (ValueError MissingSpine))
  /\ (forall spine,
        find root (opf "spine") = Some spine ->
        truthy (get spine "toc") = false ->
        parse_spine data manifest_items
        = Run [LogRecord INFO "Found <spine> section in OPF file"]
              (Raised (ValueError SpineMissingToc)))
  /\ (forall spine toc pre itemref post,
        find root (opf "spine") = Some spine ->
        get spine "toc" = Some toc -> toc <> "" ->
        findall spine (opf "itemref") = (pre ++ itemref :: post)%list ->
        Forall (fun r => itemref_passes manifest_items r = true) pre ->
        NoDup (map (fun r => attr_or_empty r "idref") pre) ->
        let idref := attr_or_empty itemref "idref" in
        let stopped why :=
          parse_spine data manifest_items
          = Run [ LogRecord INFO "Found <spine> section in OPF file";
                  LogRecord INFO ("Table of Contents ID: " +:+ toc) ]
                (Raised (ValueError why)) in
        (truthy (get itemref "idref") = false -> stopped ItemrefMissingIdref)
        /\ (truthy (get itemref "idref") = true ->
            idref ∈ map (fun r => attr_or_empty r "idref") pre ->
            stopped (DuplicateIdref idref))
        /\ (truthy (get itemref "idref") = true ->
            idref ∉ map (fun r => attr_or_empty r "idref") pre ->
            manifest_items !! idref = None ->
            stopped (IdrefUnresolved idref))).
Proof.
  intros Hxml. split; [|split].
  - intros Hfind. unfold parse_spine, fromstring.
    by rewrite Hxml, bind_ret_l, Hfind.
  - intros spine Hfind Htoc. by apply (parse_spine_missing_toc data root spine).
  - intros spine toc pre itemref post Hfind Htoc Hne Hitems Hpre Hnd
           idref stopped.
    destruct (parse_spine_from_loop manifest_items data root spine toc
                Hxml Hfind Htoc Hne) as [_ Hraise].
    assert (Hloop : forall why,
      spine_body manifest_items
        {| st_primary :=
             ([] ++ filter (fun e => entry_linear e = "yes")
                           (map entry_of pre))%list;
           st_auxiliary :=
             ([] ++ filter (fun e => entry_linear e <> "yes")
                           (map entry_of pre))%list;
           seen_idrefs :=
             list_to_set (map (fun r => attr_or_empty r "idref") pre) ∪ ∅ |}
        itemref = raise (ValueError why) ->
      stopped why).
    { intros why Hbody. unfold stopped.
      rewrite (Hraise [] why); [reflexivity|]. rewrite Hitems.
      rewrite (for_each_app _ _ _ _ _ _
                 (spine_loop_accepts manifest_items pre _ Hpre Hnd
                    (fun i _ => not_elem_of_empty i))).
      cbn [for_each st_primary st_auxiliary seen_idrefs].
      by rewrite Hbody. }
    split; [|split].
    + intros Hidref. apply Hloop. rewrite spine_body_cases.
      by rewrite Hidref.
    + intros Hidref Hin. apply Hloop. rewrite spine_body_cases.
      rewrite Hidref. cbn [negb seen_idrefs].
      rewrite bool_decide_eq_true_2; [done|].
      apply elem_of_union. left. by apply elem_of_list_to_set.
    + intros Hidref Hout Hitem. apply Hloop. rewrite spine_body_cases.
      rewrite Hidref. cbn [negb seen_idrefs].
      rewrite bool_decide_eq_false_2.
      * fold idref. by rewrite Hitem.
      * intros Hin. apply elem_of_union in Hin as [Hin|Hin].
        -- by apply elem_of_list_to_set in Hin.
        -- by apply not_elem_of_empty in Hin.
Qed.

End SpineFurther.

(** X6 on the spine with the four kinds of [linear]. *)
Lemma parse_spine_returns_iff_witness :
  exists info,
    result (@parse_spine (table_collaborators [(linear_text, linear_opf)])
              linear_text linear_items) = Returned info.
Proof.
  apply (proj2 (proj1 (@parse_spine_returns_iff
                         (table_collaborators [(linear_text, linear_opf)])
                         linear_items linear_text linear_opf linear_spine
                         eq_refl eq_refl))).
  split; [reflexivity|]. split; [vm_compute; repeat constructor|compute_done].
Defined.

(** X7 on the same spine. *)
Lemma parse_spine_output_invariants_witness :
  NoDup [ "chap1"; "chap2"; "notes"; "index" ].
Proof.
  exact (proj1 (proj2 (proj2 (proj2
    (@parse_spine_output_invariants
       (table_collaborators [(linear_text, linear_opf)])
       linear_items linear_text
       {| spine_toc := "ncx";
          primary_content :=
            [ {| entry_idref := "chap1"; entry_linear := "yes" |};
              {| entry_idref := "chap2"; entry_linear := "yes" |} ];
          auxiliary_content :=
            [ {| entry_idref := "notes"; entry_linear := "no" |};
              {| entry_idref := "index"; entry_linear := "maybe" |} ] |}
       ltac:(vm_compute; reflexivity)))))).
Defined.

(** X8 on a spine that names [chap1] twice. *)
Lemma parse_spine_failures_witness :
  @parse_spine (table_collaborators [(repeated_idref_text, repeated_idref_opf)])
    repeated_idref_text linear_items
  = Run [ LogRecord INFO "Found <spine> section in OPF file";
          LogRecord INFO "Table of Contents ID: ncx" ]
        (Raised (ValueError (DuplicateIdref "chap1"))).
Proof.
  refine (proj1 (proj2 (proj2 (proj2
    (@parse_spine_failures
       (table_collaborators [(repeated_idref_text, repeated_idref_opf)])
       linear_items repeated_idref_text repeated_idref_opf eq_refl))
    repeated_idref_spine "ncx" [itemref_el "chap1"] (itemref_el "chap1") []
    eq_refl eq_refl _ eq_refl _ _)) eq_refl _).
  - discriminate.
  - vm_compute. repeat constructor.
  - compute_done.
  - compute_done.
Defined.

(** ** [parse_guide] *)

Section Guide.
Context `{Collaborators}.

Lemma guide_body_cases references ref :
  guide_body references ref
  = if reference_complete ref
    then ret (references ++ [reference_of ref])%list
    else raise (ValueError ReferenceIncomplete).
Proof.
  unfold guide_body, reference_complete, reference_of.
  by destruct (truthy (get ref "type")), (truthy (get ref "href")).
Qed.

Lemma guide_loop_accepts refs references :
  Forall (fun ref => reference_complete ref = true) refs ->
  for_each guide_body refs references
  = ret (references ++ map reference_of refs)%list.
Proof.
  revert references. induction refs as [|ref refs IH]; intros references Hall.
  - cbn. by rewrite app_nil_r.
  - apply Forall_cons in Hall as [Href Hall]. cbn [for_each].
    rewrite guide_body_cases, Href, bind_ret_l, IH by done.
    cbn. by rewrite <- app_assoc.
Qed.

Lemma guide_loop_rejects pre ref post references :
  Forall (fun ref => reference_complete ref = true) pre ->
  reference_complete ref = false ->
  for_each guide_body (pre ++ ref :: post) references
  = raise (ValueError ReferenceIncomplete).
Proof.
  intros Hpre Href.
  rewrite (for_each_app _ _ _ _ _ _ (guide_loop_accepts pre references Hpre)).
  cbn [for_each]. by rewrite guide_body_cases, Href.
Qed.

(** A list of references is complete throughout, or splits at the first
    one that is not. *)
Lemma first_incomplete_reference (refs : list Element) :
  Forall (fun ref => reference_complete ref = true) refs
  \/ exists pre ref post,
       refs = (pre ++ ref :: post)%list
       /\ Forall (fun ref => reference_complete ref = true) pre
       /\ reference_complete ref = false.
Proof.
  induction refs as [|ref refs IH]; [left; constructor|].
  destruct (reference_complete ref) eqn:Href.
  - destruct IH as [Hall|(pre & bad & post & -> & Hpre & Hbad)].
    + left. by constructor.
    + right. exists (ref :: pre), bad, post. split; [done|].
      split; [by constructor|done].
  - right. exists [], ref, refs. split; [done|]. split; [constructor|done].
Qed.

(** X9.  [parse_guide] returns the empty list for a document without a
    [guide] element.  For a guide it returns exactly when every
    [reference] has a non-empty type and href: it then returns all of
    them in document order, with their titles where they have one, and
    logs their number; references are not required to differ.  It fails
    at the first reference that lacks a type or an href. *)
Theorem parse_guide_spec data root :
  xml data = inr root ->
  (find root (opf "guide") = None ->
   parse_guide data
   = Run [LogRecord INFO "No <guide> section found in OPF file"]
         (Returned []))
  /\ (forall guide,
        find root (opf "guide") = Some guide ->
        ((exists references, result (parse_guide data) = Returned references)
         <-> Forall (fun ref => reference_complete ref = true)
                    (findall guide (opf "reference")))
        /\ (Forall (fun ref => reference_complete ref = true)
                   (findall guide (opf "reference")) ->
            parse_guide data
            = Run [ LogRecord INFO "Found <guide> section in OPF file";
                    LogRecord INFO
                      ("Guide References: "
                         +:+ str_of_nat
                               (length (findall guide (opf "reference")))) ]
                  (Returned (map reference_of
                                 (findall guide (opf "reference")))))
        /\ (~ Forall (fun ref => reference_complete ref = true)
                     (findall guide (opf "reference")) ->
            parse_guide data
            = Run [LogRecord INFO "Found <guide> section in OPF file"]
                  (Raised (ValueError ReferenceIncomplete)))).
Proof.
  intros Hxml. split.
  - intros Hfind. unfold parse_guide, fromstring.
    by rewrite Hxml, bind_ret_l, Hfind.
  - intros guide Hfind.
    assert (Hok : Forall (fun ref => reference_complete ref = true)
                         (findall guide (opf "reference")) ->
      parse_guide data
      = Run [ LogRecord INFO "Found <guide> section in OPF file";
              LogRecord INFO
                ("Guide References: "
                   +:+ str_of_nat (length (findall guide (opf "reference")))) ]
            (Returned (map reference_of (findall guide (opf "reference"))))).
    { intros Hall. unfold parse_guide, fromstring.
      rewrite Hxml, bind_ret_l, Hfind, (guide_loop_accepts _ [] Hall).
      cbn. by rewrite length_map. }
    assert (Hbad : ~ Forall (fun ref => reference_complete ref = true)
                            (findall guide (opf "reference")) ->
      parse_guide data
      = Run [LogRecord INFO "Found <guide> section in OPF file"]
            (Raised (ValueError ReferenceIncomplete))).
    { intros Hnot.
      destruct (first_incomplete_reference (findall guide (opf "reference")))
        as [Hall|(pre & ref & post & Hrefs & Hpre & Href)]; [done|].
      unfold parse_guide, fromstring.
      rewrite Hxml, bind_ret_l, Hfind, Hrefs.
      by rewrite (guide_loop_rejects pre ref post [] Hpre Href). }
    split; [|split; [exact Hok|exact Hbad]]. split.
    + intros [references Hres].
      destruct (first_incomplete_reference (findall guide (opf "reference")))
        as [Hall|(pre & ref & post & Hrefs & Hpre & Href)]; [done|].
      rewrite Hbad in Hres; [discriminate|].
      rewrite Hrefs. intros Hall. apply Forall_app in Hall as [_ Hall].
      apply Forall_cons in Hall as [Hall _]. congruence.
    + intros Hall. eexists. by rewrite (Hok Hall).
Qed.

End Guide.

(** X9 on a guide of two references. *)
Lemma parse_guide_spec_witness :
  @parse_guide (table_collaborators [(guide_text, guide_opf)]) guide_text
  = Run [ LogRecord INFO "Found <guide> section in OPF file";
          LogRecord INFO "Guide References: 2" ]
        (Returned
           [ {| ref_type := Some "cover"; ref_href := Some "cover.xhtml";
                ref_title := Some "Cover" |};
             {| ref_type := Some "toc"; ref_href := Some "toc.xhtml";
                ref_title := None |} ]).
Proof.
  refine (proj1 (proj2 (proj2
    (@parse_guide_spec (table_collaborators [(guide_text, guide_opf)])
       guide_text guide_opf eq_refl) guide_el eq_refl)) _).
  vm_compute. repeat constructor.
Defined.

(** ** [parse_package_identity], further *)

Section Identity.
Context `{Collaborators}.

Lemma parse_package_identity_returned_iff data root version key :
  xml data = inr root ->
  result (parse_package_identity data) = Returned (version, key)
  <-> tag root = opf "package"
      /\ get root "version" = Some version /\ version <> ""
      /\ get root "unique-identifier" = Some key /\ key <> "".
Proof.
  intros Hxml. split.
  - unfold parse_package_identity, fromstring.
    rewrite Hxml, bind_ret_l.
    destruct (String.eqb_spec (tag root) (opf "package")) as [Htag|Htag];
      [|discriminate].
    cbn [negb raise_if]. rewrite bind_ret_l.
    destruct (get root "version") as [v|]; [|discriminate]. cbn [required].
    destruct (String.eqb_spec v "") as [->|Hv]; [discriminate|].
    rewrite bind_ret_l.
    destruct (get root "unique-identifier") as [k|]; [|discriminate].
    cbn [required]. destruct (String.eqb_spec k "") as [->|Hk]; [discriminate|].
    cbn. intros [= <- <-]. done.
  - intros (Htag & Hv & Hvne & Hk & Hkne).
    by rewrite (parse_package_identity_returns data root version key).
Qed.

(** X10.  [parse_package_identity] checks, in this order, that the root
    element is the OPF [package], that [version] is non-empty and that
    [unique-identifier] is non-empty, and raises at the first that
    fails; the version is logged before the key is looked at.  When it
    returns, the pair is the two attributes of the root as written,
    both non-empty. *)
Theorem parse_package_identity_spec data root :
  xml data = inr root ->
  (tag root <> opf "package" ->
   parse_package_identity data = raise (ValueError RootNotPackage))
  /\ (tag root = opf "package" -> truthy (get root "version") = false ->
      parse_package_identity data = raise (ValueError MissingVersion))
  /\ (forall version,
        tag root = opf "package" ->
        get root "version" = Some version -> version <> "" ->
        truthy (get root "unique-identifier") = false ->
        parse_package_identity data
        = Run [LogRecord INFO ("OPF Version: " +:+ version)]
              (Raised (ValueError MissingUniqueIdentifier)))
  /\ (forall version key,
        result (parse_package_identity data) = Returned (version, key) ->
        tag root = opf "package"
        /\ get root "version" = Some version /\ version <> ""
        /\ get root "unique-identifier" = Some key /\ key <> "").
Proof.
  intros Hxml. split; [|split; [|split]].
  - intros Htag. unfold parse_package_identity, fromstring.
    rewrite Hxml, bind_ret_l.
    by destruct (String.eqb_spec (tag root) (opf "package")).
  - intros Htag Hversion. unfold parse_package_identity, fromstring.
    rewrite Hxml, bind_ret_l, Htag, String.eqb_refl.
    cbn [negb raise_if]. by rewrite bind_ret_l, (required_falsy _ _ Hversion).
  - intros version Htag Hversion Hne Hkey.
    unfold parse_package_identity, fromstring.
    rewrite Hxml, bind_ret_l, Htag, String.eqb_refl, Hversion.
    cbn [negb raise_if required]. rewrite bind_ret_l.
    destruct (String.eqb_spec version ""); [done|].
    by rewrite bind_ret_l, (required_falsy _ _ Hkey).
  - intros version key Hres.
    by apply (parse_package_identity_returned_iff data root version key).
Qed.

End Identity.

(** X10 on a root with a version and no unique-identifier. *)
Lemma parse_package_identity_spec_witness :
  @parse_package_identity (table_collaborators [(no_key_text, no_key_opf)])
    no_key_text
  = Run [LogRecord INFO "OPF Version: 2.0"]
        (Raised (ValueError MissingUniqueIdentifier)).
Proof.
  refine (proj1 (proj2 (proj2
    (@parse_package_identity_spec
       (table_collaborators [(no_key_text, no_key_opf)])
       no_key_text no_key_opf eq_refl))) "2.0" eq_refl eq_refl _ eq_refl).
  discriminate.
Defined.

(** ** [parse_container], further *)

Section ContainerFurther.
Context `{Collaborators}.

(** X11.  [parse_container] fails, with nothing logged, when the archive
    has no entry [META-INF/container.xml], when the entry is not UTF-8,
    when its text is not well-formed XML, and when the root of the
    document has no [rootfiles] child. *)
Theorem parse_container_failures epub :
  (NameToInfo epub !! "META-INF/container.xml" = None ->
   parse_container epub = raise (ValueError ContainerMissing))
  /\ (forall zi,
        NameToInfo epub !! "META-INF/container.xml" = Some zi ->
        (utf8 (content zi) = None ->
         parse_container epub = raise (ValueError ContainerNotUtf8))
        /\ (forall data detail,
              utf8 (content zi) = Some data -> xml data = inl detail ->
              parse_container epub
              = raise (ValueError (ContainerParseFailure detail)))
        /\ (forall data root,
              utf8 (content zi) = Some data -> xml data = inr root ->
              find root (ocf "rootfiles") = None ->
              parse_container epub = raise (ValueError NoRootfiles))).
Proof.
  unfold parse_container, read, getinfo, decode_utf8, fromstring. split.
  - by intros ->.
  - intros zi ->. rewrite !bind_ret_l. split; [|split].
    + by intros ->.
    + intros data detail -> Hxml. cbn [try_except ret result].
      by rewrite bind_ret_l, Hxml.
    + intros data root -> Hxml Hfind. cbn [try_except ret result].
      by rewrite bind_ret_l, Hxml, bind_ret_l, Hfind.
Qed.

(** X12.  A path that [parse_container] returns is never empty: it is
    the [full-path] attribute of a [rootfile] child of the [rootfiles]
    element of the decoded container document, and that child has the
    package media type. *)
Theorem parse_container_returns_declared_path epub package_content_path :
  result (parse_container epub) = Returned package_content_path ->
  package_content_path <> ""
  /\ exists zi data root rootfiles rootfile,
       NameToInfo epub !! "META-INF/container.xml" = Some zi
       /\ utf8 (content zi) = Some data
       /\ xml data = inr root
       /\ find root (ocf "rootfiles") = Some rootfiles
       /\ rootfile ∈ findall rootfiles (ocf "rootfile")
       /\ get rootfile "media-type" = Some PACKAGE_MEDIA_TYPE
       /\ get rootfile "full-path" = Some package_content_path.
Proof.
  intros Hres.
  destruct (NameToInfo epub !! "META-INF/container.xml") as [zi|] eqn:Hzi.
  2:{ unfold parse_container, read, getinfo in Hres. rewrite Hzi in Hres.
      discriminate. }
  destruct (utf8 (content zi)) as [data|] eqn:Hdata.
  2:{ unfold parse_container, read, getinfo, decode_utf8 in Hres.
      rewrite Hzi, !bind_ret_l, Hdata in Hres. discriminate. }
  destruct (xml data) as [detail|root] eqn:Hxml.
  { unfold parse_container, read, getinfo, decode_utf8, fromstring in Hres.
    rewrite Hzi, !bind_ret_l, Hdata in Hres. cbn [try_except ret result] in Hres.
    rewrite bind_ret_l, Hxml in Hres. discriminate. }
  destruct (find root (ocf "rootfiles")) as [rootfiles|] eqn:Hfind.
  2:{ unfold parse_container, read, getinfo, decode_utf8, fromstring in Hres.
      rewrite Hzi, !bind_ret_l, Hdata in Hres.
      cbn [try_except ret result] in Hres.
      rewrite bind_ret_l, Hxml, bind_ret_l, Hfind in Hres. discriminate. }
  rewrite (parse_container_reads epub zi data root rootfiles) in Hres by done.
  rewrite rootfile_loop_first_usable in Hres.
  destruct (List.find has_package_path (findall rootfiles (ocf "rootfile")))
    as [rootfile|] eqn:Hfirst; [|discriminate].
  apply find_some in Hfirst as [Hin Husable].
  unfold has_package_path, has_package_media_type in Husable.
  apply andb_prop in Husable as [Htype Hpath].
  apply bool_decide_eq_true in Htype.
  cbn in Hres. injection Hres as <-. unfold attr_or_empty in *.
  destruct (get rootfile "full-path") as [p|] eqn:Hp; [|done]. cbn.
  split; [intros ->; done|].
  exists zi, data, root, rootfiles, rootfile.
  repeat split; try done. by apply list_elem_of_In.
Qed.

End ContainerFurther.

(** X11 on an archive with nothing but its [mimetype] entry. *)
Lemma parse_container_failures_witness :
  @parse_container (table_collaborators scenario_docs) bare_epub
  = raise (ValueError ContainerMissing).
Proof.
  apply (proj1 (@parse_container_failures
                  (table_collaborators scenario_docs) bare_epub)).
  vm_compute. reflexivity.
Defined.

(** X12 on the archive of the scenario. *)
Lemma parse_container_returns_declared_path_witness :
  "OEBPS/content.opf" <> "".
Proof.
  exact (proj1 (@parse_container_returns_declared_path
                  (table_collaborators scenario_docs) scenario_epub
                  "OEBPS/content.opf" ltac:(vm_compute; reflexivity))).
Defined.

(** ** [verify_mimetype], further *)

(** X13.  [verify_mimetype] accepts no archive whose file is shorter
    than 58 bytes: the 30 bytes of the local header, the 8 of the name
    and the 20 of the content. *)
Theorem verify_mimetype_needs_58_bytes epub :
  result (verify_mimetype epub) = Returned tt ->
  58 <= length (on_disk epub).
Proof.
  intros Hres.
  destruct (decide (first_entry_is_mimetype epub)) as [Hfirst|Hnot].
  2:{ rewrite (verify_mimetype_not_first epub Hnot) in Hres. discriminate. }
  destruct (verify_mimetype_first_ok epub Hfirst) as (zi & _ & Hrun).
  rewrite Hrun in Hres. clear Hrun. rewrite !result_bind in Hres.
  destruct (result (raise_if (negb (compress_type zi =? ZIP_STORED)%Z) _));
    [|discriminate].
  destruct (result (raise_if (negb (bytes_eqb (extra zi) [])) _));
    [|discriminate].
  destruct (result (raise_if (negb (Z.land (flag_bits zi) 1 =? 0)%Z) _));
    [|discriminate].
  destruct (result (try_except (decode_ascii (content zi)) _));
    [|discriminate].
  destruct (result (raise_if (negb (bytes_eqb (seek_read (on_disk epub) 0 2)
                                      (bytes_of "PK"))) _)); [|discriminate].
  destruct (result (raise_if (negb (bytes_eqb (seek_read (on_disk epub) 30 8)
                                      (bytes_of "mimetype"))) _));
    [|discriminate].
  destruct (bytes_eqb (seek_read (on_disk epub) 38 20)
              (bytes_of "application/epub+zip")) eqn:Hcontent;
    [|discriminate].
  apply bytes_eqb_true in Hcontent.
  apply (f_equal length) in Hcontent. unfold seek_read in Hcontent.
  rewrite length_take, length_drop in Hcontent.
  change (length (bytes_of "application/epub+zip")) with 20%nat in Hcontent.
  lia.
Qed.

(** X14.  [verify_mimetype] reads the content of the [mimetype] entry
    only to decode it as ASCII: an archive whose first entry is a stored,
    unencrypted [mimetype] entry without extra field is accepted whatever
    ASCII text the entry holds, when the file on disk starts with the 58
    bytes of a well-made EPUB. *)
Theorem verify_mimetype_ignores_entry_text zi rest tail :
  zi_filename zi = "mimetype" ->
  "mimetype" ∉ map zi_filename rest ->
  compress_type zi = 0%Z -> extra zi = [] ->
  Z.testbit (flag_bits zi) 0 = false ->
  Forall (fun b => (Byte.to_N b < 128)%N) (content zi) ->
  verify_mimetype {| filelist := zi :: rest;
                     on_disk := (epub_file_start ++ tail)%list |}
  = Run [LogRecord INFO "Mimetype file verification passed."] (Returned tt).
Proof.
  intros Hname Hrest Hstored Hextra Hflag Hascii.
  set (epub := {| filelist := zi :: rest;
                  on_disk := (epub_file_start ++ tail)%list |}).
  assert (Hfirst : first_entry_is_mimetype epub).
  { unfold first_entry_is_mimetype, namelist. cbn. by rewrite Hname. }
  destruct (verify_mimetype_first_ok epub Hfirst) as (zi' & Hzi' & ->).
  assert (zi' = zi) as ->.
  { unfold mimetype_entry, NameToInfo in Hzi'. cbn in Hzi'.
    rewrite foldl_index_fresh in Hzi' by done.
    rewrite Hname, lookup_insert_eq in Hzi'. congruence. }
  rewrite Hstored, Hextra. apply land_1_testbit in Hflag. rewrite Hflag.
  apply forallb_ascii in Hascii. unfold decode_ascii. rewrite Hascii.
  reflexivity.
Qed.

(** X13 on the archive of the scenario, whose file has 58 bytes. *)
Lemma verify_mimetype_needs_58_bytes_witness :
  58 <= length (on_disk scenario_epub).
Proof.
  exact (verify_mimetype_needs_58_bytes scenario_epub
           ltac:(vm_compute; reflexivity)).
Defined.

(** X14 on an archive whose [mimetype] entry holds [text/plain]. *)
Lemma verify_mimetype_ignores_entry_text_witness :
  verify_mimetype odd_content_epub
  = Run [LogRecord INFO "Mimetype file verification passed."] (Returned tt).
Proof.
  refine (verify_mimetype_ignores_entry_text
            (stored_entry "mimetype" "text/plain") [] []
            eq_refl _ eq_refl eq_refl eq_refl _).
  - apply not_elem_of_nil.
  - apply (proj1 (forallb_ascii _)). vm_compute. reflexivity.
Defined.

(** ** [parse_metadata], further *)

Section MetadataFurther.
Context `{Collaborators}.

Lemma empty_key_not_in_identifier_ids info : "" ∉ identifier_ids info.
Proof.
  unfold identifier_ids. rewrite elem_of_list_to_set, list_elem_of_omap.
  intros (entry & _ & Hid).
  destruct (identifier_id entry) as [i|]; cbn in Hid; [|discriminate].
  destruct (String.eqb_spec i "") as [Heq|Hne]; cbn in Hid;
    [discriminate|congruence].
Qed.

(** X15.  For a document without a [metadata] element [parse_metadata]
    raises nothing and logs nothing: it returns the text
    ["Error: Missing <metadata> section in OPF file"], whatever the key,
    which is not checked.  For a document with a [metadata] element the
    empty key is always refused, also when an identifier has an empty
    id. *)
Theorem parse_metadata_edge_cases data root :
  xml data = inr root ->
  (find root (opf "metadata") = None ->
   forall key,
     parse_metadata data key
     = ret (MetadataText "Error: Missing <metadata> section in OPF file"))
  /\ (forall metadata,
        find root (opf "metadata") = Some metadata ->
        parse_metadata data ""
        = raise (ValueError (UniqueIdentifierUnmatched ""))).
Proof.
  intros Hxml. split.
  - intros Hfind key. unfold parse_metadata, fromstring.
    by rewrite Hxml, bind_ret_l, Hfind.
  - intros metadata Hfind.
    rewrite (parse_metadata_found data root metadata "" Hxml Hfind).
    rewrite bool_decide_eq_true_2; [done|].
    apply empty_key_not_in_identifier_ids.
Qed.

Lemma parse_metadata_returned_iff data root key :
  xml data = inr root -> key <> "" ->
  (exists metadata, result (parse_metadata data key) = Returned metadata)
  <-> (forall metadata,
         find root (opf "metadata") = Some metadata ->
         key ∈ declared_identifier_ids metadata).
Proof.
  intros Hxml Hne.
  destruct (find root (opf "metadata")) as [metadata|] eqn:Hfind.
  - rewrite (parse_metadata_found data root metadata key Hxml Hfind).
    pose proof (identifier_ids_declared metadata key Hne) as Hids.
    destruct (decide (key ∈ identifier_ids (extract_metadata metadata)))
      as [Hin|Hout].
    + rewrite bool_decide_eq_false_2 by (intros Hnot; by apply Hnot).
      split; [|by eexists]. intros _ m [= <-]. by apply Hids.
    + rewrite bool_decide_eq_true_2 by done. split.
      * intros [m Hm]. discriminate.
      * intros Hall. destruct Hout. by apply Hids, Hall.
  - split; [by intros _ m|]. intros _.
    unfold parse_metadata, fromstring. rewrite Hxml, bind_ret_l, Hfind.
    by eexists.
Qed.

End MetadataFurther.

(** X15 on the package without metadata section. *)
Lemma parse_metadata_edge_cases_witness :
  @parse_metadata (table_collaborators [(no_metadata_text, no_metadata_opf)])
    no_metadata_text "BookId"
  = ret (MetadataText "Error: Missing <metadata> section in OPF file").
Proof.
  exact (proj1 (@parse_metadata_edge_cases
                  (table_collaborators [(no_metadata_text, no_metadata_opf)])
                  no_metadata_text no_metadata_opf eq_refl)
           eq_refl "BookId").
Defined.

(** ** [parse_package], further *)

Section PackageFurther.
Context `{Collaborators}.

(** X16.  [parse_package] fails, with nothing logged, when the archive
    has no entry of the given path and when the entry is not UTF-8; the
    path is in the message.  When the text is not well-formed XML the
    failure is the one of the identity stage, so the string that
    [parse_metadata] would return for such a text is never produced in
    [parse_package]. *)
Theorem parse_package_read_failures epub path :
  (NameToInfo epub !! path = None ->
   parse_package epub path = raise (ValueError (PackageMissing path)))
  /\ (forall zi,
        NameToInfo epub !! path = Some zi ->
        (utf8 (content zi) = None ->
         parse_package epub path = raise (ValueError (PackageNotUtf8 path)))
        /\ (forall data detail,
              utf8 (content zi) = Some data -> xml data = inl detail ->
              parse_package epub path
              = raise (ValueError (OpfParseFailure detail)))).
Proof.
  split.
  - intros Hzi. unfold parse_package, read, getinfo. by rewrite Hzi.
  - intros zi Hzi. split.
    + intros Hdata. unfold parse_package, read, getinfo, decode_utf8.
      by rewrite Hzi, !bind_ret_l, Hdata.
    + intros data detail Hdata Hxml.
      rewrite (parse_package_reads epub path zi data Hzi Hdata).
      unfold parse_package_identity, fromstring. by rewrite Hxml.
Qed.

(** X17.  A package document without [metadata] element does not stop
    [parse_package]: after the two records of the identity stage the run
    goes on with the manifest, the spine and the guide, and the
    unique-identifier is never matched against an identifier. *)
Theorem parse_package_without_metadata epub path zi data root version key :
  NameToInfo epub !! path = Some zi ->
  utf8 (content zi) = Some data ->
  xml data = inr root ->
  tag root = opf "package" ->
  get root "version" = Some version -> version <> "" ->
  get root "unique-identifier" = Some key -> key <> "" ->
  find root (opf "metadata") = None ->
  parse_package epub path
  = (Run [ LogRecord INFO ("OPF Version: " +:+ version);
           LogRecord INFO ("OPF Unique Identifier: " +:+ key) ]
         (Returned tt) ;;
     manifest <- parse_manifest data MIME_TYPES SUGGESTED_MIME_TYPES ;;
     spine <- parse_spine data (items_by_id manifest) ;;
     guide <- parse_guide data ;;
     ret tt).
Proof.
  intros Hzi Hdata Hxml Htag Hversion Hvne Hkey Hkne Hfind.
  rewrite (parse_package_reads epub path zi data Hzi Hdata).
  rewrite (parse_package_identity_returns data root version key) by done.
  assert (Hmeta : parse_metadata data key
                  = ret (MetadataText
                           "Error: Missing <metadata> section in OPF file")).
  { unfold parse_metadata, fromstring. by rewrite Hxml, bind_ret_l, Hfind. }
  unfold bind at 1. cbn [result logged]. rewrite Hmeta, !bind_ret_l.
  reflexivity.
Qed.

End PackageFurther.

(** X16 on an archive whose container names a missing entry. *)
Lemma parse_package_read_failures_witness :
  @parse_package (table_collaborators scenario_docs)
    dangling_epub "OEBPS/content.opf"
  = raise (ValueError (PackageMissing "OEBPS/content.opf")).
Proof.
  apply (proj1 (@parse_package_read_failures
                  (table_collaborators scenario_docs)
                  dangling_epub "OEBPS/content.opf")).
  vm_compute. reflexivity.
Defined.

(** X17 on the package without metadata section: the run reaches the
    guide. *)
Lemma parse_package_without_metadata_witness :
  @parse_package (table_collaborators
                    [(scenario_container_text, scenario_container);
                     (no_metadata_text, no_metadata_opf)])
    no_metadata_epub "OEBPS/content.opf"
  = Run [ LogRecord INFO "OPF Version: 3.0";
          LogRecord INFO "OPF Unique Identifier: BookId";
          LogRecord INFO "Found <spine> section in OPF file";
          LogRecord INFO "Table of Contents ID: ncx";
          LogRecord INFO "Primary Content: 1 items";
          LogRecord INFO "No <guide> section found in OPF file" ]
        (Returned tt).
Proof.
  rewrite (@parse_package_without_metadata
             (table_collaborators
                [(scenario_container_text, scenario_container);
                 (no_metadata_text, no_metadata_opf)])
             no_metadata_epub "OEBPS/content.opf"
             (stored_entry "OEBPS/content.opf" no_metadata_text)
             no_metadata_text no_metadata_opf "3.0" "BookId"
             ltac:(vm_compute; reflexivity) eq_refl eq_refl eq_refl eq_refl
             ltac:(discriminate) eq_refl ltac:(discriminate) eq_refl).
  vm_compute. reflexivity.
Defined.

Section PackageAccepts.
Context `{Collaborators}.

Lemma parse_manifest_returned_inv known suggested data root items :
  xml data = inr root ->
  result (parse_manifest data known suggested) = Returned items ->
  exists manifest,
    find root (opf "manifest") = Some manifest
    /\ Forall (fun item => item_complete item = true)
              (findall manifest (opf "item"))
    /\ NoDup (map (fun item => attr_or_empty item "href")
                  (findall manifest (opf "item")))
    /\ items = map item_data_of (findall manifest (opf "item")).
Proof.
  intros Hxml Hres.
  destruct (find root (opf "manifest")) as [manifest|] eqn:Hfind.
  2:{ unfold parse_manifest, fromstring in Hres.
      rewrite Hxml, bind_ret_l, Hfind in Hres. discriminate. }
  exists manifest. split; [done|].
  destruct (for_each (manifest_body known suggested)
              (findall manifest (opf "item")) ([], ∅))
    as [lg [st|e]] eqn:Hloop.
  - destruct (manifest_loop_returned_inv _ _ _ _ _ _ _ Hloop)
      as (Hall & Hnd & _).
    split; [done|]. split; [done|].
    rewrite (parse_manifest_accepts known suggested data root manifest)
      in Hres by done.
    cbn in Hres. by injection Hres as <-.
  - assert (Hve : raises_within is_ValueError
                    (for_each (manifest_body known suggested)
                       (findall manifest (opf "item")) ([], ∅))).
    { apply raises_within_for_each. intros [info hrefs] item.
      unfold manifest_body. within. }
    unfold raises_within in Hve. rewrite Hloop in Hve. cbn in Hve.
    destruct e as [why| | |]; try done.
    rewrite (parse_manifest_raised known suggested data root manifest
               lg why Hxml Hfind Hloop) in Hres. discriminate.
Qed.

Lemma parse_guide_returned_iff data root :
  xml data = inr root ->
  (exists references, result (parse_guide data) = Returned references)
  <-> (forall guide,
         find root (opf "guide") = Some guide ->
         Forall (fun ref => reference_complete ref = true)
                (findall guide (opf "reference"))).
Proof.
  intros Hxml. unfold parse_guide, fromstring. rewrite Hxml, bind_ret_l.
  destruct (find root (opf "guide")) as [guide|].
  - destruct (first_incomplete_reference (findall guide (opf "reference")))
      as [Hall|(pre & ref & post & Hrefs & Hpre & Href)].
    + rewrite (guide_loop_accepts _ [] Hall). split; [|by eexists].
      by intros _ g [= <-].
    + rewrite Hrefs, (guide_loop_rejects pre ref post [] Hpre Href). split.
      * intros [references Hres]. discriminate.
      * intros Hall. specialize (Hall guide eq_refl).
        rewrite Hrefs in Hall. apply Forall_app in Hall as [_ Hall].
        apply Forall_cons in Hall as [Hall _]. congruence.
  - split; [by intros _ g|]. intros _. by eexists.
Qed.

(** X18.  For a package document that is read and parsed,
    [parse_package] returns exactly when: the root is the OPF [package]
    with a non-empty version and unique-identifier; the metadata
    section, if there is one, declares an identifier whose id is the
    unique-identifier; there is a manifest whose items are complete with
    distinct hrefs; there is a spine with a non-empty [toc] whose
    [itemref]s have distinct idrefs and pass the checks against the
    lookup built from that manifest; and the references of the guide, if
    there is one, are complete. *)
Theorem parse_package_returns_iff epub path zi data root :
  NameToInfo epub !! path = Some zi ->
  utf8 (content zi) = Some data ->
  xml data = inr root ->
  result (parse_package epub path) = Returned tt
  <-> (tag root = opf "package"
       /\ truthy (get root "version") = true
       /\ truthy (get root "unique-identifier") = true)
      /\ (forall metadata,
            find root (opf "metadata") = Some metadata ->
            attr_or_empty root "unique-identifier"
              ∈ declared_identifier_ids metadata)
      /\ (exists manifest spine,
            find root (opf "manifest") = Some manifest
            /\ Forall (fun item => item_complete item = true)
                      (findall manifest (opf "item"))
            /\ NoDup (map (fun item => attr_or_empty item "href")
                          (findall manifest (opf "item")))
            /\ find root (opf "spine") = Some spine
            /\ truthy (get spine "toc") = true
            /\ Forall (fun r =>
                         itemref_passes
                           (items_by_id
                              (map item_data_of
                                   (findall manifest (opf "item")))) r
                         = true)
                      (findall spine (opf "itemref"))
            /\ NoDup (map (fun r => attr_or_empty r "idref")
                          (findall spine (opf "itemref"))))
      /\ (forall guide,
            find root (opf "guide") = Some guide ->
            Forall (fun ref => reference_complete ref = true)
                   (findall guide (opf "reference"))).
Proof.
  intros Hzi Hdata Hxml.
  rewrite (parse_package_reads epub path zi data Hzi Hdata). split.
  - rewrite result_bind.
    destruct (result (parse_package_identity data)) as [[version key]|e]
      eqn:Hidentity; [|discriminate].
    apply (parse_package_identity_returned_iff data root version key Hxml)
      in Hidentity as (Htag & Hversion & Hvne & Hkey & Hkne).
    rewrite result_bind.
    destruct (result (parse_metadata data key)) as [metadata|e] eqn:Hmetadata;
      [|discriminate].
    rewrite result_bind.
    destruct (result (parse_manifest data MIME_TYPES SUGGESTED_MIME_TYPES))
      as [manifest_info|e] eqn:Hmanifest; [|discriminate].
    destruct (parse_manifest_returned_inv _ _ data root manifest_info
                Hxml Hmanifest) as (manifest & Hfind & Hall & Hnd & ->).
    rewrite result_bind.
    destruct (result (parse_spine data _)) as [info|e] eqn:Hspine;
      [|discriminate].
    destruct (find root (opf "spine")) as [spine|] eqn:Hfindspine.
    2:{ unfold parse_spine, fromstring in Hspine.
        rewrite Hxml, bind_ret_l, Hfindspine in Hspine. discriminate. }
    destruct (parse_spine_returned_inv _ data root spine info
                Hxml Hfindspine Hspine)
      as (toc & Htoc & Htne & Hpass & Hidrefs & _).
    rewrite result_bind.
    destruct (result (parse_guide data)) as [references|e] eqn:Hguide;
      [|discriminate].
    intros _. split; [|split; [|split]].
    + rewrite Hversion, Hkey. cbn.
      destruct (String.eqb_spec version ""); [done|].
      by destruct (String.eqb_spec key "").
    + unfold attr_or_empty. rewrite Hkey. cbn.
      apply (parse_metadata_returned_iff data root key Hxml Hkne). eauto.
    + exists manifest, spine. repeat split; try done.
      rewrite Htoc. cbn. by destruct (String.eqb_spec toc "").
    + apply (parse_guide_returned_iff data root Hxml). eauto.
  - intros ((Htag & Hversion & Hkey) & Hmetadata
            & (manifest & spine & Hfind & Hall & Hnd & Hfindspine & Htoc
               & Hpass & Hidrefs) & Hguide).
    destruct (get root "version") as [version|] eqn:Hv; [|done].
    destruct (get root "unique-identifier") as [key|] eqn:Hk; [|done].
    assert (Hvne : version <> "") by (intros ->; done).
    assert (Hkne : key <> "") by (intros ->; done).
    destruct (get spine "toc") as [toc|] eqn:Ht; [|done].
    assert (Htne : toc <> "") by (intros ->; done).
    unfold attr_or_empty in Hmetadata. rewrite Hk in Hmetadata.
    cbn in Hmetadata.
    apply (parse_metadata_returned_iff data root key Hxml Hkne) in Hmetadata
      as [metadata Hmetadata].
    apply (parse_guide_returned_iff data root Hxml) in Hguide
      as [references Hguide].
    rewrite result_bind.
    rewrite (parse_package_identity_returns data root version key) by done.
    cbn [result]. rewrite result_bind, Hmetadata, result_bind.
    rewrite (parse_manifest_accepts _ _ data root manifest) by done.
    cbn [result]. rewrite result_bind.
    rewrite (parse_spine_accepts _ data root spine toc) by done.
    cbn [result]. by rewrite result_bind, Hguide.
Qed.

End PackageAccepts.

(** X18 on the archive of the scenario. *)
Lemma parse_package_returns_iff_witness :
  result (@parse_package (table_collaborators scenario_docs)
            scenario_epub "OEBPS/content.opf") = Returned tt.
Proof.
  apply (proj2 (@parse_package_returns_iff
                  (table_collaborators scenario_docs)
                  scenario_epub "OEBPS/content.opf"
                  (stored_entry "OEBPS/content.opf" scenario_opf_text)
                  scenario_opf_text scenario_opf
                  ltac:(vm_compute; reflexivity) eq_refl eq_refl)).
  split; [repeat split|]. split; [|split].
  - intros metadata Hfind. vm_compute in Hfind. injection Hfind as <-.
    compute_done.
  - exists scenario_manifest, scenario_spine.
    split; [reflexivity|]. split; [vm_compute; repeat constructor|].
    split; [compute_done|]. split; [reflexivity|]. split; [reflexivity|].
    split; [vm_compute; repeat constructor|compute_done].
  - intros guide Hfind. vm_compute in Hfind. discriminate.
Defined.

(** ** The entry point *)

Lemma verify_mimetype_returned_run epub :
  result (verify_mimetype epub) = Returned tt ->
  verify_mimetype epub
  = Run [LogRecord INFO "Mimetype file verification passed."] (Returned tt).
Proof.
  destruct (decide (first_entry_is_mimetype epub)) as [Hfirst|Hnot].
  2:{ by rewrite (verify_mimetype_not_first epub Hnot). }
  destruct (verify_mimetype_first_ok epub Hfirst) as (zi & _ & ->).
  unfold decode_ascii.
  destruct (negb (compress_type zi =? ZIP_STORED)%Z); [discriminate|].
  destruct (negb (bytes_eqb (extra zi) [])); [discriminate|].
  destruct (negb (Z.land (flag_bits zi) 1 =? 0)%Z); [discriminate|].
  destruct (forallb _ (content zi)); [|discriminate].
  destruct (negb (bytes_eqb (seek_read (on_disk epub) 0 2) _));
    [discriminate|].
  destruct (negb (bytes_eqb (seek_read (on_disk epub) 30 8) _));
    [discriminate|].
  destruct (negb (bytes_eqb (seek_read (on_disk epub) 38 20) _));
    [discriminate|].
  reflexivity.
Qed.

Section Main.
Context `{Collaborators}.

(** X19.  The entry point runs the three steps in sequence.  When the
    identification entry is refused the container is not read: the run
    is that of [verify_mimetype].  When it is accepted and the container
    gives a path, [parse_package] reads that path as it is written in
    the container, so that a path that names no entry of the archive
    ends the run with the missing-package error for that path. *)
Theorem main_follows_container_path epub :
  (forall e, result (verify_mimetype epub) = Raised e ->
             main epub = verify_mimetype epub)
  /\ (forall lg package_content_path,
        result (verify_mimetype epub) = Returned tt ->
        parse_container epub = Run lg (Returned package_content_path) ->
        main epub
        = Run (LogRecord INFO "Mimetype file verification passed."
                 :: lg ++ logged (parse_package epub package_content_path))%list
              (result (parse_package epub package_content_path))
        /\ (NameToInfo epub !! package_content_path = None ->
            main epub
            = Run (LogRecord INFO "Mimetype file verification passed." :: lg)
                  (Raised (ValueError (PackageMissing package_content_path))))).
Proof.
  split.
  - intros e Hres. unfold main, bind. rewrite Hres, <- Hres. apply run_eta.
  - intros lg p Hverify Hcontainer.
    assert (Hrun : main epub
      = Run (LogRecord INFO "Mimetype file verification passed."
               :: lg ++ logged (parse_package epub p))%list
            (result (parse_package epub p))).
    { unfold main. rewrite (verify_mimetype_returned_run epub Hverify).
      rewrite Hcontainer. reflexivity. }
    split; [exact Hrun|]. intros Hmissing. rewrite Hrun.
    unfold parse_package, read, getinfo. rewrite Hmissing. cbn.
    by rewrite app_nil_r.
Qed.

End Main.

(** X19 on an archive whose container names a missing entry. *)
Lemma main_follows_container_path_witness :
  @main (table_collaborators scenario_docs) dangling_epub
  = Run [ LogRecord INFO "Mimetype file verification passed.";
          LogRecord INFO "EPUB Rootfile Found: OEBPS/content.opf" ]
        (Raised (ValueError (PackageMissing "OEBPS/content.opf"))).
Proof.
  refine (proj2 (proj2 (@main_follows_container_path
                          (table_collaborators scenario_docs) dangling_epub)
                   [LogRecord INFO "EPUB Rootfile Found: OEBPS/content.opf"]
                   "OEBPS/content.opf" _ _) _).
  all: vm_compute; reflexivity.
Defined.

Example main_scenario :
  result (@main (table_collaborators scenario_docs) scenario_epub)
  = Returned tt.
Proof. vm_compute. reflexivity. Qed.

(** ** The tables of the module *)

(** X20.  With the tables of the module, the warning for a media type
    outside [MIME_TYPES] is the "Deprecated" one, naming
    [application/vnd.ms-opentype], for [application/x-font-ttf] alone,
    and the "Unknown" one for every other type, among them
    [application/vnd.adobe-page-template+xml], whose suggestion is
    [None].  The type [text/x-oeb1-document], which [parse_spine] takes
    as a content type, is not in [MIME_TYPES]: an item of that type
    passes the spine and draws the "Unknown" warning in the manifest. *)
Theorem module_tables_warnings (media_type id : string) :
  media_type_warning SUGGESTED_MIME_TYPES media_type id
  = (if (String.eqb media_type "application/x-font-ttf")
     then ("Deprecated media-type 'application/x-font-ttf' in <item> with id '"
             +:+ id
             +:+ "'. Consider using 'application/vnd.ms-opentype' instead.")
     else ("Unknown media-type '" +:+ media_type +:+ "' in <item> with id '"
             +:+ id +:+ "'."))
  /\ is_content_type (Some "text/x-oeb1-document") = true
  /\ ("text/x-oeb1-document" ∉ MIME_TYPES)
  /\ (forall t, t ∈ OPS_CONTENT_TYPES -> t <> "text/x-oeb1-document" ->
                t ∈ MIME_TYPES).
Proof.
  split; [|split; [compute_done|split; [compute_done|]]].
  - unfold media_type_warning, SUGGESTED_MIME_TYPES.
    destruct (String.eqb_spec media_type "application/x-font-ttf") as [->|Hne].
    + rewrite lookup_insert_eq. reflexivity.
    + rewrite lookup_insert_ne by done.
      destruct (decide ("application/vnd.adobe-page-template+xml" = media_type))
        as [<-|Hne'].
      * rewrite lookup_insert_eq. reflexivity.
      * rewrite lookup_insert_ne by done. by rewrite lookup_empty.
  - intros t Ht Hne. unfold OPS_CONTENT_TYPES in Ht. unfold MIME_TYPES.
    set_solver.
Qed.
